(* ===== verification/_CoqProject ===== *)
-Q . S2P
Prelude.v
CStr.v
Transport.v
Dataset.v
NodeTable.v
Codec.v
Engine.v
Registry.v
App.v
System.v
Boot.v
Scenarios.v
