(* ===== verification/Prelude.v ===== *)
(** * Thread_ESP32: a verification of the [thread_comm] peer-discovery module

    The repository runs two ESP32 boards on an OpenThread mesh.  Each
    board links the same module, [thread_comm]
    (src/NODE_1/main/thread_comm.c with its header
    src/NODE_2/main/thread_comm.h), and an application
    (src/NODE_{1,2}/main/esp_ot_cli.c) that forms the mesh and then calls
    the module's API under the OpenThread lock.

    ** The program's parts and how they interact

    - Node table ([nodes[MAX_NODES]], [find_node], [alloc_node],
      [register_node], [thread_comm_print_nodes]): eight slots of
      [thread_node_t], scanned linearly.
    - Message codec: the two text frames [HELLO|id=%s|role=%s] and
      [DATA|from=%s|%s], written with [snprintf] and read back with
      [sscanf] in [udp_handler].
    - Transport binding: the UDP socket opened and bound in
      [thread_comm_init], the [otUdpSend] calls of [thread_comm_announce]
      and [thread_comm_send], and OpenThread's call of [udp_handler] for
      every datagram.  OpenThread itself is an external collaborator.
    - Protocol engine: [thread_comm_init], [thread_comm_announce],
      [thread_comm_send], [thread_comm_register_rx_cb] and [udp_handler]
      over the module's static state [socket], [self_id], [self_role],
      [nodes] and [rx_cb].  [udp_handler] calls [register_node] and then
      [thread_comm_send] to answer a HELLO.
    - Applications (esp_ot_cli.c of each node): [app_main] initialises
      the ESP-IDF services and creates [ot_task_worker], which builds
      the operational dataset, starts Thread, initialises the module and
      starts [app_task]; both tasks hold the OpenThread lock around every
      call into the module, and the OpenThread main loop, which delivers
      datagrams to [udp_handler], runs between their locked regions.

    ** Files of the development, in dependency order

    - [Prelude]: the [tc_scope] notations, a state-and-trace monad
      [stm] for code that mutates static state and performs I/O, the
      [tcomm] hint databases, shared tactics and lemmas on [string].
    - [CStr]: the C library routines the module uses, on NUL-free
      strings: [strncpy] into a zeroed field, [snprintf] truncation,
      [strncmp] prefix tests, and the [sscanf] conversions [%N[^c]],
      [%Ns] and literal matching.
    - [Transport]: the data the OpenThread API exchanges with the module
      ([otIp6Address], [otMessageInfo], [otError], the socket state) and
      [otMessageRead]; the collaborator is modelled from its documented
      behaviour, only as far as the module observes it.
    - [Dataset]: the [otOperationalDataset] each [ot_task_worker] builds,
      one [dataset_write] per statement after the [memset], and the
      "Start Thread" region ([start_thread]).
    - [NodeTable]: [thread_node_t], the slot array as a list of
      [MAX_NODES] slots, [find_node], [alloc_node], [register_node] and
      the print loop as in the C loops (bounded by [MAX_NODES], not by
      the list), the table invariant [table_wf], and the spec's registry
      laws (upsert, capacity) derived from them.
    - [Codec]: the frame formats and their parsers, and the round trips
      between [snprintf] and [sscanf].
    - [Engine]: the module state as a record, each API function and the
      UDP handler as an [stm] computation emitting the module's observable
      events (datagrams sent, callback invocations, warnings, printed
      lines); [api_call] and [run_calls] for a sequence of calls under
      the lock, with [run_calls_inv] (a section over any state and event
      property the calls keep), and the theorems on their behaviour.
    - [Registry]: the spec's registry (section 4.1) as a [gmap] from
      identifier to role and address with [spec_register] and its
      [TableFull] result; the abstraction [table_view] of the slot array;
      the interface [PeerTable]/[PeerTableLaws] (a typeclass of tables
      and their laws) with the slot array and the registry as instances;
      [table_equiv], the tables with the same view, and [Proper]
      instances for it.
    - [App]: the locked regions of both applications' tasks, as lists of
      [api_call]s ([node1_worker_region], [node1_app_regions],
      [node2_worker_region], [node2_app_regions] with the device role read
      in each iteration as input), and what they do for discovery.
    - [System]: the two boards on one network, a step relation [step]
      over both module states, each board's task progress, NODE_2's
      [announced] flag and the datagrams in flight: a locked region of a
      task, a delivery by a board's OpenThread main loop (once it runs
      and the socket is bound), or a loss.  [sched_step] and [run_sched]
      run concrete schedules and are proved to take only [step]s;
      [rx_log] is the log of the boards' [on_thread_data] callbacks.
    - [Boot]: [app_main], [init_openthread_netif] and [ot_task_worker]
      of each board in a state-and-abort monad (stdpp's [MRet], [MBind],
      [MThrow]): every [ESP_ERROR_CHECK] and the [assert] on the new
      netif abort the board, the results of [xTaskCreate] and
      [esp_netif_set_default_netif] are ignored as in the code; the
      answers of the ESP-IDF services are an input record [esp_idf].
    - [Scenarios]: the spec's scenarios and the two boards' exchange,
      evaluated on the model, and the general theorems behind the
      divergences they show.

    ** What the theorems show (groups)

    - Node table: [register_node] keeps the invariant (exactly
      [MAX_NODES] slots, one active slot per identifier, fields within
      their C bounds); [find_node] agrees with a reference search; a
      registration is found afterwards, other entries are untouched; the
      upsert law and the capacity law of the spec.
    - Codec: HELLO and DATA frames produced by [snprintf] are parsed back
      by [sscanf] to the same fields, truncated to the parser's bounds
      (the role to 7 characters, the payload to what fits in 127 bytes),
      exactly when the fields fit those bounds; every decoded field fits
      the buffer [udp_handler] reads it into; any buffer without one of
      the two prefixes is ignored.
    - Engine: the functional behaviour of each API function and of the
      handler on every branch, errors included; the invariant along any
      sequence of calls; the bound of 127 bytes on every datagram sent;
      an announce or a send delivered to the peer registers or reaches
      its callback; while [otUdpSend] fails, every announce and send
      leaks the message it allocated (the code ignores the result and
      never frees it), until OpenThread's buffer pool is empty.
    - Registry: the slot array refines the spec's registry: every
      sequence of registrations is the spec's sequence on the view, the
      spec's [TableFull] is exactly the code's full table, and the
      engine's send depends on the table only through its view.
    - Applications: NODE_1's worker always ends with an empty table and
      three announces; after it, no ping reaches [node_2] unless a HELLO
      of [node_2] is delivered; NODE_2 announces exactly once.
    - System: invariants of every reachable state, proved by induction
      on the runs: each board's table holds only the other board at its
      address, every datagram in flight is a sender's own HELLO or a DATA
      frame from its identity of at most 127 bytes, and every line a
      board's [on_thread_data] logs names the other board at its
      address; once NODE_2's single announce is lost, NODE_1 never
      learns [node_2]; and from every reachable state in which NODE_1
      is in its send loop with [node_2] known and NODE_2 listens, two
      steps bring NODE_1's reading to NODE_2's callback and its log.
    - Boot: a board aborts exactly at its first failing checked call,
      before Thread or [thread_comm] is started; when every check passes
      the board runs the main loop with the network of [joined_dataset]
      started and [thread_comm] initialised with its identity, and its
      state is the one the system model's first step of the board
      reaches (the system model refines the boot code's end state); a
      failed [xTaskCreate] of the worker goes unnoticed.
    - Scenarios: a HELLO without [id=] still registers a peer with an
      empty id (the [sscanf] result is unchecked); any answer of
      [udp_handler] is a DATA frame that changes nothing where it is
      delivered, so discovery is never mutual.  Examples evaluate the
      spec's scenarios on the code, where they differ from the spec (the
      HELLO answer is a DATA frame, the role is cut to 7 characters).

    ** Bounds and fuel

    Every loop of the module is a [for] over [MAX_NODES] slots; it is
    modelled by structural recursion on the remaining iteration count,
    so no fuel can run out.  The [sscanf] field widths (15, 7, 127) and
    the buffer sizes (64, 128) are the constants of the source.  The
    applications' [while (1)] loops are modelled by their first [k]
    iterations ([node1_app_regions k]) or by the list of roles read in
    them ([node2_app_regions]); the theorems hold for every [k] and
    every list.  In the system model the loops are unbounded: NODE_1's
    program counter grows without bound and [node1_region] repeats the
    send loop's region, NODE_2's loop takes one step per iteration; the
    invariants hold for runs of any length.

    ** Not modelled

    Informational logging ([ESP_LOGI]) other than the callbacks' lines,
    the text [otIp6AddressToString] gives an address (a parameter, cut
    to the buffer as the code does), and the delays ([vTaskDelay]) and
    task priorities: the system model allows every interleaving of
    locked regions and deliveries, which contains the schedules the
    delays produce.  The internals of the ESP-IDF services the boot code
    calls (NVS, event loop, netif, eventfd, FreeRTOS): only their
    answers are modelled, as an input of [Boot];
    the TLV encoding of the dataset ([otDatasetConvertToTlvs] is the
    identity: the active dataset is the one the code built) and the
    internals of OpenThread
    (routing, attachment, message buffers, multicast delivery), of which
    only the results the module sees are modelled: the socket results,
    the free message buffers and the result of [otUdpSend] are read
    from [ot_stack], fixed per board except for the buffers the module
    leaks, and the network may lose any datagram.  [otMessageAppend],
    whose result the code also ignores, is taken to append the whole
    frame (it fails only when the pool runs out while the message
    grows, which the model does not count).

    ** Assumptions on OpenThread

    [udp_handler] reads its buffer with [otMessageRead(msg, 0, ...)],
    from offset 0 of the message.  The model takes the received
    message to be the UDP payload ([otMessageRead] is [substring] of
    the payload).  In OpenThread's own UDP receive path the message
    still holds the IPv6 and UDP headers, and the payload starts at
    [otMessageGetOffset(msg)]; read at 0, the buffer would start with
    the headers, match neither prefix, and every datagram would be
    dropped.  The receive-path theorems (of [udp_handler], the
    deliveries of [Engine], [Scenarios] and [System]) hold under this
    assumption; unless the platform hands the callback a message whose
    payload starts at offset 0, the read is a defect of the code.
    [thread_comm_init] reads the socket results from [ot_stack], fixed
    per board: a second [thread_comm_init] on an open socket sees the
    same results, not OpenThread's [OT_ERROR_ALREADY].
*)

From stdpp Require Import base list strings.
From Stdlib Require Import String Ascii Lia.

Declare Scope tc_scope.
Delimit Scope tc_scope with tc.

(** ** A state-and-trace monad

    The module keeps its state in static variables and performs I/O
    through OpenThread.  A computation takes the state, and returns its
    result, the new state and the events it performed, in order. *)

Definition stm (S E A : Type) : Type := S -> A * S * list E.

Definition stm_ret {S E A} (a : A) : stm S E A := fun s => (a, s, []).

Definition stm_bind {S E A B} (m : stm S E A) (k : A -> stm S E B) : stm S E B :=
  fun s =>
    let '(a, s1, e1) := m s in
    let '(b, s2, e2) := k a s1 in
    (b, s2, e1 ++ e2).

Definition stm_get {S E} : stm S E S := fun s => (s, s, []).

Definition stm_put {S E} (s' : S) : stm S E unit := fun _ => (tt, s', []).

Definition stm_modify {S E} (f : S -> S) : stm S E unit := fun s => (tt, f s, []).

Definition stm_emit {S E} (e : E) : stm S E unit := fun s => (tt, s, [e]).

Notation "x <- m ;; k" := (stm_bind m (fun x => k))
  (at level 100, m at next level, right associativity) : tc_scope.
Notation "m ;; k" := (stm_bind m (fun _ => k))
  (at level 100, right associativity) : tc_scope.

Section StmLaws.
Context {S E : Type}.

Lemma stm_bind_ret_l {A B} (a : A) (k : A -> stm S E B) s :
  stm_bind (stm_ret a) k s = k a s.
Proof. unfold stm_bind, stm_ret. destruct (k a s) as [[b s'] e]. done. Qed.

Lemma stm_bind_ret_r {A} (m : stm S E A) s :
  stm_bind m stm_ret s = m s.
Proof. unfold stm_bind, stm_ret. destruct (m s) as [[a s'] e]. by rewrite app_nil_r. Qed.

Lemma stm_bind_assoc {A B C} (m : stm S E A) (k : A -> stm S E B)
      (h : B -> stm S E C) s :
  stm_bind (stm_bind m k) h s = stm_bind m (fun a => stm_bind (k a) h) s.
Proof.
  unfold stm_bind. destruct (m s) as [[a s1] e1].
  destruct (k a s1) as [[b s2] e2]. destruct (h b s2) as [[c s3] e3].
  by rewrite app_assoc.
Qed.

(** A computation that never emits keeps its events empty; the state
    and events of a bind are those of its parts. *)
Lemma stm_bind_run {A B} (m : stm S E A) (k : A -> stm S E B) s a s1 e1 :
  m s = (a, s1, e1) ->
  stm_bind m k s = (fst (fst (k a s1)), snd (fst (k a s1)), e1 ++ snd (k a s1)).
Proof. intros Hm. unfold stm_bind. rewrite Hm. by destruct (k a s1) as [[b s2] e2]. Qed.
End StmLaws.

(** ** Strings

    C strings are modelled by [string] values that hold no NUL byte;
    the byte buffers they live in are modelled where their size matters
    (see [CStr]).  The Standard Library has few lemmas on [string]: the
    ones the development needs are proved here once. *)

#[local] Open Scope string_scope.

(** stdpp declares [String.append] [simpl never]; [str_cbn] unfolds one
    step of the string functions instead. *)
Lemma str_append_cons (c : ascii) (s1 s2 : string) :
  String c s1 ++ s2 = String c (s1 ++ s2).
Proof. reflexivity. Qed.

Lemma str_append_nil_l (s : string) : EmptyString ++ s = s.
Proof. reflexivity. Qed.

Ltac str_cbn :=
  rewrite ?str_append_cons, ?str_append_nil_l in *;
  cbn [String.length String.substring String.prefix] in *.

Lemma str_length_append (s1 s2 : string) :
  String.length (s1 ++ s2) = String.length s1 + String.length s2.
Proof. induction s1 as [|c s1 IH]; str_cbn; [done | by rewrite IH]. Qed.

Lemma str_append_assoc (s1 s2 s3 : string) :
  (s1 ++ s2) ++ s3 = s1 ++ (s2 ++ s3).
Proof. induction s1 as [|c s1 IH]; str_cbn; [done | by rewrite IH]. Qed.

Lemma str_append_nil_r (s : string) : s ++ EmptyString = s.
Proof. induction s as [|c s IH]; str_cbn; [done | by rewrite IH]. Qed.

(** [substring 0 n] keeps the first [n] characters. *)
Lemma substring_0_length (n : nat) (s : string) :
  String.length (substring 0 n s) = Nat.min n (String.length s).
Proof.
  revert n. induction s as [|c s IH]; intros [|n]; str_cbn; [done..| by rewrite IH].
Qed.

Lemma substring_0_id (n : nat) (s : string) :
  String.length s <= n -> substring 0 n s = s.
Proof.
  revert n. induction s as [|c s IH]; intros [|n] Hn; str_cbn; try done; try lia.
  f_equal. apply IH. lia.
Qed.

Lemma substring_0_append (n : nat) (s1 s2 : string) :
  String.length s1 <= n ->
  substring 0 n (s1 ++ s2) = s1 ++ substring 0 (n - String.length s1) s2.
Proof.
  revert n. induction s1 as [|c s1 IH]; intros [|n] Hn; str_cbn; try lia.
  - by rewrite Nat.sub_0_r.
  - by rewrite Nat.sub_0_r.
  - f_equal. apply IH. lia.
Qed.

Lemma substring_0_idem (n m : nat) (s : string) :
  substring 0 n (substring 0 m s) = substring 0 (Nat.min n m) s.
Proof.
  revert n m. induction s as [|c s IH]; intros [|n] [|m]; str_cbn; auto.
  by rewrite IH.
Qed.

Lemma substring_0_0 (s : string) : substring 0 0 s = EmptyString.
Proof. by destruct s. Qed.

Lemma prefix_append (p s : string) : String.prefix p (p ++ s) = true.
Proof.
  induction p as [|c p IH]; str_cbn.
  - by destruct s.
  - destruct (ascii_dec c c); [exact IH | congruence].
Qed.

(** [prefix p s = true] exactly when [s] is [p] followed by something. *)
Lemma prefix_spec (p s : string) :
  String.prefix p s = true <-> exists r, s = p ++ r.
Proof.
  split.
  - revert s. induction p as [|c p IH]; intros s H.
    + by exists s.
    + destruct s as [|d s]; str_cbn; [done|].
      destruct (ascii_dec c d) as [->|]; [|done].
      destruct (IH s H) as [r ->]. by exists r.
  - intros [r ->]. apply prefix_append.
Qed.

Lemma substring_0_prefix (n : nat) (s : string) :
  String.prefix (substring 0 n s) s = true.
Proof.
  revert n. induction s as [|c s IH]; intros [|n]; str_cbn; auto.
  destruct (ascii_dec c c); [apply IH | congruence].
Qed.

(** ** Automation

    [tcomm] holds the lemmas [auto] applies (filled by the component
    files), [tcomm_rw] the rewrite rules above; [tc_simpl] normalises
    string lengths and appends. *)

Create HintDb tcomm discriminated.
Create Rewrite HintDb tcomm_rw.
#[export] Hint Rewrite str_length_append str_append_assoc str_append_nil_r
  substring_0_length substring_0_idem substring_0_0 prefix_append : tcomm_rw.
#[export] Hint Rewrite @stm_bind_ret_l @stm_bind_ret_r @stm_bind_assoc : tcomm_rw.

Ltac tc_simpl := str_cbn; autorewrite with tcomm_rw in *; str_cbn.

(** Case analysis on a [match] or [if] of the goal, keeping the equation. *)
Ltac case_goal :=
  match goal with
  | |- context [match ?x with _ => _ end] =>
      let E := fresh "E" in destruct x eqn:E
  end.
