(* ===== verification/CStr.v ===== *)
(** * C library string routines used by thread_comm.c

    The module handles text with [strncpy], [strcmp], [strncmp],
    [snprintf] and [sscanf].  A C string is modelled by the [string] of
    its characters before the terminating NUL; [cstr] cuts a raw byte
    buffer at its first NUL.  Each routine is modelled on these values,
    with the bound it is given in the source. *)

From stdpp Require Import base list strings.
From Stdlib Require Import String Ascii Lia.
From S2P Require Import Prelude.

#[local] Open Scope string_scope.

Module CStr.

Definition NUL : ascii := "000".

(** [str_forall p s]: every character of [s] satisfies [p]. *)
Fixpoint str_forall (p : ascii -> bool) (s : string) : bool :=
  match s with
  | EmptyString => true
  | String c s' => p c && str_forall p s'
  end.

Definition not_char (c : ascii) : ascii -> bool := fun d => negb (Ascii.eqb d c).

(** A well-formed C string holds no NUL. *)
Definition no_nul (s : string) : bool := str_forall (not_char NUL) s.

(** The C string stored at the start of a byte buffer. *)
Fixpoint cstr (s : string) : string :=
  match s with
  | EmptyString => EmptyString
  | String c s' => if Ascii.eqb c NUL then EmptyString else String c (cstr s')
  end.

(** [strncpy(dst, src, n)] into a field of [n+1] bytes whose last byte
    is zero: the field then holds the first [n] characters of [src]
    (the rest of the first [n] bytes is NUL padding). *)
Definition strncpy (n : nat) (src : string) : string := substring 0 n src.

(** [snprintf(buf, size, fmt, ...)] with [size > 0] stores the first
    [size - 1] characters of the formatted [text]. *)
Definition snprintf (size : nat) (text : string) : string :=
  substring 0 (size - 1) text.

(** [strncmp(s1, s2, n) == 0] on C strings: the first [n] characters
    agree, and a string that ends early ends at the same place in both. *)
Definition strncmp_eq (s1 s2 : string) (n : nat) : bool :=
  String.eqb (substring 0 n s1) (substring 0 n s2).

(** [strcmp(s1, s2) == 0] on C strings. *)
Definition strcmp_eq (s1 s2 : string) : bool := String.eqb s1 s2.

(** [isspace] in the C locale: space, \t, \n, \v, \f, \r. *)
Definition is_space (c : ascii) : bool :=
  let n := nat_of_ascii c in Nat.eqb n 32 || (Nat.leb 9 n && Nat.leb n 13).

(** *** [sscanf] conversions

    Each conversion consumes a prefix of the remaining input and returns
    the converted field and the rest, or fails; [sscanf] stops at the
    first failure and leaves the remaining arguments untouched. *)

(** Up to [w] leading characters satisfying [ok]. *)
Fixpoint scan_while (ok : ascii -> bool) (w : nat) (s : string) : string * string :=
  match w, s with
  | S w', String c s' =>
      if ok c then let '(tok, rest) := scan_while ok w' s' in (String c tok, rest)
      else (EmptyString, s)
  | _, _ => (EmptyString, s)
  end.

Fixpoint skip_while (ok : ascii -> bool) (s : string) : string :=
  match s with
  | String c s' => if ok c then skip_while ok s' else s
  | EmptyString => EmptyString
  end.

(** [%w[^c]]: one to [w] characters other than [c]. *)
Definition scan_set_excl (c : ascii) (w : nat) (s : string) : option (string * string) :=
  match scan_while (not_char c) w s with
  | (EmptyString, _) => None
  | r => Some r
  end.

(** [%ws]: skip white space, then one to [w] non-space characters. *)
Definition scan_s (w : nat) (s : string) : option (string * string) :=
  match scan_while (fun c => negb (is_space c)) w (skip_while is_space s) with
  | (EmptyString, _) => None
  | r => Some r
  end.

(** An ordinary character of the format must match the input. *)
Fixpoint scan_lit (lit s : string) : option string :=
  match lit, s with
  | EmptyString, _ => Some s
  | String c lit', String d s' => if Ascii.eqb c d then scan_lit lit' s' else None
  | String _ _, EmptyString => None
  end.

(** ** Lemmas *)

Lemma str_forall_app (p : ascii -> bool) (s1 s2 : string) :
  str_forall p (s1 ++ s2) = str_forall p s1 && str_forall p s2.
Proof.
  induction s1 as [|c s1 IH]; str_cbn; [done|].
  cbn [str_forall]. rewrite IH. by destruct (p c).
Qed.

Lemma str_forall_substring (p : ascii -> bool) (n : nat) (s : string) :
  str_forall p s = true -> str_forall p (substring 0 n s) = true.
Proof.
  revert n. induction s as [|c s IH]; intros [|n] H; str_cbn; cbn [str_forall] in *; auto.
  apply andb_prop in H as [H1 H2]. by rewrite H1, IH.
Qed.

Lemma str_forall_impl (p q : ascii -> bool) (s : string) :
  (forall c, p c = true -> q c = true) -> str_forall p s = true -> str_forall q s = true.
Proof.
  intros Hpq. induction s as [|c s IH]; cbn [str_forall]; [done|].
  intros [H1 H2]%andb_prop. by rewrite Hpq, IH.
Qed.

Lemma cstr_no_nul (s : string) : no_nul s = true -> cstr s = s.
Proof.
  unfold no_nul, not_char. induction s as [|c s IH]; cbn [cstr str_forall]; [done|].
  intros [H1 H2]%andb_prop. apply negb_true_iff in H1. rewrite H1. by rewrite IH.
Qed.

Lemma cstr_app (s1 s2 : string) :
  no_nul s1 = true -> cstr (s1 ++ s2) = s1 ++ cstr s2.
Proof.
  unfold no_nul, not_char. induction s1 as [|c s1 IH]; str_cbn; cbn [cstr str_forall]; [done|].
  intros [H1 H2]%andb_prop. apply negb_true_iff in H1. rewrite H1. by rewrite IH.
Qed.

Lemma strncpy_length (n : nat) (s : string) : String.length (strncpy n s) <= n.
Proof. unfold strncpy. rewrite substring_0_length. lia. Qed.

Lemma strncpy_id (n : nat) (s : string) : String.length s <= n -> strncpy n s = s.
Proof. apply substring_0_id. Qed.

Lemma snprintf_length (size : nat) (t : string) :
  String.length (snprintf size t) <= size - 1.
Proof. unfold snprintf. rewrite substring_0_length. lia. Qed.

Lemma snprintf_id (size : nat) (t : string) :
  String.length t < size -> snprintf size t = t.
Proof. intros H. apply substring_0_id. lia. Qed.

Lemma strcmp_eq_spec (s1 s2 : string) : strcmp_eq s1 s2 = true <-> s1 = s2.
Proof. apply String.eqb_eq. Qed.

(** The source's [strncmp(buf, lit, strlen(lit)) == 0] is a prefix test. *)
Lemma strncmp_eq_prefix (s p : string) :
  strncmp_eq s p (String.length p) = String.prefix p s.
Proof.
  unfold strncmp_eq. rewrite (substring_0_id (String.length p) p) by lia.
  revert s. induction p as [|c p IH]; intros [|d s]; str_cbn; try done.
  cbn [String.eqb]. rewrite IH.
  destruct (ascii_dec c d) as [->|Hne].
  - by rewrite Ascii.eqb_refl.
  - apply Ascii.eqb_neq in Hne. by rewrite Ascii.eqb_sym, Hne.
Qed.

Lemma scan_lit_app (lit s : string) : scan_lit lit (lit ++ s) = Some s.
Proof.
  induction lit as [|c lit IH]; str_cbn; cbn [scan_lit]; [by destruct s|].
  by rewrite Ascii.eqb_refl.
Qed.

Lemma scan_lit_inv (lit s r : string) : scan_lit lit s = Some r -> s = lit ++ r.
Proof.
  revert s. induction lit as [|c lit IH]; intros s H; cbn [scan_lit] in H.
  - by injection H as ->.
  - destruct s as [|d s]; [done|]. destruct (Ascii.eqb_spec c d) as [->|]; [|done].
    str_cbn. by rewrite (IH s H).
Qed.

Lemma scan_lit_app_l (p l s : string) : scan_lit (p ++ l) (p ++ s) = scan_lit l s.
Proof. induction p as [|c p IH]; str_cbn; cbn [scan_lit]; [done | by rewrite Ascii.eqb_refl]. Qed.

(** The C string read from the first [n] bytes of a buffer is a prefix
    of the buffer. *)
Lemma cstr_substring_prefix (n : nat) (s : string) :
  exists z, s = cstr (substring 0 n s) ++ z.
Proof.
  revert n. induction s as [|c s IH]; intros [|n]; cbn [substring cstr].
  - by exists EmptyString.
  - by exists EmptyString.
  - by exists (String c s).
  - destruct (Ascii.eqb c NUL); [by exists (String c s)|].
    destruct (IH n) as [z Hz]. exists z. str_cbn. by rewrite <- Hz.
Qed.

Lemma scan_while_length (ok : ascii -> bool) (w : nat) (s : string) :
  String.length (fst (scan_while ok w s)) <= w.
Proof.
  revert s. induction w as [|w IH]; intros [|c s]; cbn [scan_while fst String.length]; try lia.
  destruct (ok c); [|cbn; lia].
  specialize (IH s). destruct (scan_while ok w s). cbn in *. lia.
Qed.

Lemma scan_while_split (ok : ascii -> bool) (w : nat) (s : string) :
  fst (scan_while ok w s) ++ snd (scan_while ok w s) = s.
Proof.
  revert s. induction w as [|w IH]; intros [|c s]; cbn [scan_while fst snd]; try done.
  destruct (ok c); [|done].
  specialize (IH s). destruct (scan_while ok w s). cbn in *. str_cbn. by rewrite IH.
Qed.

Lemma scan_while_forall (ok : ascii -> bool) (w : nat) (s : string) :
  str_forall ok (fst (scan_while ok w s)) = true.
Proof.
  revert s. induction w as [|w IH]; intros [|c s]; cbn [scan_while fst]; try done.
  destruct (ok c) eqn:Hc; [|done].
  specialize (IH s). destruct (scan_while ok w s). cbn in *. by rewrite Hc, IH.
Qed.

(** A token of [ok] characters followed by a stop (end of input, a
    character outside [ok], or the field width) is read whole. *)
Lemma scan_while_app (ok : ascii -> bool) (w : nat) (tok rest : string) :
  str_forall ok tok = true ->
  String.length tok <= w ->
  (String.length tok = w \/ match rest with
                            | EmptyString => True
                            | String c _ => ok c = false
                            end) ->
  scan_while ok w (tok ++ rest) = (tok, rest).
Proof.
  revert w. induction tok as [|c tok IH]; intros w Hok Hlen Hstop.
  - destruct w as [|w], rest as [|d rest]; str_cbn; try done.
    cbn [scan_while]. destruct Hstop as [Hw|Hd]; [lia|]. by rewrite Hd.
  - cbn [str_forall String.length] in *. apply andb_prop in Hok as [Hc Hok].
    destruct w as [|w]; [lia|]. str_cbn. cbn [scan_while]. rewrite Hc.
    rewrite (IH w Hok); [done | lia |]. destruct Hstop as [Hw|Hd]; [left; lia | by right].
Qed.

(** A token longer than the width is cut at the width. *)
Lemma scan_while_cut (ok : ascii -> bool) (w : nat) (tok : string) :
  str_forall ok tok = true ->
  fst (scan_while ok w tok) = substring 0 w tok.
Proof.
  revert w. induction tok as [|c tok IH]; intros [|w] Hok; cbn [scan_while substring fst]; try done.
  cbn [str_forall] in Hok. apply andb_prop in Hok as [Hc Hok]. rewrite Hc.
  specialize (IH w Hok). destruct (scan_while ok w tok). cbn in *. by rewrite IH.
Qed.

End CStr.

#[export] Hint Resolve CStr.strncpy_length CStr.snprintf_length CStr.scan_while_length : tcomm.
#[export] Hint Rewrite CStr.str_forall_app CStr.scan_lit_app : tcomm_rw.
