(* ===== verification/Transport.v ===== *)
(** * The OpenThread UDP interface, as thread_comm.c observes it

    OpenThread is an external collaborator: the module calls
    [otUdpOpen], [otUdpBind], [otUdpNewMessage], [otMessageAppend],
    [otUdpSend] and [otMessageRead], and OpenThread calls [udp_handler]
    for every datagram on the bound port.  This file holds the data
    exchanged across that interface and the outcomes of the calls the
    module checks; OpenThread's internals are not modelled.  The
    outcome of each fallible call is read from [ot_stack], the part of
    the collaborator's state that decides it. *)

From stdpp Require Import base list strings.
From Stdlib Require Import String ZArith.
From S2P Require Import Prelude.

Module Transport.

(** [otIp6Address]: the union [mFields] seen as eight 16-bit words
    [m16[0..7]] in network order. *)
Record otIp6Address := mkIp6 { m16 : list Z }.

#[export] Instance otIp6Address_eq_dec : EqDecision otIp6Address.
Proof. solve_decision. Defined.

(** The all-zero address left by [memset] or [= {0}]. *)
Definition ip6_zero : otIp6Address := mkIp6 (repeat 0%Z 8).

(** [otIp6AddressFromString("ff02::1", ...)]: link-local all-nodes. *)
Definition ip6_ff02_1 : otIp6Address := mkIp6 [0xff02; 0; 0; 0; 0; 0; 0; 1]%Z.

(** [otMessageInfo]: the fields the module reads or sets. *)
Record otMessageInfo := mkInfo { mPeerAddr : otIp6Address; mPeerPort : Z }.

(** [otError]: [OT_ERROR_NONE] or an error code. *)
Inductive otError := OT_ERROR_NONE | OT_ERROR (code : Z).

(** The module's [otUdpSocket]: not opened, opened, or bound to a port. *)
Inductive udp_socket := SockClosed | SockOpen | SockBound (port : Z).

(** The collaborator's state that decides the outcome of the calls the
    module makes: the results [otUdpOpen] and [otUdpBind] return, the
    free message buffers [otUdpNewMessage] draws from (it returns NULL
    when none is free), and the result [otUdpSend] returns. *)
Record ot_stack := mkOt {
  ot_open_result : otError;
  ot_bind_result : otError;
  ot_free_buffers : nat;
  ot_send_result : otError
}.

Definition otUdpNewMessage_ok (ot : ot_stack) : bool :=
  negb (Nat.eqb (ot_free_buffers ot) 0).

Definition otUdpSend_ok (ot : ot_stack) : bool :=
  match ot_send_result ot with OT_ERROR_NONE => true | OT_ERROR _ => false end.

(** A message allocated and handed to [otUdpSend]: on [OT_ERROR_NONE]
    OpenThread owns it and frees it once sent, so the buffer returns to
    the pool; on an error the caller keeps it, and its buffer stays
    allocated until the caller calls [otMessageFree]. *)
Definition ot_keep_message (ot : ot_stack) : ot_stack :=
  mkOt (ot_open_result ot) (ot_bind_result ot) (pred (ot_free_buffers ot)) (ot_send_result ot).

(** A datagram goes out: a message was allocated and [otUdpSend]
    accepted it. *)
Definition udp_sent (ot : ot_stack) : bool := otUdpNewMessage_ok ot && otUdpSend_ok ot.

(** A datagram the module hands to [otUdpSend]: destination address and
    port, and the bytes appended with [otMessageAppend]. *)
Record datagram := mkDatagram {
  dg_addr : otIp6Address;
  dg_port : Z;
  dg_bytes : string
}.

#[export] Instance datagram_eq_dec : EqDecision datagram.
Proof. solve_decision. Defined.

(** [otMessageRead(msg, offset, buf, len)] copies at most [len] bytes of
    the message from [offset] and returns how many it copied.  A
    received message is modelled by its UDP payload: offset 0 is the
    first payload byte.  OpenThread's UDP receive path keeps the IPv6
    and UDP headers in the message and puts the payload at
    [otMessageGetOffset(msg)]; the model assumes the payload starts at
    offset 0 (see the header of [Prelude]). *)
Definition otMessageRead (msg : string) (offset len : nat) : string :=
  substring offset len msg.

Lemma otMessageRead_length (msg : string) (len : nat) :
  String.length (otMessageRead msg 0 len) = Nat.min len (String.length msg).
Proof. apply substring_0_length. Qed.

End Transport.
