(* ===== verification/Dataset.v ===== *)
(** * The Thread network both applications form

    [ot_task_worker] of src/NODE_1/main/esp_ot_cli.c and of
    src/NODE_2/main/esp_ot_cli.c zeroes an [otOperationalDataset],
    writes its fields one statement at a time, converts it to TLVs and
    makes it the active dataset before enabling IPv6 and Thread.  The
    two boards join one network only if the two datasets agree; both
    give [joined_dataset] ([node_threads_joined], used by [Boot]).  Each
    statement is a [dataset_write]; each board's sequence of writes is
    transcribed from its file; [otDatasetConvertToTlvs] is modelled as
    the identity (the TLV encoding belongs to OpenThread). *)

From Stdlib Require Import String Ascii ZArith List Lia.
From S2P Require Import Prelude CStr.
Import ListNotations.

#[local] Open Scope string_scope.
#[local] Open Scope Z_scope.

Module Dataset.

(** OpenThread's sizes. *)
Definition OT_EXT_PAN_ID_SIZE : nat := 8.
Definition OT_NETWORK_KEY_SIZE : nat := 16.
Definition OT_NETWORK_NAME_MAX_SIZE : nat := 16.
Definition OT_MESH_LOCAL_PREFIX_SIZE : nat := 8.

(** [otOperationalDataset.mComponents], as far as the code sets it. *)
Record otOperationalDatasetComponents := mkComponents {
  mIsActiveTimestampPresent : bool;
  mIsChannelPresent : bool;
  mIsPanIdPresent : bool;
  mIsExtendedPanIdPresent : bool;
  mIsNetworkNamePresent : bool;
  mIsNetworkKeyPresent : bool;
  mIsMeshLocalPrefixPresent : bool
}.

(** [otOperationalDataset]; byte arrays as lists of [uint8_t]. *)
Record otOperationalDataset := mkDataset {
  mActiveTimestampSeconds : Z;
  mChannel : Z;
  mPanId : Z;
  mExtendedPanId : list Z;
  mNetworkName : string;
  mNetworkKey : list Z;
  mMeshLocalPrefix : list Z;
  mComponents : otOperationalDatasetComponents
}.

(** [memset(&dataset, 0, sizeof(dataset))]. *)
Definition components_zero : otOperationalDatasetComponents :=
  mkComponents false false false false false false false.

Definition dataset_zero : otOperationalDataset :=
  mkDataset 0 0 0 (repeat 0 OT_EXT_PAN_ID_SIZE) EmptyString
    (repeat 0 OT_NETWORK_KEY_SIZE) (repeat 0 OT_MESH_LOCAL_PREFIX_SIZE) components_zero.

(** The presence flags the code sets. *)
Inductive component :=
| ActiveTimestamp | Channel | PanId | ExtendedPanId | NetworkName | NetworkKey | MeshLocalPrefix.

(** One statement of the dataset setup. *)
Inductive dataset_write :=
| SetActiveTimestampSeconds (s : Z)                 (** [dataset.mActiveTimestamp.mSeconds = s] *)
| SetChannel (c : Z)                                (** [dataset.mChannel = c] *)
| SetPanId (p : Z)                                  (** [dataset.mPanId = p] *)
| CopyExtendedPanId (src : list Z) (n : nat)        (** [memcpy(dataset.mExtendedPanId.m8, src, n)] *)
| CopyNetworkName (src : string) (n : nat)          (** [strncpy(dataset.mNetworkName.m8, src, n)] *)
| CopyNetworkKey (src : list Z) (n : nat)           (** [memcpy(dataset.mNetworkKey.m8, src, n)] *)
| CopyMeshLocalPrefix (src : list Z) (n : nat)      (** [memcpy(&dataset.mMeshLocalPrefix, src, n)] *)
| SetPresent (c : component).                       (** [dataset.mComponents.mIs...Present = true] *)

Definition set_present (c : component) (f : otOperationalDatasetComponents)
  : otOperationalDatasetComponents :=
  match f with
  | mkComponents t ch p e nn nk m =>
      match c with
      | ActiveTimestamp => mkComponents true ch p e nn nk m
      | Channel => mkComponents t true p e nn nk m
      | PanId => mkComponents t ch true e nn nk m
      | ExtendedPanId => mkComponents t ch p true nn nk m
      | NetworkName => mkComponents t ch p e true nk m
      | NetworkKey => mkComponents t ch p e nn true m
      | MeshLocalPrefix => mkComponents t ch p e nn nk true
      end
  end.

(** [memcpy(dst, src, n)] over a destination of length [length dst]. *)
Definition memcpy (dst src : list Z) (n : nat) : list Z :=
  firstn n src ++ skipn n dst.

Definition apply_write (d : otOperationalDataset) (w : dataset_write) : otOperationalDataset :=
  match d with
  | mkDataset ts ch p e nn nk m f =>
      match w with
      | SetActiveTimestampSeconds s => mkDataset s ch p e nn nk m f
      | SetChannel c => mkDataset ts c p e nn nk m f
      | SetPanId p' => mkDataset ts ch p' e nn nk m f
      | CopyExtendedPanId src n => mkDataset ts ch p (memcpy e src n) nn nk m f
      | CopyNetworkName src n => mkDataset ts ch p e (CStr.strncpy n src) nk m f
      | CopyNetworkKey src n => mkDataset ts ch p e nn (memcpy nk src n) m f
      | CopyMeshLocalPrefix src n => mkDataset ts ch p e nn nk (memcpy m src n) f
      | SetPresent c => mkDataset ts ch p e nn nk m (set_present c f)
      end
  end.

Definition build_dataset (ws : list dataset_write) : otOperationalDataset :=
  fold_left apply_write ws dataset_zero.

(** [otDatasetConvertToTlvs]: the TLVs carry the dataset. *)
Definition otDatasetConvertToTlvs (d : otOperationalDataset) : otOperationalDataset := d.

(** The Thread interface of an instance, as far as the code sets it. *)
Record ot_thread := mkThread {
  active_tlvs : option otOperationalDataset;
  ip6_enabled : bool;
  thread_enabled : bool
}.

Definition ot_thread_init : ot_thread := mkThread None false false.

(** The "Start Thread" region: [otDatasetSetActiveTlvs],
    [otIp6SetEnabled(instance, true)], [otThreadSetEnabled(instance, true)]. *)
Definition start_thread (tlvs : otOperationalDataset) (t : ot_thread) : ot_thread :=
  let t := mkThread (Some tlvs) (ip6_enabled t) (thread_enabled t) in
  let t := mkThread (active_tlvs t) true (thread_enabled t) in
  mkThread (active_tlvs t) (ip6_enabled t) true.

(** *** NODE_1, [ot_task_worker] *)

Definition node1_ext_panid : list Z := [0xDE; 0xAD; 0xBE; 0xEF; 0xCA; 0xFE; 0x12; 0x34].
Definition node1_network_name : string := "OpenThread-ESP".
Definition node1_network_key : list Z :=
  [0x00; 0x11; 0x22; 0x33; 0x44; 0x55; 0x66; 0x77;
   0x88; 0x99; 0xAA; 0xBB; 0xCC; 0xDD; 0xEE; 0xFF].
Definition node1_prefix : list Z := [0xfd; 0x00; 0xca; 0xfe; 0xba; 0xbe; 0x00; 0x00].

Definition node1_dataset_writes : list dataset_write :=
  [SetActiveTimestampSeconds 1; SetPresent ActiveTimestamp;
   SetChannel 15; SetPresent Channel;
   SetPanId 0x1234; SetPresent PanId;
   CopyExtendedPanId node1_ext_panid OT_EXT_PAN_ID_SIZE; SetPresent ExtendedPanId;
   CopyNetworkName node1_network_name (OT_NETWORK_NAME_MAX_SIZE - 1); SetPresent NetworkName;
   CopyNetworkKey node1_network_key OT_NETWORK_KEY_SIZE; SetPresent NetworkKey;
   CopyMeshLocalPrefix node1_prefix (length node1_prefix); SetPresent MeshLocalPrefix].

Definition node1_thread : ot_thread :=
  start_thread (otDatasetConvertToTlvs (build_dataset node1_dataset_writes)) ot_thread_init.

(** *** NODE_2, [ot_task_worker] *)

Definition node2_ext_panid : list Z := [0xDE; 0xAD; 0xBE; 0xEF; 0xCA; 0xFE; 0x12; 0x34].
Definition node2_network_name : string := "OpenThread-ESP".
Definition node2_network_key : list Z :=
  [0x00; 0x11; 0x22; 0x33; 0x44; 0x55; 0x66; 0x77;
   0x88; 0x99; 0xAA; 0xBB; 0xCC; 0xDD; 0xEE; 0xFF].
Definition node2_prefix : list Z := [0xfd; 0x00; 0xca; 0xfe; 0xba; 0xbe; 0x00; 0x00].

Definition node2_dataset_writes : list dataset_write :=
  [SetActiveTimestampSeconds 1; SetPresent ActiveTimestamp;
   SetChannel 15; SetPresent Channel;
   SetPanId 0x1234; SetPresent PanId;
   CopyExtendedPanId node2_ext_panid OT_EXT_PAN_ID_SIZE; SetPresent ExtendedPanId;
   CopyNetworkName node2_network_name (OT_NETWORK_NAME_MAX_SIZE - 1); SetPresent NetworkName;
   CopyNetworkKey node2_network_key OT_NETWORK_KEY_SIZE; SetPresent NetworkKey;
   CopyMeshLocalPrefix node2_prefix (length node2_prefix); SetPresent MeshLocalPrefix].

Definition node2_thread : ot_thread :=
  start_thread (otDatasetConvertToTlvs (build_dataset node2_dataset_writes)) ot_thread_init.

(** ** The network the boards join

    The dataset written out field by field: complete (all seven
    components present), timestamp 1, channel 15, PAN ID 0x1234, the
    extended PAN ID [DEADBEEFCAFE1234], the name [OpenThread-ESP], the
    network key [00112233445566778899AABBCCDDEEFF] and the mesh-local
    prefix fd00:cafe:babe::/64. *)
Definition joined_dataset : otOperationalDataset :=
  mkDataset 1 15 0x1234 [0xDE; 0xAD; 0xBE; 0xEF; 0xCA; 0xFE; 0x12; 0x34]
    "OpenThread-ESP"
    [0x00; 0x11; 0x22; 0x33; 0x44; 0x55; 0x66; 0x77;
     0x88; 0x99; 0xAA; 0xBB; 0xCC; 0xDD; 0xEE; 0xFF]
    [0xfd; 0x00; 0xca; 0xfe; 0xba; 0xbe; 0x00; 0x00]
    (mkComponents true true true true true true true).

(** Each board's "Start Thread" region makes [joined_dataset] active
    and enables IPv6 and Thread. *)
Lemma node_threads_joined :
  node1_thread = mkThread (Some joined_dataset) true true /\
  node2_thread = mkThread (Some joined_dataset) true true.
Proof. split; vm_compute; reflexivity. Qed.

End Dataset.
