(* ===== verification/NodeTable.v ===== *)
(** * The node table of thread_comm.c

    [static thread_node_t nodes[MAX_NODES]] is modelled as a list of
    slots, always of length [MAX_NODES] (an invariant proved below).  A
    pointer [&nodes[i]] returned by the C code is modelled by the index
    [i].  The loops [for (int i = 0; i < MAX_NODES; i++)] of [find_node],
    [alloc_node] and [thread_comm_print_nodes] are modelled by [scan_slots]
    and [print_slots], structural recursions on the remaining iteration
    count, so they run exactly [MAX_NODES] iterations as the C loops do. *)

From Stdlib Require Import String Ascii Lia.
From stdpp Require Import base list strings gmap.
From S2P Require Import Prelude CStr Transport.

Module NodeTable.
Import Transport.

(** thread_comm.h *)
Definition MAX_NODES : nat := 8.
Definition NODE_ID_LEN : nat := 16.
(** [char role[16]] of [thread_node_t]. *)
Definition ROLE_LEN : nat := 16.

Record thread_node_t := mkNode {
  active : bool;
  node_id : string;     (** [char id[NODE_ID_LEN]] *)
  node_role : string;   (** [char role[16]] *)
  eid : otIp6Address
}.

(** A slot after [memset(&nodes[i], 0, sizeof(thread_node_t))]. *)
Definition node_zero : thread_node_t := mkNode false EmptyString EmptyString ip6_zero.

(** The whole array after [memset(nodes, 0, sizeof(nodes))], and the
    zero-initialised static array before [thread_comm_init]. *)
Definition nodes_zero : list thread_node_t := replicate MAX_NODES node_zero.

(** [for (int i = start; k iterations; i++) if (p(nodes[i])) return i;
    return NULL]. *)
Fixpoint scan_slots (p : thread_node_t -> bool) (nodes : list thread_node_t)
    (i k : nat) : option nat :=
  match k with
  | 0 => None
  | S k' =>
      match nodes !! i with
      | Some n => if p n then Some i else scan_slots p nodes (S i) k'
      | None => scan_slots p nodes (S i) k'
      end
  end.

(** [find_node]: the first active slot whose id is [id] ([strcmp]). *)
Definition node_matches (id : string) (n : thread_node_t) : bool :=
  active n && CStr.strcmp_eq (node_id n) id.

Definition find_node (nodes : list thread_node_t) (id : string) : option nat :=
  scan_slots (node_matches id) nodes 0 MAX_NODES.

(** [alloc_node]: the first inactive slot is zeroed and marked active. *)
Definition alloc_node (nodes : list thread_node_t) : option (nat * list thread_node_t) :=
  match scan_slots (fun n => negb (active n)) nodes 0 MAX_NODES with
  | Some i => Some (i, <[i := mkNode true EmptyString EmptyString ip6_zero]> nodes)
  | None => None
  end.

(** The three assignments at the end of [register_node]. *)
Definition fill_node (id role : string) (addr : otIp6Address) (n : thread_node_t)
    : thread_node_t :=
  mkNode (active n)
    (CStr.strncpy (NODE_ID_LEN - 1) id)
    (CStr.strncpy (ROLE_LEN - 1) role)
    addr.

(** [register_node]: update the slot of [id], else allocate one, else
    return without effect (table full). *)
Definition register_node (id role : string) (addr : otIp6Address)
    (nodes : list thread_node_t) : list thread_node_t :=
  let slot :=
    match find_node nodes id with
    | Some i => Some (i, nodes)
    | None => alloc_node nodes
    end in
  match slot with
  | None => nodes
  | Some (i, nodes') => alter (fill_node id role addr) i nodes'
  end.

(** The line feed ['\n'] ending each [printf] line. *)
Definition LF : string := String "010"%char EmptyString.

(** [thread_comm_print_nodes]: one line per active slot, in slot order. *)
Fixpoint print_slots (nodes : list thread_node_t) (i k : nat) : list string :=
  match k with
  | 0 => []
  | S k' =>
      match nodes !! i with
      | Some n =>
          if active n
          then ("ID=" ++ node_id n ++ " role=" ++ node_role n ++ LF)%string
                 :: print_slots nodes (S i) k'
          else print_slots nodes (S i) k'
      | None => print_slots nodes (S i) k'
      end
  end.

Definition print_nodes (nodes : list thread_node_t) : list string :=
  ("=== Thread nodes ===" ++ LF)%string :: print_slots nodes 0 MAX_NODES.

(** ** The table invariant

    The array has [MAX_NODES] slots; no two active slots carry the same
    id; every id and role fits its [char[16]] field with its NUL. *)

Definition ids_unique (nodes : list thread_node_t) : Prop :=
  forall i j ni nj,
    nodes !! i = Some ni -> nodes !! j = Some nj ->
    active ni = true -> active nj = true ->
    node_id ni = node_id nj -> i = j.

Definition node_fits (n : thread_node_t) : Prop :=
  String.length (node_id n) < NODE_ID_LEN /\ String.length (node_role n) < ROLE_LEN.

Record table_wf (nodes : list thread_node_t) : Prop := {
  wf_length : length nodes = MAX_NODES;
  wf_unique : ids_unique nodes;
  wf_fits : Forall node_fits nodes
}.

(** ** Derived views used by the theorems

    The slot [register_node] writes: the slot of [id], else the first
    free slot. *)
Definition free_slot (nodes : list thread_node_t) : option nat :=
  scan_slots (fun n => negb (active n)) nodes 0 MAX_NODES.

Definition reg_slot (nodes : list thread_node_t) (id : string) : option nat :=
  match find_node nodes id with
  | Some i => Some i
  | None => free_slot nodes
  end.

(** The slot after [register_node] wrote it. *)
Definition new_node (id role : string) (addr : otIp6Address) : thread_node_t :=
  mkNode true (CStr.strncpy (NODE_ID_LEN - 1) id) (CStr.strncpy (ROLE_LEN - 1) role) addr.

(** The entry [find_node] designates, as the spec's [find] returns it. *)
Definition find_entry (nodes : list thread_node_t) (id : string) : option thread_node_t :=
  find_node nodes id ≫= fun i => nodes !! i.

(** The registrations of one id, in call order. *)
Definition register_calls (id : string) (calls : list (string * otIp6Address))
    (nodes : list thread_node_t) : list thread_node_t :=
  fold_left (fun t c => register_node id c.1 c.2 t) calls nodes.

(** A [register_node(id, role, addr)] call. *)
Definition peer_call : Type := (string * string * otIp6Address)%type.

Definition call_id (c : peer_call) : string := c.1.1.

Definition call_node (c : peer_call) : thread_node_t := new_node c.1.1 c.1.2 c.2.

Definition call_fits (c : peer_call) : Prop := String.length (call_id c) < NODE_ID_LEN.

(** The table after the calls [pre] each took a fresh slot. *)
Definition filled (pre : list peer_call) : list thread_node_t :=
  (call_node <$> pre) ++ replicate (MAX_NODES - length pre) node_zero.

(** The invariant as a boolean check, for concrete tables. *)
Definition ids_unique_b (l : list thread_node_t) : bool :=
  forallb (fun i => forallb (fun j =>
    match l !! i, l !! j with
    | Some ni, Some nj =>
        negb (active ni && active nj && String.eqb (node_id ni) (node_id nj)) || Nat.eqb i j
    | _, _ => true
    end) (seq 0 (length l))) (seq 0 (length l)).

Definition node_fits_b (n : thread_node_t) : bool :=
  Nat.ltb (String.length (node_id n)) NODE_ID_LEN && Nat.ltb (String.length (node_role n)) ROLE_LEN.

Definition table_wf_b (l : list thread_node_t) : bool :=
  Nat.eqb (length l) MAX_NODES && ids_unique_b l && forallb node_fits_b l.

(** ** The loops against a reference search *)

(** [scan_slots] from [i] for [k] iterations finds what the reference
    search [list_find] finds in the window [i, i + k). *)
Lemma scan_slots_window (p : thread_node_t -> bool) (nodes : list thread_node_t) k i :
  scan_slots p nodes i k =
    (fun r => i + r.1) <$> list_find (fun n => p n = true) (take k (drop i nodes)).
Proof.
  revert i. induction k as [|k IH]; intros i; cbn [scan_slots]; [done|].
  destruct (nodes !! i) as [n|] eqn:Hi.
  - rewrite (drop_S nodes n i Hi). cbn [take list_find].
    destruct (p n) eqn:Hp; cbn.
    + case_decide; [cbn; f_equal; lia | congruence].
    + case_decide; [congruence|]. rewrite IH.
      destruct (list_find _ _) as [[j y]|]; cbn; [f_equal; lia | done].
  - rewrite IH. apply lookup_ge_None in Hi.
    rewrite (drop_ge nodes (S i)), (drop_ge nodes i) by lia.
    by rewrite !take_nil.
Qed.

(** The boolean check decides the invariant's conditions. *)
Lemma table_wf_b_sound (l : list thread_node_t) : table_wf_b l = true -> table_wf l.
Proof.
  unfold table_wf_b. intros Hb.
  apply andb_prop in Hb as [Hb Hf]. apply andb_prop in Hb as [Hlen%Nat.eqb_eq Hu].
  split; [done| |].
  - intros i j ni nj Hi Hj Hai Haj Hid.
    unfold ids_unique_b in Hu. rewrite forallb_forall in Hu.
    assert (Hin : In i (seq 0 (length l))) by (apply in_seq; apply lookup_lt_Some in Hi; lia).
    specialize (Hu i Hin). rewrite forallb_forall in Hu.
    assert (Hjn : In j (seq 0 (length l))) by (apply in_seq; apply lookup_lt_Some in Hj; lia).
    specialize (Hu j Hjn). rewrite Hi, Hj, Hai, Haj, Hid, String.eqb_refl in Hu. cbn in Hu.
    by apply Nat.eqb_eq.
  - apply Forall_lookup. intros i n Hn. rewrite forallb_forall in Hf.
    assert (Hin : In n l) by (apply list_elem_of_In; by eapply list_elem_of_lookup_2).
    specialize (Hf n Hin). unfold node_fits_b in Hf.
    apply andb_prop in Hf as [H1%Nat.ltb_lt H2%Nat.ltb_lt]. by split.
Qed.

Section ScanFull.
Context (p : thread_node_t -> bool) (nodes : list thread_node_t).
Hypothesis Hlen : length nodes = MAX_NODES.

(** Over the whole array the loop is the reference search. *)
Lemma scan_full_ref :
  scan_slots p nodes 0 MAX_NODES = fst <$> list_find (fun n => p n = true) nodes.
Proof.
  rewrite scan_slots_window, drop_0, take_ge by lia.
  by destruct (list_find _ _).
Qed.

Lemma scan_full_Some i :
  scan_slots p nodes 0 MAX_NODES = Some i <->
  exists n, nodes !! i = Some n /\ p n = true /\
    forall j n', nodes !! j = Some n' -> j < i -> p n' = false.
Proof.
  rewrite scan_full_ref. split.
  - intros ([i' n] & Hf & Hi)%fmap_Some. simpl in Hi. subst i'.
    apply list_find_Some in Hf as (Hn & Hp & Hfirst).
    exists n. split_and!; [done..|]. intros j n' Hj Hlt.
    apply not_true_is_false. eauto.
  - intros (n & Hn & Hp & Hfirst).
    rewrite (proj2 (list_find_Some _ nodes i n)); [done|].
    split_and!; [done..|]. intros j y Hj Hlt. rewrite (Hfirst j y Hj Hlt). done.
Qed.

Lemma scan_full_None :
  scan_slots p nodes 0 MAX_NODES = None <->
  forall j n, nodes !! j = Some n -> p n = false.
Proof.
  rewrite scan_full_ref, fmap_None, list_find_None, Forall_lookup.
  split; intros H j n Hj; specialize (H j n Hj); [by apply not_true_is_false|].
  by rewrite H.
Qed.
End ScanFull.

Lemma node_matches_spec (id : string) (n : thread_node_t) :
  node_matches id n = true <-> active n = true /\ node_id n = id.
Proof.
  unfold node_matches. rewrite andb_true_iff, CStr.strcmp_eq_spec. done.
Qed.

Lemma node_matches_false (id : string) (n : thread_node_t) :
  node_matches id n = false <-> ~ (active n = true /\ node_id n = id).
Proof. rewrite <- node_matches_spec. destruct (node_matches id n); split; congruence. Qed.

(** C13 (equivalence): the [find_node] loop over the [MAX_NODES] slots
    returns what the reference search returns: the index of the first
    active slot whose id is [id]. *)
Theorem find_node_ref (nodes : list thread_node_t) (id : string) :
  length nodes = MAX_NODES ->
  find_node nodes id = fst <$> list_find (fun n => active n = true /\ node_id n = id) nodes.
Proof.
  intros Hlen. unfold find_node. rewrite (scan_full_ref _ _ Hlen).
  f_equal. apply list_find_ext. intros n. apply node_matches_spec.
Qed.

Lemma find_node_ref_witness :
  find_node nodes_zero "B"%string
  = fst <$> list_find (fun n => active n = true /\ node_id n = "B"%string) nodes_zero.
Proof. apply find_node_ref. vm_compute. reflexivity. Defined.

(** [find_node] returns an active slot that carries [id]. *)
Lemma find_node_Some (nodes : list thread_node_t) (id : string) (i : nat) :
  length nodes = MAX_NODES ->
  find_node nodes id = Some i ->
  exists n, nodes !! i = Some n /\ active n = true /\ node_id n = id.
Proof.
  intros Hlen Hf. apply (scan_full_Some _ _ Hlen) in Hf as (n & Hn & Hm & _).
  apply node_matches_spec in Hm. eauto.
Qed.

Lemma find_node_None (nodes : list thread_node_t) (id : string) :
  length nodes = MAX_NODES ->
  find_node nodes id = None <->
  forall j n, nodes !! j = Some n -> active n = true -> node_id n <> id.
Proof.
  intros Hlen. unfold find_node. rewrite (scan_full_None _ _ Hlen).
  split.
  - intros H j n Hj Ha Hid. apply (proj1 (node_matches_false id n) (H j n Hj)). done.
  - intros H j n Hj. apply node_matches_false. intros [Ha Hid]. by apply (H j n).
Qed.

(** [find_node] against the invariant: with unique ids it returns
    exactly the active slot that carries [id]. *)
Lemma find_node_complete (nodes : list thread_node_t) (id : string) (i : nat) n :
  table_wf nodes ->
  nodes !! i = Some n -> active n = true -> node_id n = id ->
  find_node nodes id = Some i.
Proof.
  intros Hwf Hn Ha Hid.
  destruct (find_node nodes id) as [j|] eqn:Hf.
  - destruct (find_node_Some _ _ _ (wf_length _ Hwf) Hf) as (m & Hm & Ham & Hmid).
    f_equal. apply (wf_unique _ Hwf j i m n); congruence.
  - exfalso. by apply (proj1 (find_node_None _ _ (wf_length _ Hwf)) Hf i n).
Qed.

Lemma alter_at (f : thread_node_t -> thread_node_t) (l : list thread_node_t) i x :
  l !! i = Some x -> alter f i l = <[i := f x]> l.
Proof. intros Hx. rewrite list_insert_alter. apply list_alter_ext; [|done]. congruence. Qed.

(** [register_node] is one write of [new_node] at [reg_slot], or no
    change when there is no such slot. *)
Lemma register_node_slot (nodes : list thread_node_t) (id role : string) addr :
  length nodes = MAX_NODES ->
  register_node id role addr nodes =
    match reg_slot nodes id with
    | Some i => <[i := new_node id role addr]> nodes
    | None => nodes
    end.
Proof.
  intros Hlen. unfold register_node, reg_slot, alloc_node, free_slot.
  destruct (find_node nodes id) as [i|] eqn:Hf.
  - destruct (find_node_Some _ _ _ Hlen Hf) as (n & Hn & Ha & _).
    rewrite (alter_at _ _ _ _ Hn). unfold fill_node, new_node. by rewrite Ha.
  - destruct (scan_slots _ _ 0 MAX_NODES) as [i|] eqn:Hs; [|done].
    apply (scan_full_Some _ _ Hlen) in Hs as (n & Hn & _).
    rewrite (alter_at _ _ i (mkNode true EmptyString EmptyString ip6_zero)).
    + by rewrite list_insert_insert_eq.
    + apply list_lookup_insert_eq. by eapply lookup_lt_Some.
Qed.

(** No active slot other than [reg_slot] carries [id]. *)
Lemma reg_slot_exclusive (nodes : list thread_node_t) (id : string) i :
  table_wf nodes -> reg_slot nodes id = Some i ->
  forall k n, k <> i -> nodes !! k = Some n -> active n = true -> node_id n <> id.
Proof.
  intros Hwf Hs k n Hki Hk Ha Hid. unfold reg_slot in Hs.
  destruct (find_node nodes id) as [j|] eqn:Hf.
  - injection Hs as ->. apply Hki.
    rewrite (find_node_complete nodes id k n) in Hf; congruence.
  - by apply (proj1 (find_node_None _ _ (wf_length _ Hwf)) Hf k n).
Qed.

Lemma reg_slot_lt (nodes : list thread_node_t) (id : string) i :
  length nodes = MAX_NODES -> reg_slot nodes id = Some i -> i < length nodes.
Proof.
  intros Hlen Hs. unfold reg_slot, free_slot in Hs.
  destruct (find_node nodes id) as [j|] eqn:Hf.
  - injection Hs as <-. destruct (find_node_Some _ _ _ Hlen Hf) as (n & Hn & _).
    by eapply lookup_lt_Some.
  - apply (scan_full_Some _ _ Hlen) in Hs as (n & Hn & _). by eapply lookup_lt_Some.
Qed.

Lemma new_node_fits (id role : string) addr : node_fits (new_node id role addr).
Proof.
  split; cbn [node_id node_role new_node].
  - pose proof (CStr.strncpy_length (NODE_ID_LEN - 1) id). unfold NODE_ID_LEN in *. lia.
  - pose proof (CStr.strncpy_length (ROLE_LEN - 1) role). unfold ROLE_LEN in *. lia.
Qed.

Lemma new_node_id (id role : string) addr :
  String.length id < NODE_ID_LEN -> node_id (new_node id role addr) = id.
Proof. intros H. apply CStr.strncpy_id. unfold NODE_ID_LEN in *. lia. Qed.

#[export] Hint Resolve new_node_fits : tcomm.

(** [register_node] keeps the table invariant, for every id that fits
    its field (as every id [udp_handler] passes does). *)
Lemma register_node_wf (nodes : list thread_node_t) (id role : string) addr :
  table_wf nodes -> String.length id < NODE_ID_LEN ->
  table_wf (register_node id role addr nodes).
Proof.
  intros Hwf Hid. rewrite (register_node_slot _ _ _ _ (wf_length _ Hwf)).
  destruct (reg_slot nodes id) as [i|] eqn:Hs; [|done].
  pose proof (reg_slot_exclusive _ _ _ Hwf Hs) as Hex.
  split.
  - rewrite length_insert. apply (wf_length _ Hwf).
  - intros j k nj nk Hj Hk Haj Hak Hjk.
    pose proof (reg_slot_lt _ _ _ (wf_length _ Hwf) Hs) as Hi.
    pose proof (new_node_id id role addr Hid) as Hnid.
    destruct (decide (j = i)) as [->|Hji], (decide (k = i)) as [->|Hki]; [done| | |].
    + rewrite list_lookup_insert_eq in Hj by done.
      rewrite list_lookup_insert_ne in Hk by congruence.
      injection Hj as <-. exfalso. apply (Hex k nk Hki Hk Hak). congruence.
    + rewrite list_lookup_insert_eq in Hk by done.
      rewrite list_lookup_insert_ne in Hj by congruence.
      injection Hk as <-. exfalso. apply (Hex j nj Hji Hj Haj). congruence.
    + rewrite list_lookup_insert_ne in Hj, Hk by congruence.
      by apply (wf_unique _ Hwf j k nj nk).
  - apply Forall_insert; [apply (wf_fits _ Hwf) | apply new_node_fits].
Qed.

(** The zeroed array satisfies the invariant. *)
Lemma nodes_zero_wf : table_wf nodes_zero.
Proof.
  split.
  - apply length_replicate.
  - intros i j ni nj Hi. apply lookup_replicate in Hi as [-> _]. done.
  - apply Forall_replicate. split; cbn; unfold NODE_ID_LEN, ROLE_LEN; lia.
Qed.

#[export] Hint Resolve nodes_zero_wf : tcomm.

(** C2 (invariant): [register_node] keeps the table invariant, for
    every id that fits its field, and writes at most one slot, the one
    [reg_slot] designates: every other slot is left as it was. *)
Theorem register_node_preserves (nodes : list thread_node_t) (id role : string) addr :
  table_wf nodes -> String.length id < NODE_ID_LEN ->
  table_wf (register_node id role addr nodes) /\
  forall j, reg_slot nodes id <> Some j -> register_node id role addr nodes !! j = nodes !! j.
Proof.
  intros Hwf Hid. split; [by apply register_node_wf|]. intros j Hj.
  rewrite (register_node_slot _ _ _ _ (wf_length _ Hwf)).
  destruct (reg_slot nodes id) as [i|]; [|done].
  apply list_lookup_insert_ne. congruence.
Qed.

Lemma register_node_preserves_witness :
  table_wf nodes_zero /\ String.length "B"%string < NODE_ID_LEN /\
  table_wf (register_node "B"%string "responder"%string ip6_zero nodes_zero) /\
  (forall j, reg_slot nodes_zero "B"%string <> Some j ->
     register_node "B"%string "responder"%string ip6_zero nodes_zero !! j = nodes_zero !! j).
Proof.
  assert (table_wf nodes_zero) as Hwf by (apply table_wf_b_sound; vm_compute; reflexivity).
  assert (String.length "B"%string < NODE_ID_LEN) as Hid by (vm_compute; lia).
  split; [exact Hwf|]. split; [exact Hid|].
  exact (register_node_preserves nodes_zero "B"%string "responder"%string ip6_zero Hwf Hid).
Defined.

Lemma find_entry_spec (nodes : list thread_node_t) (id : string) n :
  table_wf nodes ->
  find_entry nodes id = Some n <->
  exists i, nodes !! i = Some n /\ active n = true /\ node_id n = id.
Proof.
  intros Hwf. unfold find_entry. split.
  - intros (i & Hf & Hn)%bind_Some.
    destruct (find_node_Some _ _ _ (wf_length _ Hwf) Hf) as (m & Hm & Ha & Hid).
    exists i. split_and!; congruence.
  - intros (i & Hn & Ha & Hid). by rewrite (find_node_complete _ _ i n).
Qed.

(** The zeroed table holds no entry. *)
Lemma find_entry_zero (id : string) : find_entry nodes_zero id = None.
Proof.
  assert (find_node nodes_zero id = None) as Hf.
  { apply find_node_None; [apply length_replicate|].
    intros j n (-> & _)%lookup_replicate. done. }
  unfold find_entry. by rewrite Hf.
Qed.

Lemma find_entry_None (nodes : list thread_node_t) (id : string) :
  table_wf nodes -> find_entry nodes id = None -> find_node nodes id = None.
Proof.
  intros Hwf He. destruct (find_node nodes id) as [i|] eqn:Hf; [|done].
  destruct (find_node_Some _ _ _ (wf_length _ Hwf) Hf) as (n & Hn & _).
  unfold find_entry in He. rewrite Hf in He. cbn in He. by rewrite Hn in He.
Qed.

(** The slot [register_node] writes held [id] or was free. *)
Lemma reg_slot_old (nodes : list thread_node_t) (id : string) i n :
  length nodes = MAX_NODES -> reg_slot nodes id = Some i -> nodes !! i = Some n ->
  active n = false \/ node_id n = id.
Proof.
  intros Hlen Hs Hn. unfold reg_slot, free_slot in Hs.
  destruct (find_node nodes id) as [j|] eqn:Hf.
  - injection Hs as <-. destruct (find_node_Some _ _ _ Hlen Hf) as (m & Hm & _ & Hid).
    right. congruence.
  - apply (scan_full_Some _ _ Hlen) in Hs as (m & Hm & Hfree & _).
    left. rewrite Hn in Hm. injection Hm as <-. by destruct (active n).
Qed.

(** There is no slot to write exactly when [id] is absent and every
    slot is active. *)
Lemma reg_slot_None (nodes : list thread_node_t) (id : string) :
  length nodes = MAX_NODES ->
  reg_slot nodes id = None <->
  find_node nodes id = None /\ forall j n, nodes !! j = Some n -> active n = true.
Proof.
  intros Hlen. unfold reg_slot, free_slot.
  destruct (find_node nodes id); [split; [done | by intros []]|].
  rewrite (scan_full_None _ _ Hlen). split.
  - intros H. split; [done|]. intros j n Hj. specialize (H j n Hj). by destruct (active n).
  - intros [_ H] j n Hj. by rewrite (H j n Hj).
Qed.

(** After [register_node], [find] returns the written entry: the id,
    the role cut to its field, and the address of the call. *)
Lemma register_node_find (nodes : list thread_node_t) (id role : string) addr :
  table_wf nodes -> String.length id < NODE_ID_LEN -> is_Some (reg_slot nodes id) ->
  find_entry (register_node id role addr nodes) id = Some (new_node id role addr).
Proof.
  intros Hwf Hid [i Hs].
  pose proof (register_node_wf nodes id role addr Hwf Hid) as Hwf'.
  apply find_entry_spec; [done|]. exists i.
  rewrite (register_node_slot _ _ _ _ (wf_length _ Hwf)), Hs.
  split; [|split; [done | by apply new_node_id]].
  apply list_lookup_insert_eq. by apply (reg_slot_lt nodes id i (wf_length _ Hwf) Hs).
Qed.

(** [register_node] leaves the entry of every other id as it was. *)
Lemma register_node_other (nodes : list thread_node_t) (id id' role : string) addr :
  table_wf nodes -> String.length id < NODE_ID_LEN -> id' <> id ->
  find_entry (register_node id role addr nodes) id' = find_entry nodes id'.
Proof.
  intros Hwf Hid Hne.
  pose proof (register_node_wf nodes id role addr Hwf Hid) as Hwf'.
  apply option_eq. intros n. rewrite (find_entry_spec _ _ _ Hwf'), (find_entry_spec _ _ _ Hwf).
  rewrite (register_node_slot _ _ _ _ (wf_length _ Hwf)).
  destruct (reg_slot nodes id) as [i|] eqn:Hs; [|done].
  pose proof (new_node_id id role addr Hid).
  split; intros (j & Hj & Ha & Hidj); exists j; split_and!; try done.
  - destruct (decide (j = i)) as [->|]; [|by rewrite list_lookup_insert_ne in Hj].
    rewrite list_lookup_insert_eq in Hj by (by apply (reg_slot_lt nodes id i (wf_length _ Hwf) Hs)).
    congruence.
  - destruct (decide (j = i)) as [->|]; [|by rewrite list_lookup_insert_ne].
    destruct (reg_slot_old _ _ _ _ (wf_length _ Hwf) Hs Hj); congruence.
Qed.

(** C15: with every slot active, a new id is dropped: the table is
    unchanged ([TableFull] of the spec, silent in the code). *)
Theorem register_node_full (nodes : list thread_node_t) (id role : string) addr :
  length nodes = MAX_NODES ->
  (forall j n, nodes !! j = Some n -> active n = true) ->
  find_node nodes id = None ->
  register_node id role addr nodes = nodes.
Proof.
  intros Hlen Hfull Hf. rewrite (register_node_slot _ _ _ _ Hlen).
  by rewrite (proj2 (reg_slot_None _ _ Hlen) (conj Hf Hfull)).
Qed.

Lemma register_node_full_witness :
  let t := filled [("n0", "r", ip6_zero); ("n1", "r", ip6_zero); ("n2", "r", ip6_zero);
                   ("n3", "r", ip6_zero); ("n4", "r", ip6_zero); ("n5", "r", ip6_zero);
                   ("n6", "r", ip6_zero); ("n7", "r", ip6_zero)]%string in
  register_node "n8"%string "r"%string ip6_zero t = t.
Proof.
  intros t. apply register_node_full.
  - vm_compute. reflexivity.
  - intros j n Hj. refine (Forall_lookup_1 (fun n => active n = true) t j n _ Hj).
    apply (bool_decide_unpack _). vm_compute. reflexivity.
  - vm_compute. reflexivity.
Defined.

(** Once [id] has a slot it keeps it. *)
Lemma register_node_keeps_slot (nodes : list thread_node_t) (id role : string) addr :
  table_wf nodes -> String.length id < NODE_ID_LEN -> is_Some (reg_slot nodes id) ->
  is_Some (reg_slot (register_node id role addr nodes) id).
Proof.
  intros Hwf Hid Hs.
  pose proof (register_node_find nodes id role addr Hwf Hid Hs) as Hf.
  unfold find_entry in Hf. unfold reg_slot.
  destruct (find_node _ id); [done | discriminate].
Qed.

Lemma register_calls_wf (id : string) calls (nodes : list thread_node_t) :
  table_wf nodes -> String.length id < NODE_ID_LEN -> is_Some (reg_slot nodes id) ->
  table_wf (register_calls id calls nodes) /\ is_Some (reg_slot (register_calls id calls nodes) id).
Proof.
  revert nodes. induction calls as [|[r a] calls IH]; intros nodes Hwf Hid Hs; [done|].
  apply IH; [by apply register_node_wf | done | by apply register_node_keeps_slot].
Qed.

(** C4 (upsert): after any sequence of registrations of [id] there is
    exactly one active entry for [id], and it holds the role and address
    of the last call. *)
Theorem register_node_upsert (nodes : list thread_node_t) (id : string) calls role addr :
  table_wf nodes -> String.length id < NODE_ID_LEN -> is_Some (reg_slot nodes id) ->
  let t := register_calls id (calls ++ [(role, addr)]) nodes in
  find_entry t id = Some (new_node id role addr) /\
  forall j n, t !! j = Some n -> active n = true -> node_id n = id ->
    j = default 0 (find_node t id) /\ n = new_node id role addr.
Proof.
  intros Hwf Hid Hs t.
  destruct (register_calls_wf id calls nodes Hwf Hid Hs) as [Hwf' Hs'].
  assert (Hf : find_entry t id = Some (new_node id role addr)).
  { unfold t, register_calls. rewrite fold_left_app. by apply register_node_find. }
  split; [done|]. intros j n Hj Ha Hnid.
  assert (Hwft : table_wf t).
  { unfold t, register_calls. rewrite fold_left_app. by apply register_node_wf. }
  rewrite (find_node_complete t id j n Hwft Hj Ha Hnid). split; [done|].
  assert (Hn : find_entry t id = Some n) by (apply find_entry_spec; eauto).
  congruence.
Qed.

Lemma register_node_upsert_witness :
  let t := register_calls "B"%string ([("r1"%string, ip6_zero)] ++ [("r2"%string, ip6_ff02_1)])
             nodes_zero in
  find_entry t "B"%string = Some (new_node "B"%string "r2"%string ip6_ff02_1) /\
  forall j n, t !! j = Some n -> active n = true -> node_id n = "B"%string ->
    j = default 0 (find_node t "B"%string) /\ n = new_node "B"%string "r2"%string ip6_ff02_1.
Proof.
  apply register_node_upsert;
    [apply table_wf_b_sound; vm_compute; reflexivity | vm_compute; lia | vm_compute; by eexists].
Defined.

(** ** Registering distinct peers into the zeroed table *)

Lemma filled_length (pre : list peer_call) :
  length pre <= MAX_NODES -> length (filled pre) = MAX_NODES.
Proof. intros H. unfold filled. rewrite length_app, length_fmap, length_replicate. lia. Qed.

Lemma filled_lookup (pre : list peer_call) j n :
  filled pre !! j = Some n ->
  (exists c, pre !! j = Some c /\ n = call_node c) \/ (length pre <= j /\ n = node_zero).
Proof.
  unfold filled. rewrite lookup_app, list_lookup_fmap, length_fmap.
  destruct (pre !! j) as [c|] eqn:Hj; cbn.
  - intros [= <-]. left. eauto.
  - intros [-> _]%lookup_replicate. right. split; [|done].
    by apply lookup_ge_None.
Qed.

Lemma filled_find_None (pre : list peer_call) (id : string) :
  length pre <= MAX_NODES -> Forall call_fits pre -> id ∉ call_id <$> pre ->
  find_node (filled pre) id = None.
Proof.
  intros Hlen Hfit Hnot. apply (find_node_None _ _ (filled_length _ Hlen)).
  intros j n Hj Ha Hid. apply filled_lookup in Hj as [(c & Hc & ->) | [_ ->]]; [|done].
  apply Hnot. apply list_elem_of_lookup_2 with j. rewrite list_lookup_fmap, Hc. cbn. f_equal.
  rewrite <- Hid. symmetry. apply new_node_id. apply (Forall_lookup_1 _ _ _ _ Hfit Hc).
Qed.

Lemma filled_free_slot (pre : list peer_call) :
  length pre < MAX_NODES -> free_slot (filled pre) = Some (length pre).
Proof.
  intros Hlen. apply (scan_full_Some _ _ (filled_length pre ltac:(lia))).
  exists node_zero. split_and!.
  - unfold filled. rewrite lookup_app_r by (rewrite length_fmap; lia).
    rewrite length_fmap, Nat.sub_diag. apply lookup_replicate. split; [done | lia].
  - done.
  - intros j n Hj Hlt. apply filled_lookup in Hj as [(c & _ & ->) | [? _]]; [done | lia].
Qed.

Lemma filled_full (pre : list peer_call) :
  length pre = MAX_NODES -> forall j n, filled pre !! j = Some n -> active n = true.
Proof.
  intros Hlen j n. unfold filled. rewrite Hlen, Nat.sub_diag, app_nil_r, list_lookup_fmap.
  destruct (pre !! j); cbn; [intros [= <-]|]; done.
Qed.

(** A fresh id takes the next slot while one is free. *)
Lemma filled_register (pre : list peer_call) (c : peer_call) :
  length pre < MAX_NODES -> Forall call_fits pre -> call_id c ∉ call_id <$> pre ->
  register_node c.1.1 c.1.2 c.2 (filled pre) = filled (pre ++ [c]).
Proof.
  intros Hlen Hfit Hnot.
  rewrite (register_node_slot _ _ _ _ (filled_length pre ltac:(lia))).
  unfold reg_slot. rewrite (filled_find_None pre c.1.1); [| lia | done | exact Hnot].
  rewrite (filled_free_slot pre Hlen).
  unfold filled. rewrite insert_app_r_alt by (rewrite length_fmap; lia).
  rewrite length_fmap, Nat.sub_diag, fmap_app, length_app, <- app_assoc.
  destruct (MAX_NODES - length pre) as [|k] eqn:Hk; [lia|].
  replace (MAX_NODES - (length pre + length [c])) with k by (cbn [length]; lia). done.
Qed.

(** With every slot taken, a fresh id changes nothing. *)
Lemma filled_register_full (pre : list peer_call) (c : peer_call) :
  length pre = MAX_NODES -> Forall call_fits pre -> call_id c ∉ call_id <$> pre ->
  register_node c.1.1 c.1.2 c.2 (filled pre) = filled pre.
Proof.
  intros Hlen Hfit Hnot.
  assert (length (filled pre) = MAX_NODES) as Hl by (apply filled_length; lia).
  rewrite (register_node_slot _ _ _ _ Hl), (proj2 (reg_slot_None _ _ Hl)); [done|].
  split; [apply filled_find_None; [lia | done..] | by apply filled_full].
Qed.

Lemma register_all_filled (pre calls : list peer_call) :
  length pre <= MAX_NODES -> Forall call_fits (pre ++ calls) ->
  NoDup (call_id <$> (pre ++ calls)) ->
  length pre < MAX_NODES \/ take MAX_NODES (pre ++ calls) = pre ->
  fold_left (fun t c => register_node c.1.1 c.1.2 c.2 t) calls (filled pre)
  = filled (take MAX_NODES (pre ++ calls)).
Proof.
  revert pre. induction calls as [|c calls IH]; intros pre Hlen Hfit Hnd Hcase.
  - rewrite app_nil_r, take_ge by lia. done.
  - apply Forall_app in Hfit as [Hfd Hfc].
    rewrite fmap_app in Hnd. cbn in Hnd.
    apply NoDup_app in Hnd as (Hnd1 & Hdisj & Hnd2).
    assert (Hnot : call_id c ∉ call_id <$> pre).
    { intros Hin. apply (Hdisj _ Hin). by left. }
    cbn [fold_left]. destruct (decide (length pre < MAX_NODES)) as [Hlt|Hge].
    + rewrite (filled_register pre c Hlt Hfd Hnot).
      replace (pre ++ c :: calls) with ((pre ++ [c]) ++ calls) by by rewrite <- app_assoc.
      apply IH.
      * rewrite length_app. cbn [length]. lia.
      * rewrite <- app_assoc. apply Forall_app. by split.
      * rewrite <- app_assoc, fmap_app. cbn. by apply NoDup_app.
      * rewrite length_app. cbn [length].
        destruct (decide (length pre + 1 < MAX_NODES)); [by left|right].
        rewrite take_app_length' by (rewrite length_app; cbn [length]; lia). done.
    + rewrite (filled_register_full pre c ltac:(lia) Hfd Hnot).
      destruct Hcase as [|Htake]; [lia|].
      assert (Hl : length pre = MAX_NODES) by lia.
      rewrite (take_app_length' pre (c :: calls)) by done.
      rewrite <- (take_app_length' pre calls MAX_NODES) at 2 by done.
      apply IH; [lia | | | right; by rewrite take_app_length'].
      * apply Forall_app. split; [done|]. by inversion Hfc.
      * rewrite fmap_app. apply NoDup_app. split_and!; [done | | by inversion Hnd2].
        intros x Hx1 Hx2. apply (Hdisj x Hx1). by right.
Qed.

(** C5 (capacity): registering distinct ids into the zeroed table
    fills the slots in call order with the first [MAX_NODES] calls; every
    later call is dropped and leaves the earlier entries unchanged. *)
Theorem register_distinct_capacity (calls : list peer_call) :
  Forall call_fits calls -> NoDup (call_id <$> calls) ->
  fold_left (fun t c => register_node c.1.1 c.1.2 c.2 t) calls nodes_zero
  = (call_node <$> take MAX_NODES calls)
      ++ replicate (MAX_NODES - length (take MAX_NODES calls)) node_zero.
Proof.
  intros Hfit Hnd. change nodes_zero with (filled []).
  apply (register_all_filled [] calls); cbn; [lia | done | done | left; unfold MAX_NODES; lia].
Qed.

Lemma register_distinct_capacity_witness :
  let calls := [("n0", "r", ip6_zero); ("n1", "r", ip6_zero); ("n2", "r", ip6_zero);
                ("n3", "r", ip6_zero); ("n4", "r", ip6_zero); ("n5", "r", ip6_zero);
                ("n6", "r", ip6_zero); ("n7", "r", ip6_zero); ("n8", "r", ip6_zero)]%string in
  fold_left (fun t c => register_node c.1.1 c.1.2 c.2 t) calls nodes_zero
  = (call_node <$> take MAX_NODES calls)
      ++ replicate (MAX_NODES - length (take MAX_NODES calls)) node_zero.
Proof.
  intros calls. apply register_distinct_capacity.
  - apply (bool_decide_unpack _). vm_compute. reflexivity.
  - apply (bool_decide_unpack _). vm_compute. reflexivity.
Defined.

End NodeTable.
