(* ===== verification/Codec.v ===== *)
(** * The wire frames of thread_comm.c

    Two text frames travel as UDP payloads:
    - [HELLO|id=<id>|role=<role>], written by [thread_comm_announce] with
      [snprintf(buf, 64, ...)] and read by [udp_handler] with
      [sscanf(buf, "HELLO|id=%15[^|]|role=%7s", id, role)];
    - [DATA|from=<id>|<payload>], written by [thread_comm_send] with
      [snprintf(buf, PAYLOAD_LEN, ...)] and read with
      [sscanf(buf, "DATA|from=%15[^|]|%127[^\n]", from, payload)].
    [udp_handler] reads at most [PAYLOAD_LEN - 1] bytes of a datagram
    and sees them as a C string.  This file models both directions and
    proves the round trips, with the truncations the code performs. *)

From Stdlib Require Import String Ascii Lia.
From stdpp Require Import base list strings.
From S2P Require Import Prelude CStr Transport NodeTable.

#[local] Open Scope string_scope.

Module Codec.
Import CStr Transport.

(** thread_comm.h *)
Definition PAYLOAD_LEN : nat := 128.

(** [char buf[64]] of [thread_comm_announce]. *)
Definition ANNOUNCE_BUF_LEN : nat := 64.

Definition PIPE : ascii := "|".
Definition LF_CHAR : ascii := "010".

(** The text [snprintf] formats before truncation. *)
Definition hello_text (id role : string) : string :=
  "HELLO|id=" ++ id ++ "|role=" ++ role.

Definition data_text (from payload : string) : string :=
  "DATA|from=" ++ from ++ "|" ++ payload.

(** The bytes appended to the message ([strlen(buf)] bytes of [buf]). *)
Definition hello_frame (id role : string) : string :=
  snprintf ANNOUNCE_BUF_LEN (hello_text id role).

Definition data_frame (from payload : string) : string :=
  snprintf PAYLOAD_LEN (data_text from payload).

(** [len = otMessageRead(msg, 0, buf, sizeof(buf) - 1); buf[len] = 0]:
    the C string [udp_handler] parses. *)
Definition rx_text (msg : string) : string :=
  cstr (otMessageRead msg 0 (PAYLOAD_LEN - 1)).

(** [sscanf(buf, "HELLO|id=%15[^|]|role=%7s", id, role)] into the
    zero-initialised [char id[16]] and [char role[8]]: a field the scan
    does not reach stays empty. *)
Definition scan_hello (buf : string) : string * string :=
  match scan_lit "HELLO|id=" buf with
  | None => (EmptyString, EmptyString)
  | Some r1 =>
      match scan_set_excl PIPE 15 r1 with
      | None => (EmptyString, EmptyString)
      | Some (id, r2) =>
          match scan_lit "|role=" r2 with
          | None => (id, EmptyString)
          | Some r3 =>
              match scan_s 7 r3 with
              | None => (id, EmptyString)
              | Some (role, _) => (id, role)
              end
          end
      end
  end.

(** [sscanf(buf, "DATA|from=%15[^|]|%127[^\n]", from, payload)] into the
    zero-initialised [char from[16]] and [char payload[128]]. *)
Definition scan_data (buf : string) : string * string :=
  match scan_lit "DATA|from=" buf with
  | None => (EmptyString, EmptyString)
  | Some r1 =>
      match scan_set_excl PIPE 15 r1 with
      | None => (EmptyString, EmptyString)
      | Some (from, r2) =>
          match scan_lit "|" r2 with
          | None => (from, EmptyString)
          | Some r3 =>
              match scan_set_excl LF_CHAR 127 r3 with
              | None => (from, EmptyString)
              | Some (payload, _) => (from, payload)
              end
          end
      end
  end.

(** How [udp_handler] classifies a received C string:
    [strncmp(buf, "HELLO|", 6) == 0] first, then
    [strncmp(buf, "DATA|", 5) == 0]. *)
Inductive wire_msg :=
| Hello (id role : string)
| Data (from payload : string)
| Malformed.

Definition decode (buf : string) : wire_msg :=
  if strncmp_eq buf "HELLO|" 6 then
    let '(id, role) := scan_hello buf in Hello id role
  else if strncmp_eq buf "DATA|" 5 then
    let '(from, payload) := scan_data buf in Data from payload
  else Malformed.

(** ** Field conditions

    The fields the round trips carry: an id is non-empty, at most 15
    characters, with no ['|'] and no NUL (what [%15[^|]] reads back
    whole); a role is non-empty, without white space or NUL, and fits
    [self_role]; a payload is non-empty, without line feed or NUL. *)
Definition nonempty (s : string) : bool := negb (String.eqb s EmptyString).

Definition id_ok (id : string) : bool :=
  nonempty id && Nat.leb (String.length id) 15 &&
  str_forall (fun c => not_char PIPE c && not_char NUL c) id.

Definition role_ok (role : string) : bool :=
  nonempty role && Nat.leb (String.length role) 15 &&
  str_forall (fun c => negb (is_space c) && not_char NUL c) role.

Definition payload_ok (payload : string) : bool :=
  nonempty payload && str_forall (fun c => not_char LF_CHAR c && not_char NUL c) payload.

(** ** Lemmas on the conversions *)

Lemma str_forall_andb_l (p q : ascii -> bool) (s : string) :
  str_forall (fun c => p c && q c) s = true -> str_forall p s = true.
Proof. apply str_forall_impl. intros c [H _]%andb_prop. done. Qed.

Lemma str_forall_andb_r (p q : ascii -> bool) (s : string) :
  str_forall (fun c => p c && q c) s = true -> str_forall q s = true.
Proof. apply str_forall_impl. intros c [_ H]%andb_prop. done. Qed.

Lemma nonempty_spec (s : string) : nonempty s = true <-> s <> EmptyString.
Proof. unfold nonempty. rewrite negb_true_iff. by rewrite String.eqb_neq. Qed.

(** [%w[^c]] reads a whole token that stops at [c] or at the end. *)
Lemma scan_set_excl_app (c : ascii) (w : nat) (tok rest : string) :
  tok <> EmptyString -> str_forall (not_char c) tok = true ->
  String.length tok <= w ->
  (rest = EmptyString \/ exists r, rest = String c r) ->
  scan_set_excl c w (tok ++ rest) = Some (tok, rest).
Proof.
  intros Hne Hok Hlen Hrest. unfold scan_set_excl.
  rewrite scan_while_app; [| done | done |].
  - by destruct tok.
  - right. destruct Hrest as [-> | [r ->]]; [done|].
    unfold not_char. by rewrite Ascii.eqb_refl.
Qed.

Lemma scan_set_excl_whole (c : ascii) (w : nat) (tok : string) :
  tok <> EmptyString -> str_forall (not_char c) tok = true ->
  String.length tok <= w ->
  scan_set_excl c w tok = Some (tok, EmptyString).
Proof.
  intros. rewrite <- (str_append_nil_r tok) at 1. apply scan_set_excl_app; [done..|by left].
Qed.

(** [%ws] on a non-empty word without white space reads its first [w]
    characters. *)
Lemma scan_s_word (w : nat) (s : string) :
  0 < w -> s <> EmptyString ->
  str_forall (fun c => negb (is_space c)) s = true ->
  exists rest, scan_s w s = Some (substring 0 w s, rest).
Proof.
  intros Hw Hne Hok. unfold scan_s.
  assert (Hskip : skip_while is_space s = s).
  { destruct s as [|c s']; [done|]. cbn [str_forall] in Hok.
    apply andb_prop in Hok as [Hc _]. cbn [skip_while].
    apply negb_true_iff in Hc. by rewrite Hc. }
  rewrite Hskip.
  pose proof (scan_while_cut _ w s Hok) as Hcut.
  destruct (scan_while _ w s) as [tok rest] eqn:E. cbn in Hcut. subst tok.
  exists rest. destruct s as [|c s']; [done|]. destruct w; [lia|]. done.
Qed.

Lemma no_nul_andb (p : ascii -> bool) (s : string) :
  str_forall (fun c => p c && not_char NUL c) s = true -> no_nul s = true.
Proof. apply str_forall_andb_r. Qed.

Lemma hello_text_facts (id role : string) :
  id_ok id = true -> role_ok role = true ->
  String.length (hello_text id role) <= 45 /\ no_nul (hello_text id role) = true.
Proof.
  unfold id_ok, role_ok, hello_text.
  intros [[_ Hl1%Nat.leb_le]%andb_prop Hc1]%andb_prop [[_ Hl2%Nat.leb_le]%andb_prop Hc2]%andb_prop.
  split.
  - rewrite !str_length_append. cbn [String.length]. lia.
  - apply no_nul_andb in Hc1, Hc2. unfold no_nul in *.
    rewrite !str_forall_app. cbn [str_forall]. by rewrite Hc1, Hc2.
Qed.

(** The HELLO frame [thread_comm_announce] sends for [(id, role)] is
    decoded by [udp_handler] as a HELLO with the same id and the role
    cut to the 7 characters of [%7s]. *)
Lemma decode_hello_frame (id role : string) :
  id_ok id = true -> role_ok role = true ->
  decode (rx_text (hello_frame id role)) = Hello id (substring 0 7 role).
Proof.
  intros Hid Hrole.
  destruct (hello_text_facts id role Hid Hrole) as [Hlen Hnn].
  unfold id_ok, role_ok in *.
  apply andb_prop in Hid as [[Hne1 Hl1%Nat.leb_le]%andb_prop Hc1].
  apply andb_prop in Hrole as [[Hne2 _]%andb_prop Hc2].
  unfold rx_text, hello_frame, otMessageRead.
  rewrite snprintf_id by (unfold ANNOUNCE_BUF_LEN; lia).
  rewrite substring_0_id by (unfold PAYLOAD_LEN; lia).
  rewrite cstr_no_nul by done.
  unfold decode. change 6 with (String.length "HELLO|").
  rewrite strncmp_eq_prefix.
  change (hello_text id role) with ("HELLO|" ++ ("id=" ++ (id ++ ("|role=" ++ role)))).
  rewrite prefix_append.
  change ("HELLO|" ++ ("id=" ++ (id ++ ("|role=" ++ role))))
    with ("HELLO|id=" ++ (id ++ ("|role=" ++ role))).
  unfold scan_hello. rewrite scan_lit_app.
  rewrite scan_set_excl_app.
  - rewrite scan_lit_app.
    destruct (scan_s_word 7 role) as [rest ->]; [lia | by apply nonempty_spec | |].
    + by apply str_forall_andb_l in Hc2.
    + done.
  - by apply nonempty_spec.
  - by apply str_forall_andb_l in Hc1.
  - done.
  - right. by eexists.
Qed.

Lemma substring_0_nonempty (n : nat) (s : string) :
  0 < n -> s <> EmptyString -> substring 0 n s <> EmptyString.
Proof. intros Hn Hs. destruct s as [|c s]; [done|]. destruct n; [lia|]. done. Qed.

(** [snprintf(buf, PAYLOAD_LEN, "DATA|from=%s|%s", ...)] keeps the
    frame head and the first [116 - |from|] characters of the payload. *)
Lemma data_frame_eq (from payload : string) :
  String.length from <= 15 ->
  data_frame from payload =
    "DATA|from=" ++ from ++ "|" ++ substring 0 (116 - String.length from) payload.
Proof.
  intros Hl. unfold data_frame, snprintf, data_text, PAYLOAD_LEN.
  rewrite (substring_0_append _ "DATA|from=") by (cbn [String.length]; lia).
  rewrite (substring_0_append _ from) by (cbn [String.length]; lia).
  rewrite (substring_0_append _ "|") by (cbn [String.length]; lia).
  do 4 f_equal. cbn [String.length]. lia.
Qed.

(** The DATA frame [thread_comm_send] sends from [from] is decoded by
    [udp_handler] as DATA from [from] with the payload cut to what fits
    in [PAYLOAD_LEN - 1] bytes. *)
Lemma decode_data_frame (from payload : string) :
  id_ok from = true -> payload_ok payload = true ->
  decode (rx_text (data_frame from payload)) =
    Data from (substring 0 (116 - String.length from) payload).
Proof.
  intros Hid Hp. unfold id_ok, payload_ok in *.
  apply andb_prop in Hid as [[Hne1 Hl1%Nat.leb_le]%andb_prop Hc1].
  apply andb_prop in Hp as [Hne2 Hc2].
  set (p' := substring 0 (116 - String.length from) payload).
  assert (Hp'ne : p' <> EmptyString)
    by (apply substring_0_nonempty; [lia | by apply nonempty_spec]).
  assert (Hp'c : str_forall (fun c => not_char LF_CHAR c && not_char NUL c) p' = true)
    by (by apply str_forall_substring).
  assert (Hp'l : String.length p' <= 116 - String.length from)
    by (unfold p'; rewrite substring_0_length; lia).
  unfold rx_text, otMessageRead. rewrite data_frame_eq by done. fold p'.
  rewrite substring_0_id
    by (rewrite !str_length_append; cbn [String.length]; unfold PAYLOAD_LEN; lia).
  rewrite cstr_no_nul.
  2:{ apply no_nul_andb in Hc1, Hp'c. unfold no_nul in *.
      rewrite !str_forall_app. cbn [str_forall]. by rewrite Hc1, Hp'c. }
  unfold decode. change 6 with (String.length "HELLO|").
  change 5 with (String.length "DATA|").
  rewrite !strncmp_eq_prefix.
  change ("DATA|from=" ++ (from ++ ("|" ++ p')))
    with ("DATA|" ++ ("from=" ++ (from ++ ("|" ++ p')))).
  rewrite prefix_append.
  change (String.prefix "HELLO|" ("DATA|" ++ ("from=" ++ (from ++ ("|" ++ p'))))) with false.
  cbv iota.
  change ("DATA|" ++ ("from=" ++ (from ++ ("|" ++ p'))))
    with ("DATA|from=" ++ (from ++ ("|" ++ p'))).
  unfold scan_data. rewrite scan_lit_app.
  rewrite scan_set_excl_app.
  - rewrite scan_lit_app.
    rewrite scan_set_excl_whole; [done | done | | lia].
    by apply str_forall_andb_l in Hp'c.
  - by apply nonempty_spec.
  - by apply str_forall_andb_l in Hc1.
  - lia.
  - right. by eexists.
Qed.

(** C6 (round trip): the HELLO frame [thread_comm_announce] sends for
    a well-formed [(id, role)] is decoded by [udp_handler] as a HELLO
    with the same id; the round trip is exact exactly when the role has
    at most 7 characters ([%7s] cuts longer roles: [receiver] comes back
    as [receive]). *)
Theorem hello_roundtrip (id role : string) :
  id_ok id = true -> role_ok role = true ->
  (decode (rx_text (hello_frame id role)) = Hello id role <-> String.length role <= 7).
Proof.
  intros Hid Hrole. rewrite (decode_hello_frame id role Hid Hrole). split.
  - intros [= H]. rewrite <- H, substring_0_length. lia.
  - intros H. by rewrite substring_0_id.
Qed.

Lemma hello_roundtrip_witness :
  decode (rx_text (hello_frame "node_1" "sensor")) = Hello "node_1" "sensor" <->
  String.length "sensor" <= 7.
Proof. apply hello_roundtrip; vm_compute; reflexivity. Defined.

(** C7 (round trip): the DATA frame [thread_comm_send] sends from a
    well-formed [from] is decoded by [udp_handler] as DATA from [from];
    the payload comes back whole exactly when it fits the
    [PAYLOAD_LEN - 1] bytes left after the frame head, [116 - |from|]
    characters. *)
Theorem data_roundtrip (from payload : string) :
  id_ok from = true -> payload_ok payload = true ->
  (decode (rx_text (data_frame from payload)) = Data from payload <->
   String.length payload <= 116 - String.length from).
Proof.
  intros Hid Hp. rewrite (decode_data_frame from payload Hid Hp). split.
  - intros [= H]. rewrite <- H, substring_0_length. lia.
  - intros H. by rewrite substring_0_id.
Qed.

Lemma data_roundtrip_witness :
  decode (rx_text (data_frame "node_2" "temp:25.5")) = Data "node_2" "temp:25.5" <->
  String.length "temp:25.5" <= 116 - String.length "node_2".
Proof. apply data_roundtrip; vm_compute; reflexivity. Defined.

(** ** What [decode] can return *)

Lemma scan_set_excl_length (c : ascii) (w : nat) (s tok r : string) :
  scan_set_excl c w s = Some (tok, r) -> String.length tok <= w.
Proof.
  unfold scan_set_excl. pose proof (scan_while_length (not_char c) w s) as H.
  destruct (scan_while _ w s) as [[|a t] rest]; [done|]. intros [= <- _]. done.
Qed.

Lemma scan_s_length (w : nat) (s tok r : string) :
  scan_s w s = Some (tok, r) -> String.length tok <= w.
Proof.
  unfold scan_s.
  pose proof (scan_while_length (fun c => negb (is_space c)) w (skip_while is_space s)) as H.
  destruct (scan_while _ w _) as [[|a t] rest]; [done|]. intros [= <- _]. done.
Qed.

(** Every field [decode] returns fits the buffer [sscanf] wrote it to:
    an id in [char id[16]], a role in [char role[8]]. *)
Lemma scan_hello_length (buf id role : string) :
  scan_hello buf = (id, role) -> String.length id <= 15 /\ String.length role <= 7.
Proof.
  unfold scan_hello.
  destruct (scan_lit _ buf) as [r1|]; [|intros [= <- <-]; cbn; lia].
  destruct (scan_set_excl PIPE 15 r1) as [[tok r2]|] eqn:E1; [|intros [= <- <-]; cbn; lia].
  apply scan_set_excl_length in E1.
  destruct (scan_lit _ r2) as [r3|]; [|intros [= <- <-]; cbn; lia].
  destruct (scan_s 7 r3) as [[ro r4]|] eqn:E2; [|intros [= <- <-]; cbn; lia].
  apply scan_s_length in E2. intros [= <- <-]. lia.
Qed.

Lemma decode_hello_length (buf id role : string) :
  decode buf = Hello id role -> String.length id <= 15 /\ String.length role <= 7.
Proof.
  unfold decode. destruct (strncmp_eq buf "HELLO|" 6).
  - destruct (scan_hello buf) as [i r] eqn:E. intros [= <- <-]. by apply (scan_hello_length buf).
  - destruct (strncmp_eq buf "DATA|" 5); [by destruct (scan_data buf)|done].
Qed.

Lemma scan_data_length (buf from payload : string) :
  scan_data buf = (from, payload) -> String.length from <= 15 /\ String.length payload <= 127.
Proof.
  unfold scan_data.
  destruct (scan_lit _ buf) as [r1|]; [|intros [= <- <-]; cbn; lia].
  destruct (scan_set_excl PIPE 15 r1) as [[tok r2]|] eqn:E1; [|intros [= <- <-]; cbn; lia].
  apply scan_set_excl_length in E1.
  destruct (scan_lit _ r2) as [r3|]; [|intros [= <- <-]; cbn; lia].
  destruct (scan_set_excl LF_CHAR 127 r3) as [[pl r4]|] eqn:E2; [|intros [= <- <-]; cbn; lia].
  apply scan_set_excl_length in E2. intros [= <- <-]. lia.
Qed.

(** A buffer with neither prefix is [Malformed]. *)
Lemma decode_malformed (buf : string) :
  String.prefix "HELLO|" buf = false -> String.prefix "DATA|" buf = false ->
  decode buf = Malformed.
Proof.
  intros H1 H2. unfold decode.
  change 6 with (String.length "HELLO|"). change 5 with (String.length "DATA|").
  by rewrite !strncmp_eq_prefix, H1, H2.
Qed.

(** A buffer that starts with [DATA|] is never read as a HELLO. *)
Lemma decode_data_head (r : string) id role :
  decode (rx_text ("DATA|" ++ r)) <> Hello id role.
Proof.
  unfold rx_text, otMessageRead.
  rewrite substring_0_append by (cbn [String.length]; unfold PAYLOAD_LEN; lia).
  rewrite cstr_app by reflexivity. unfold decode.
  change 6 with (String.length "HELLO|"). rewrite strncmp_eq_prefix. str_cbn.
  cbn [String.prefix ascii_dec].
  destruct (strncmp_eq _ "DATA|" 5); [destruct (scan_data _)|]; discriminate.
Qed.

(** A buffer that starts with [HELLO|] but does not go on with [id=]
    is read as a HELLO with an empty id and role: [sscanf] matches no
    field and leaves both zero-initialised buffers empty. *)
Lemma decode_hello_no_id (r : string) :
  String.prefix "id=" r = false ->
  decode (rx_text ("HELLO|" ++ r)) = Hello EmptyString EmptyString.
Proof.
  intros Hr. unfold rx_text, otMessageRead.
  rewrite substring_0_append by (cbn [String.length]; unfold PAYLOAD_LEN; lia).
  rewrite cstr_app by reflexivity. unfold decode.
  change 6 with (String.length "HELLO|"). rewrite strncmp_eq_prefix, prefix_append.
  unfold scan_hello. change "HELLO|id="%string with ("HELLO|" ++ "id=")%string.
  rewrite scan_lit_app_l.
  destruct (scan_lit "id=" _) as [y|] eqn:Hy; [|done].
  apply scan_lit_inv in Hy. exfalso.
  destruct (cstr_substring_prefix (PAYLOAD_LEN - 1 - String.length "HELLO|") r) as [z Hz].
  rewrite Hy, str_append_assoc in Hz. rewrite Hz, prefix_append in Hr. discriminate.
Qed.

(** Every DATA frame starts with [DATA|], whatever its fields. *)
Lemma data_frame_head (from payload : string) :
  String.prefix "DATA|" (data_frame from payload) = true.
Proof.
  unfold data_frame, snprintf, data_text.
  change ("DATA|from=" ++ (from ++ ("|" ++ payload)))
    with ("DATA|" ++ ("from=" ++ (from ++ ("|" ++ payload)))).
  rewrite substring_0_append by (cbn [String.length]; unfold PAYLOAD_LEN; lia).
  apply prefix_append.
Qed.

(** C32 (type): every message [decode] produces fits the buffers
    [udp_handler] reads it into, with their NUL: the id and the sender
    fit [char[NODE_ID_LEN]], the role [char role[8]], the payload
    [char payload[PAYLOAD_LEN]]; the [sscanf] widths 15, 7 and 127 never
    overflow them, whatever the datagram. *)
Theorem decode_fits_buffers (buf : string) :
  match decode buf with
  | Hello id role => String.length id < NodeTable.NODE_ID_LEN /\ String.length role < 8
  | Data from payload => String.length from < NodeTable.NODE_ID_LEN /\ String.length payload < PAYLOAD_LEN
  | Malformed => True
  end.
Proof.
  unfold NodeTable.NODE_ID_LEN, PAYLOAD_LEN.
  destruct (decode buf) as [id role|from payload|] eqn:Hdec; [| |done].
  - apply decode_hello_length in Hdec. lia.
  - unfold decode in Hdec. destruct (strncmp_eq buf "HELLO|" 6); [by destruct (scan_hello buf)|].
    destruct (strncmp_eq buf "DATA|" 5); [|done].
    destruct (scan_data buf) as [f p] eqn:E. injection Hdec as <- <-.
    apply scan_data_length in E. lia.
Qed.

End Codec.
