(* ===== verification/Engine.v ===== *)
(** * The protocol engine of thread_comm.c

    The module's static state ([socket], [self_id], [self_role], [nodes],
    [rx_cb]) is the record [comm_state], together with the part of
    OpenThread that decides the outcome of the calls the module checks.
    Each API function and the UDP receive handler is a computation of
    the [stm] monad of the prelude: it reads and updates the state and
    emits, in order, the events the module performs: datagrams handed to
    [otUdpSend], invocations of the application callback, the warnings
    and errors it logs, and the lines it prints.  The caller holds the
    OpenThread lock around every call, so calls are modelled as running
    one after another ([run_calls]). *)

From Stdlib Require Import String Ascii ZArith Lia.
From stdpp Require Import base list strings sets.
From S2P Require Import Prelude CStr Transport NodeTable Codec.

#[local] Open Scope tc_scope.

Module Engine.
Import CStr Transport NodeTable Codec.

(** thread_comm.h *)
Definition THREAD_COMM_PORT : Z := 61631.

(** A [thread_data_cb_t]: the application function, by name. *)
Definition rx_callback : Type := string.

Record comm_state := mkComm {
  ot : ot_stack;                 (** OpenThread, as far as it decides results *)
  sock : udp_socket;             (** [static otUdpSocket socket] *)
  self_id : string;              (** [static char self_id[NODE_ID_LEN]] *)
  self_role : string;            (** [static char self_role[16]] *)
  nodes : list thread_node_t;    (** [static thread_node_t nodes[MAX_NODES]] *)
  rx_cb : option rx_callback     (** [static thread_data_cb_t rx_cb] *)
}.

(** The observable effects of the module. *)
Inductive event :=
| EvUdpSend (d : datagram)                      (** [otUdpSend] *)
| EvRxCallback (cb : rx_callback) (from payload : string) (src : otIp6Address)
                                                (** [rx_cb(from, payload, &info->mPeerAddr)] *)
| LogNodeNotFound (id : string)                 (** [ESP_LOGW "Node %s not found"] *)
| LogUdpOpenFailed (err : otError)              (** [ESP_LOGE "otUdpOpen failed: %d"] *)
| LogUdpBindFailed (err : otError)              (** [ESP_LOGE "otUdpBind failed: %d"] *)
| EvPrint (line : string).                      (** [printf] *)

Abbreviation comm := (stm comm_state event).

(** State at boot: static storage is zero-initialised. *)
Definition boot_state (o : ot_stack) : comm_state :=
  mkComm o SockClosed EmptyString EmptyString nodes_zero None.

Definition set_sock (s : udp_socket) (st : comm_state) : comm_state :=
  mkComm (ot st) s (self_id st) (self_role st) (nodes st) (rx_cb st).

Definition set_nodes (ns : list thread_node_t) (st : comm_state) : comm_state :=
  mkComm (ot st) (sock st) (self_id st) (self_role st) ns (rx_cb st).

Definition set_rx_cb (cb : option rx_callback) (st : comm_state) : comm_state :=
  mkComm (ot st) (sock st) (self_id st) (self_role st) (nodes st) cb.

Definition set_ot (o : ot_stack) (st : comm_state) : comm_state :=
  mkComm o (sock st) (self_id st) (self_role st) (nodes st) (rx_cb st).

(** The state after a message was allocated and handed to [otUdpSend]:
    the caller still owns a message [otUdpSend] refused, and the code
    never calls [otMessageFree] on it, so its buffer stays taken. *)
Definition after_send (st : comm_state) : comm_state :=
  if otUdpNewMessage_ok (ot st) && negb (otUdpSend_ok (ot st))
  then set_ot (ot_keep_message (ot st)) st else st.

(** The first statements of [thread_comm_init]: copy the identity,
    clear the table ([rx_cb] and the socket are left as they are). *)
Definition init_identity (id role : string) (st : comm_state) : comm_state :=
  mkComm (ot st) (sock st)
    (strncpy (NODE_ID_LEN - 1) id) (strncpy (ROLE_LEN - 1) role)
    nodes_zero (rx_cb st).

Fixpoint emit_all (evs : list event) : comm unit :=
  match evs with
  | [] => stm_ret tt
  | e :: evs' => stm_emit e ;; emit_all evs'
  end.

(** [thread_comm_init(instance, id, role)]. *)
Definition thread_comm_init (id role : string) : comm unit :=
  stm_modify (init_identity id role) ;;
  st <- stm_get ;;
  match ot_open_result (ot st) with
  | OT_ERROR e => stm_emit (LogUdpOpenFailed (OT_ERROR e))
  | OT_ERROR_NONE =>
      stm_modify (set_sock SockOpen) ;;
      match ot_bind_result (ot st) with
      | OT_ERROR e => stm_emit (LogUdpBindFailed (OT_ERROR e))
      | OT_ERROR_NONE => stm_modify (set_sock (SockBound THREAD_COMM_PORT))
      end
  end.

(** [msg = otUdpNewMessage(ot, NULL); if (!msg) return;
    otMessageAppend(msg, buf, strlen(buf)); ...; otUdpSend(ot, &socket,
    msg, &info);]: the datagram goes out when [otUdpSend] succeeds; its
    result is ignored, and on failure the message, which the caller
    still owns, is never freed. *)
Definition udp_send (d : datagram) : comm unit :=
  st <- stm_get ;;
  if otUdpNewMessage_ok (ot st) then
    if otUdpSend_ok (ot st) then stm_emit (EvUdpSend d)
    else stm_put (after_send st)
  else stm_ret tt.

(** [thread_comm_announce()]: a HELLO to ff02::1. *)
Definition thread_comm_announce : comm unit :=
  st <- stm_get ;;
  let buf := hello_frame (self_id st) (self_role st) in
  udp_send (mkDatagram ip6_ff02_1 THREAD_COMM_PORT buf).

(** [thread_comm_send(node_id, payload)]: a DATA frame to the stored
    address of a known node. *)
Definition thread_comm_send (node_id payload : string) : comm unit :=
  st <- stm_get ;;
  match find_node (nodes st) node_id with
  | None => stm_emit (LogNodeNotFound node_id)
  | Some i =>
      let buf := data_frame (self_id st) payload in
      match nodes st !! i with
      | Some n => udp_send (mkDatagram (eid n) THREAD_COMM_PORT buf)
      | None => stm_ret tt   (* unreachable: [find_node] returns a slot *)
      end
  end.

(** [thread_comm_register_rx_cb(cb)]; [None] is a NULL callback. *)
Definition thread_comm_register_rx_cb (cb : option rx_callback) : comm unit :=
  stm_modify (set_rx_cb cb).

(** [thread_comm_print_nodes()]. *)
Definition thread_comm_print_nodes : comm unit :=
  st <- stm_get ;;
  emit_all (EvPrint <$> print_nodes (nodes st)).

(** The payload [udp_handler] answers every HELLO with, through
    [thread_comm_send]. *)
Definition HELLO_REPLY : string := "HELLO|id=node_1|role=receiver".

(** [udp_handler(ctx, msg, info)]; [None] is a NULL pointer. *)
Definition udp_handler (msg : option string) (info : option otMessageInfo) : comm unit :=
  match msg, info with
  | Some m, Some inf =>
      if Nat.eqb (String.length (otMessageRead m 0 (PAYLOAD_LEN - 1))) 0
      then stm_ret tt
      else
        match decode (rx_text m) with
        | Hello id role =>
            stm_modify (fun st => set_nodes (register_node id role (mPeerAddr inf) (nodes st)) st) ;;
            thread_comm_send id HELLO_REPLY
        | Data from payload =>
            st <- stm_get ;;
            match rx_cb st with
            | Some cb => stm_emit (EvRxCallback cb from payload (mPeerAddr inf))
            | None => stm_ret tt
            end
        | Malformed => stm_ret tt
        end
  | _, _ => stm_ret tt
  end.

(** ** The API as the applications call it

    Every call into the module, and every delivery of a datagram by
    OpenThread, happens under the OpenThread lock: the module sees a
    sequence of calls. *)
Inductive api_call :=
| CallInit (id role : string)
| CallAnnounce
| CallSend (node_id payload : string)
| CallRegisterCb (cb : option rx_callback)
| CallPrintNodes
| CallRx (msg : option string) (info : option otMessageInfo).

Definition run_call (c : api_call) : comm unit :=
  match c with
  | CallInit id role => thread_comm_init id role
  | CallAnnounce => thread_comm_announce
  | CallSend id payload => thread_comm_send id payload
  | CallRegisterCb cb => thread_comm_register_rx_cb cb
  | CallPrintNodes => thread_comm_print_nodes
  | CallRx msg info => udp_handler msg info
  end.

Fixpoint run_calls (cs : list api_call) : comm unit :=
  match cs with
  | [] => stm_ret tt
  | c :: cs' => run_call c ;; run_calls cs'
  end.

(** The calls that allocate a message: every announce, and every send
    to an id the table holds. *)
Definition allocates (ns : list thread_node_t) (c : api_call) : bool :=
  match c with
  | CallAnnounce => true
  | CallSend id _ => bool_decide (is_Some (find_node ns id))
  | _ => false
  end.

(** ** Behaviour of each operation *)

(** Unfold the monad, keeping the component functions folded. *)
Ltac run_simpl :=
  unfold stm_bind, stm_get, stm_put, stm_modify, stm_emit, stm_ret;
  cbn -[find_node data_frame hello_frame decode register_node rx_text
        otMessageRead print_nodes thread_comm_send].

(** The module state the handlers keep: a well-formed table, and an
    identity that fits [self_id] and [self_role]. *)
Record comm_wf (st : comm_state) : Prop := {
  cwf_table : table_wf (nodes st);
  cwf_id : String.length (self_id st) < NODE_ID_LEN;
  cwf_role : String.length (self_role st) < ROLE_LEN
}.

(** Datagrams of one call: their size and port. *)
Definition dg_ok (d : datagram) : Prop :=
  String.length (dg_bytes d) <= PAYLOAD_LEN - 1 /\ dg_port d = THREAD_COMM_PORT.

Lemma udp_send_run (d : datagram) (st : comm_state) :
  udp_send d st = (tt, after_send st, if udp_sent (ot st) then [EvUdpSend d] else []).
Proof.
  unfold udp_send, after_send, udp_sent, stm_bind, stm_get, stm_put, stm_emit, stm_ret.
  destruct (otUdpNewMessage_ok (ot st)), (otUdpSend_ok (ot st)); reflexivity.
Qed.

Lemma thread_comm_send_run (st : comm_state) (id payload : string) :
  thread_comm_send id payload st =
    match find_node (nodes st) id with
    | None => (tt, st, [LogNodeNotFound id])
    | Some i =>
        match nodes st !! i with
        | Some n =>
            (tt, after_send st,
             if udp_sent (ot st)
             then [EvUdpSend (mkDatagram (eid n) THREAD_COMM_PORT (data_frame (self_id st) payload))]
             else [])
        | None => (tt, st, [])
        end
    end.
Proof.
  unfold thread_comm_send, stm_bind, stm_get, stm_emit, stm_ret.
  destruct (find_node (nodes st) id) as [i|]; [|done].
  destruct (nodes st !! i); [|done]. by rewrite udp_send_run.
Qed.

(** Sending changes only OpenThread's side of the state. *)
Lemma set_ot_id (st : comm_state) : set_ot (ot st) st = st.
Proof. by destruct st. Qed.

Lemma after_send_cases (st : comm_state) :
  after_send st = st \/
  (otUdpSend_ok (ot st) = false /\ after_send st = set_ot (ot_keep_message (ot st)) st).
Proof.
  unfold after_send. repeat case_match; first [by left | right; split; [|done]].
  all: match goal with H : _ = true |- _ => revert H end.
  all: by destruct (otUdpNewMessage_ok (ot st)), (otUdpSend_ok (ot st)).
Qed.

Lemma after_send_set_ot (st : comm_state) : after_send st = set_ot (ot (after_send st)) st.
Proof. destruct (after_send_cases st) as [-> | [_ ->]]; [by rewrite set_ot_id | done]. Qed.

Lemma after_send_nodes (st : comm_state) : nodes (after_send st) = nodes st.
Proof. by rewrite after_send_set_ot. Qed.

Lemma after_send_self_id (st : comm_state) : self_id (after_send st) = self_id st.
Proof. by rewrite after_send_set_ot. Qed.

Lemma after_send_self_role (st : comm_state) : self_role (after_send st) = self_role st.
Proof. by rewrite after_send_set_ot. Qed.

(** A failed send leaves the next one failing too: a leaked buffer does
    not make [otUdpSend] succeed. *)
Lemma udp_sent_after_send (st : comm_state) : udp_sent (ot (after_send st)) = udp_sent (ot st).
Proof.
  destruct (after_send_cases st) as [-> | [Hs ->]]; [done|].
  cbn [ot set_ot]. unfold udp_sent.
  change (otUdpSend_ok (ot_keep_message (ot st))) with (otUdpSend_ok (ot st)).
  by rewrite Hs, !andb_false_r.
Qed.

#[export] Hint Rewrite after_send_nodes after_send_self_id after_send_self_role
  udp_sent_after_send : tcomm_rw.

Lemma after_send_set_nodes (ns : list thread_node_t) (st : comm_state) :
  after_send (set_nodes ns st) = set_nodes ns (after_send st).
Proof. unfold after_send. cbn [ot set_nodes]. by repeat case_match. Qed.

Lemma thread_comm_send_set_ot (st : comm_state) (id payload : string) :
  (thread_comm_send id payload st).1.2 = set_ot (ot (thread_comm_send id payload st).1.2) st.
Proof.
  rewrite thread_comm_send_run.
  destruct (find_node (nodes st) id) as [i|]; [destruct (nodes st !! i)|];
    cbn [fst snd]; [apply after_send_set_ot | by rewrite set_ot_id ..].
Qed.

(** C8 (error path): [thread_comm_send] to an id the table does not
    hold sends nothing, changes nothing, and only logs the warning. *)
Theorem thread_comm_send_unknown (st : comm_state) (id payload : string) :
  find_node (nodes st) id = None ->
  thread_comm_send id payload st = (tt, st, [LogNodeNotFound id]).
Proof. intros Hf. by rewrite thread_comm_send_run, Hf. Qed.

Lemma thread_comm_send_unknown_witness :
  thread_comm_send "B"%string "ping"%string (boot_state (mkOt OT_ERROR_NONE OT_ERROR_NONE 1 OT_ERROR_NONE))
  = (tt, boot_state (mkOt OT_ERROR_NONE OT_ERROR_NONE 1 OT_ERROR_NONE), [LogNodeNotFound "B"%string]).
Proof. apply thread_comm_send_unknown. vm_compute. reflexivity. Defined.

(** C9: to a known peer, [thread_comm_send] hands exactly one DATA
    frame from [self_id] to OpenThread, for the peer's stored address
    and the module's port, when a message buffer is available and
    [otUdpSend] accepts it; when [otUdpSend] fails nothing goes out and
    the message keeps its buffer. *)
Theorem thread_comm_send_known (st : comm_state) (id payload : string) n :
  table_wf (nodes st) -> find_entry (nodes st) id = Some n ->
  thread_comm_send id payload st =
    (tt, after_send st,
     if udp_sent (ot st)
     then [EvUdpSend (mkDatagram (eid n) THREAD_COMM_PORT (data_frame (self_id st) payload))]
     else []).
Proof.
  intros Hwf Hf. rewrite thread_comm_send_run. unfold find_entry in Hf.
  destruct (find_node (nodes st) id) as [i|]; [|done]. cbn in Hf. by rewrite Hf.
Qed.

Lemma thread_comm_send_known_witness :
  thread_comm_send "B"%string "ping"%string (set_nodes (filled [("B", "r", ip6_zero)]%string) (boot_state (mkOt OT_ERROR_NONE OT_ERROR_NONE 1 OT_ERROR_NONE))) =
    (tt, after_send (set_nodes (filled [("B", "r", ip6_zero)]%string) (boot_state (mkOt OT_ERROR_NONE OT_ERROR_NONE 1 OT_ERROR_NONE))),
     if udp_sent (ot (set_nodes (filled [("B", "r", ip6_zero)]%string) (boot_state (mkOt OT_ERROR_NONE OT_ERROR_NONE 1 OT_ERROR_NONE))))
     then [EvUdpSend (mkDatagram (eid (call_node ("B", "r", ip6_zero)%string)) THREAD_COMM_PORT
                        (data_frame (self_id (set_nodes (filled [("B", "r", ip6_zero)]%string) (boot_state (mkOt OT_ERROR_NONE OT_ERROR_NONE 1 OT_ERROR_NONE)))) "ping"%string))]
     else []).
Proof.
  apply thread_comm_send_known;
    [apply table_wf_b_sound; vm_compute; reflexivity | vm_compute; reflexivity].
Defined.


Lemma udp_handler_run (st : comm_state) (m : string) (inf : otMessageInfo) :
  udp_handler (Some m) (Some inf) st =
    if Nat.eqb (String.length (otMessageRead m 0 (PAYLOAD_LEN - 1))) 0 then (tt, st, [])
    else
      match decode (rx_text m) with
      | Hello id role =>
          thread_comm_send id HELLO_REPLY (set_nodes (register_node id role (mPeerAddr inf) (nodes st)) st)
      | Data from payload =>
          (tt, st, match rx_cb st with
                   | Some cb => [EvRxCallback cb from payload (mPeerAddr inf)]
                   | None => []
                   end)
      | Malformed => (tt, st, [])
      end.
Proof.
  unfold udp_handler. destruct (Nat.eqb _ 0); [done|].
  destruct (decode (rx_text m)) as [id role|from payload|]; run_simpl.
  - by destruct (thread_comm_send _ _ _) as [[[] ?] ?].
  - by destruct (rx_cb st).
  - done.
Qed.

(** C1 (HELLO): a HELLO registers (or refreshes) the sender under the
    id it announced, at the address it came from, and is answered
    through [thread_comm_send]: by a DATA frame whose payload is the
    fixed text [HELLO|id=node_1|role=receiver], sent to that address.
    With the table full and the id unknown nothing is registered and
    the answer fails with the "not found" warning. *)
Theorem udp_handler_hello (st : comm_state) (m : string) (inf : otMessageInfo) (id role : string) :
  table_wf (nodes st) ->
  String.length (otMessageRead m 0 (PAYLOAD_LEN - 1)) <> 0 ->
  decode (rx_text m) = Hello id role ->
  udp_handler (Some m) (Some inf) st =
    (tt, match reg_slot (nodes st) id with
         | Some _ => after_send (set_nodes (register_node id role (mPeerAddr inf) (nodes st)) st)
         | None => set_nodes (register_node id role (mPeerAddr inf) (nodes st)) st
         end,
     match reg_slot (nodes st) id with
     | Some _ =>
         if udp_sent (ot st)
         then [EvUdpSend (mkDatagram (mPeerAddr inf) THREAD_COMM_PORT
                            (data_frame (self_id st) HELLO_REPLY))]
         else []
     | None => [LogNodeNotFound id]
     end).
Proof.
  intros Hwf Hlen Hdec. rewrite udp_handler_run, Hdec.
  apply Nat.eqb_neq in Hlen. rewrite Hlen.
  destruct (decode_hello_length _ _ _ Hdec) as [Hid _].
  assert (Hid' : String.length id < NODE_ID_LEN) by (unfold NODE_ID_LEN; lia).
  rewrite thread_comm_send_run. cbn [nodes set_nodes ot self_id].
  destruct (reg_slot (nodes st) id) as [i|] eqn:Hs.
  - pose proof (register_node_wf (nodes st) id role (mPeerAddr inf) Hwf Hid') as Hwf'.
    assert (is_Some (reg_slot (nodes st) id)) as Hsome by (rewrite Hs; by eexists).
    pose proof (register_node_find (nodes st) id role (mPeerAddr inf) Hwf Hid' Hsome) as Hf.
    unfold find_entry in Hf.
    destruct (find_node (register_node id role (mPeerAddr inf) (nodes st)) id); [|done].
    cbn in Hf. by rewrite Hf.
  - rewrite (register_node_slot _ _ _ _ (wf_length _ Hwf)), Hs.
    by rewrite (proj1 (proj1 (reg_slot_None _ _ (wf_length _ Hwf)) Hs)).
Qed.

Lemma udp_handler_hello_witness :
  udp_handler (Some "HELLO|id=B|role=responder"%string) (Some (mkInfo ip6_zero THREAD_COMM_PORT))
    (boot_state (mkOt OT_ERROR_NONE OT_ERROR_NONE 1 OT_ERROR_NONE)) =
    (tt, match reg_slot (nodes (boot_state (mkOt OT_ERROR_NONE OT_ERROR_NONE 1 OT_ERROR_NONE))) "B"%string with
         | Some _ => after_send (set_nodes (register_node "B"%string "respond"%string ip6_zero (nodes (boot_state (mkOt OT_ERROR_NONE OT_ERROR_NONE 1 OT_ERROR_NONE)))) (boot_state (mkOt OT_ERROR_NONE OT_ERROR_NONE 1 OT_ERROR_NONE)))
         | None => set_nodes (register_node "B"%string "respond"%string ip6_zero (nodes (boot_state (mkOt OT_ERROR_NONE OT_ERROR_NONE 1 OT_ERROR_NONE)))) (boot_state (mkOt OT_ERROR_NONE OT_ERROR_NONE 1 OT_ERROR_NONE))
         end,
     match reg_slot (nodes (boot_state (mkOt OT_ERROR_NONE OT_ERROR_NONE 1 OT_ERROR_NONE))) "B"%string with
     | Some _ =>
         if udp_sent (ot (boot_state (mkOt OT_ERROR_NONE OT_ERROR_NONE 1 OT_ERROR_NONE)))
         then [EvUdpSend (mkDatagram ip6_zero THREAD_COMM_PORT
                            (data_frame (self_id (boot_state (mkOt OT_ERROR_NONE OT_ERROR_NONE 1 OT_ERROR_NONE))) HELLO_REPLY))]
         else []
     | None => [LogNodeNotFound "B"%string]
     end).
Proof.
  apply udp_handler_hello;
    [apply table_wf_b_sound; vm_compute; reflexivity | vm_compute; lia | vm_compute; reflexivity].
Defined.

(** C10 (DATA): a DATA frame changes no state; it is handed to the
    registered callback with the sender's address, whether or not the
    sender is in the table, and dropped without effect when no callback
    is registered. *)
Theorem udp_handler_data (st : comm_state) (m : string) (inf : otMessageInfo) (from payload : string) :
  String.length (otMessageRead m 0 (PAYLOAD_LEN - 1)) <> 0 ->
  decode (rx_text m) = Data from payload ->
  udp_handler (Some m) (Some inf) st =
    (tt, st, match rx_cb st with
             | Some cb => [EvRxCallback cb from payload (mPeerAddr inf)]
             | None => []
             end).
Proof.
  intros Hlen Hdec. rewrite udp_handler_run, Hdec.
  apply Nat.eqb_neq in Hlen. by rewrite Hlen.
Qed.

Lemma udp_handler_data_witness :
  udp_handler (Some "DATA|from=C|hello"%string) (Some (mkInfo ip6_zero THREAD_COMM_PORT))
    (boot_state (mkOt OT_ERROR_NONE OT_ERROR_NONE 1 OT_ERROR_NONE)) =
    (tt, boot_state (mkOt OT_ERROR_NONE OT_ERROR_NONE 1 OT_ERROR_NONE),
     match rx_cb (boot_state (mkOt OT_ERROR_NONE OT_ERROR_NONE 1 OT_ERROR_NONE)) with
     | Some cb => [EvRxCallback cb "C"%string "hello"%string ip6_zero]
     | None => []
     end).
Proof. apply udp_handler_data; vm_compute; [lia | reflexivity]. Defined.

(** C11 (noise): a datagram that starts with neither [HELLO|] nor
    [DATA|], an empty one, or a NULL message or info, is dropped with
    no state change and no effect. *)
Theorem udp_handler_ignores (st : comm_state) (msg : option string) (info : option otMessageInfo) :
  (forall m, msg = Some m ->
     String.prefix "HELLO|" (rx_text m) = false /\ String.prefix "DATA|" (rx_text m) = false
     \/ String.length (otMessageRead m 0 (PAYLOAD_LEN - 1)) = 0) ->
  udp_handler msg info st = (tt, st, []).
Proof.
  intros Hm. destruct msg as [m|], info as [inf|]; try done.
  rewrite udp_handler_run.
  destruct (Hm m eq_refl) as [[H1 H2] | Hz].
  - rewrite (decode_malformed _ H1 H2). by destruct (Nat.eqb _ 0).
  - by rewrite Hz.
Qed.

Lemma udp_handler_ignores_witness :
  udp_handler (Some "PING"%string) (Some (mkInfo ip6_zero THREAD_COMM_PORT)) (boot_state (mkOt OT_ERROR_NONE OT_ERROR_NONE 1 OT_ERROR_NONE))
  = (tt, boot_state (mkOt OT_ERROR_NONE OT_ERROR_NONE 1 OT_ERROR_NONE), []).
Proof.
  apply udp_handler_ignores. intros m [= <-]. left. split; vm_compute; reflexivity.
Defined.

Lemma emit_all_run (evs : list event) (st : comm_state) : emit_all evs st = (tt, st, evs).
Proof.
  revert st. induction evs as [|e evs IH]; intros st; [done|].
  cbn [emit_all]. run_simpl. by rewrite IH.
Qed.

Lemma thread_comm_print_nodes_run (st : comm_state) :
  thread_comm_print_nodes st = (tt, st, EvPrint <$> print_nodes (nodes st)).
Proof. unfold thread_comm_print_nodes. run_simpl. by rewrite emit_all_run. Qed.

Lemma thread_comm_announce_run (st : comm_state) :
  thread_comm_announce st =
    (tt, after_send st, if udp_sent (ot st)
                        then [EvUdpSend (mkDatagram ip6_ff02_1 THREAD_COMM_PORT
                                           (hello_frame (self_id st) (self_role st)))]
                        else []).
Proof. unfold thread_comm_announce, stm_bind, stm_get. by rewrite udp_send_run. Qed.

Lemma thread_comm_register_rx_cb_run (st : comm_state) cb :
  thread_comm_register_rx_cb cb st = (tt, set_rx_cb cb st, []).
Proof. reflexivity. Qed.

(** [thread_comm_init] copies the identity into its bounded fields,
    clears the table and keeps the callback; it then opens the socket
    and binds it to [THREAD_COMM_PORT], and on the first failure logs it
    and stops, leaving the socket as far as it got. *)
Lemma thread_comm_init_run (st : comm_state) (id role : string) :
  thread_comm_init id role st =
    let st1 := init_identity id role st in
    match ot_open_result (ot st) with
    | OT_ERROR e => (tt, st1, [LogUdpOpenFailed (OT_ERROR e)])
    | OT_ERROR_NONE =>
        match ot_bind_result (ot st) with
        | OT_ERROR e => (tt, set_sock SockOpen st1, [LogUdpBindFailed (OT_ERROR e)])
        | OT_ERROR_NONE => (tt, set_sock (SockBound THREAD_COMM_PORT) st1, [])
        end
    end.
Proof.
  unfold thread_comm_init. run_simpl.
  destruct (ot_open_result (ot st)); [|done].
  by destruct (ot_bind_result (ot st)).
Qed.

Lemma thread_comm_init_state (id role : string) (st : comm_state) :
  let st1 := (thread_comm_init id role st).1.2 in
  nodes st1 = nodes_zero /\ ot st1 = ot st /\ rx_cb st1 = rx_cb st /\
  self_id st1 = strncpy (NODE_ID_LEN - 1) id /\ self_role st1 = strncpy (ROLE_LEN - 1) role.
Proof.
  rewrite thread_comm_init_run.
  by destruct (ot_open_result (ot st)); [destruct (ot_bind_result (ot st))|].
Qed.

(** Every call as one step: its new state and events. *)
Lemma run_calls_cons (c : api_call) (cs : list api_call) (st : comm_state) :
  run_calls (c :: cs) st =
    ((run_calls cs (run_call c st).1.2).1.1,
     (run_calls cs (run_call c st).1.2).1.2,
     (run_call c st).2 ++ (run_calls cs (run_call c st).1.2).2).
Proof.
  cbn [run_calls]. unfold stm_bind.
  destruct (run_call c st) as [[[] st1] e1]. cbn.
  by destruct (run_calls cs st1) as [[[] st2] e2].
Qed.

(** A property of the state that every admitted call keeps, and a
    property of the events every admitted call performs from such a
    state, hold along any sequence of admitted calls. *)
Section CallInvariant.
Context (A : api_call -> Prop) (P : comm_state -> Prop) (Q : event -> Prop).
Hypothesis Hcall : forall c st, A c -> P st ->
  P (run_call c st).1.2 /\ forall e, e ∈ (run_call c st).2 -> Q e.

Lemma run_calls_inv (cs : list api_call) (st : comm_state) :
  Forall A cs -> P st ->
  P (run_calls cs st).1.2 /\ forall e, e ∈ (run_calls cs st).2 -> Q e.
Proof.
  revert st. induction cs as [|c cs IH]; intros st Hcs Hst; [cbn; set_solver|].
  apply Forall_cons in Hcs as [Hc Hcs].
  destruct (Hcall c st Hc Hst) as [Hst' He].
  destruct (IH _ Hcs Hst') as [Hfin He'].
  rewrite run_calls_cons. cbn [fst snd]. split; [done|].
  intros e [H|H]%elem_of_app; auto.
Qed.

End CallInvariant.

Lemma comm_wf_boot (o : ot_stack) : comm_wf (boot_state o).
Proof. split; [apply nodes_zero_wf | cbn [boot_state self_id self_role String.length]; unfold NODE_ID_LEN, ROLE_LEN; lia ..]. Qed.

Lemma init_identity_wf (id role : string) (st : comm_state) :
  comm_wf (init_identity id role st).
Proof.
  split; cbn [nodes self_id self_role init_identity]; [apply nodes_zero_wf | |].
  - pose proof (strncpy_length (NODE_ID_LEN - 1) id). unfold NODE_ID_LEN in *. lia.
  - pose proof (strncpy_length (ROLE_LEN - 1) role). unfold ROLE_LEN in *. lia.
Qed.

Lemma run_call_wf (c : api_call) (st : comm_state) :
  comm_wf st -> comm_wf (run_call c st).1.2.
Proof.
  intros Hwf. destruct c as [id role| |id payload|cb| |msg info]; cbn [run_call].
  - rewrite thread_comm_init_run. cbv zeta.
    pose proof (init_identity_wf id role st) as H.
    destruct (ot_open_result (ot st)); [destruct (ot_bind_result (ot st))|]; cbn; try done;
      destruct H; split; done.
  - rewrite thread_comm_announce_run. cbn [fst snd]. rewrite after_send_set_ot.
    destruct Hwf. by split.
  - rewrite thread_comm_send_set_ot. destruct Hwf. by split.
  - rewrite thread_comm_register_rx_cb_run. destruct Hwf. by split.
  - by rewrite thread_comm_print_nodes_run.
  - destruct msg as [m|], info as [inf|]; try done. rewrite udp_handler_run.
    destruct (Nat.eqb _ 0); [done|].
    destruct (decode (rx_text m)) as [id role| |] eqn:Hdec; [|done..].
    rewrite thread_comm_send_set_ot.
    destruct (decode_hello_length _ _ _ Hdec) as [Hid _]. destruct Hwf.
    split; cbn; try done. apply register_node_wf; [done | unfold NODE_ID_LEN; lia].
Qed.

(** C3 (invariant): from any well-formed state, in particular the boot
    state, every sequence of calls keeps the table invariant and the
    bounds of the identity fields. *)
Theorem run_calls_wf (cs : list api_call) (st : comm_state) :
  comm_wf st -> comm_wf (run_calls cs st).1.2.
Proof.
  intros Hwf. apply (run_calls_inv (fun _ => True) comm_wf (fun _ => True)); [|by apply Forall_true|done].
  intros c st' _ H. split; [by apply run_call_wf|done].
Qed.

Lemma run_calls_wf_witness :
  comm_wf (run_calls [CallInit "node_1"%string "receiver"%string; CallAnnounce;
                      CallRx (Some "HELLO|id=B|role=r"%string) (Some (mkInfo ip6_zero THREAD_COMM_PORT))]
             (boot_state (mkOt OT_ERROR_NONE OT_ERROR_NONE 1 OT_ERROR_NONE))).1.2.
Proof.
  apply run_calls_wf.
  split; [apply table_wf_b_sound; vm_compute; reflexivity | vm_compute; lia | vm_compute; lia].
Defined.

Lemma thread_comm_send_dg_ok (st : comm_state) (id payload : string) d :
  EvUdpSend d ∈ (thread_comm_send id payload st).2 -> dg_ok d.
Proof.
  rewrite thread_comm_send_run. cbn [snd].
  destruct (find_node (nodes st) id) as [i|]; [|by intros ?%list_elem_of_singleton].
  destruct (nodes st !! i); [|by intros ?%not_elem_of_nil]. cbn [snd].
  destruct (udp_sent (ot st)); [|by intros ?%not_elem_of_nil].
  intros [= ->]%list_elem_of_singleton. split; [|done].
  apply snprintf_length.
Qed.

Lemma run_call_dg_ok (c : api_call) (st : comm_state) d :
  EvUdpSend d ∈ (run_call c st).2 -> dg_ok d.
Proof.
  destruct c as [id role| |id payload|cb| |msg info]; cbn [run_call].
  - rewrite thread_comm_init_run. cbv zeta.
    destruct (ot_open_result (ot st)); [destruct (ot_bind_result (ot st))|]; cbn;
      set_solver.
  - rewrite thread_comm_announce_run. cbn [snd].
    destruct (udp_sent (ot st)); [|set_solver].
    intros [= ->]%list_elem_of_singleton. split; [|done].
    pose proof (snprintf_length ANNOUNCE_BUF_LEN (hello_text (self_id st) (self_role st))).
    unfold hello_frame, ANNOUNCE_BUF_LEN, PAYLOAD_LEN in *. cbn [dg_bytes]. lia.
  - apply thread_comm_send_dg_ok.
  - rewrite thread_comm_register_rx_cb_run. set_solver.
  - rewrite thread_comm_print_nodes_run. cbn [snd].
    intros (l & Hl & _)%list_elem_of_fmap. discriminate.
  - destruct msg as [m|], info as [inf|]; try set_solver. rewrite udp_handler_run.
    destruct (Nat.eqb _ 0); [set_solver|].
    destruct (decode (rx_text m)); cbn [snd]; [apply thread_comm_send_dg_ok| |set_solver].
    destruct (rx_cb st); set_solver.
Qed.

(** C12 (bounds): over any sequence of calls, every datagram the module
    sends fits [PAYLOAD_LEN - 1] bytes and goes to [THREAD_COMM_PORT]. *)
Theorem run_calls_dg_ok (cs : list api_call) (st : comm_state) d :
  EvUdpSend d ∈ (run_calls cs st).2 -> dg_ok d.
Proof.
  intros Hd.
  refine (proj2 (run_calls_inv (fun _ => True) (fun _ => True)
                   (fun e => forall d', e = EvUdpSend d' -> dg_ok d') _ cs st _ I) _ Hd d eq_refl).
  - intros c st' _ _. split; [done|]. intros e He d' ->. by apply (run_call_dg_ok c st').
  - by apply Forall_true.
Qed.

Lemma run_calls_dg_ok_witness :
  dg_ok (mkDatagram ip6_ff02_1 THREAD_COMM_PORT (hello_frame "node_1" "receiver")).
Proof.
  apply (run_calls_dg_ok [CallInit "node_1"%string "receiver"%string; CallAnnounce]
           (boot_state (mkOt OT_ERROR_NONE OT_ERROR_NONE 1 OT_ERROR_NONE))).
  vm_compute. left.
Defined.

Lemma after_send_wf (st : comm_state) : comm_wf st -> comm_wf (after_send st).
Proof. rewrite after_send_set_ot. intros []. by split. Qed.

(** With [otUdpSend] failing, a send takes one buffer for good. *)
Lemma after_send_free (st : comm_state) :
  otUdpSend_ok (ot st) = false ->
  ot_free_buffers (ot (after_send st)) = pred (ot_free_buffers (ot st)) /\
  otUdpSend_ok (ot (after_send st)) = false.
Proof.
  intros Hs. unfold after_send. rewrite Hs. cbn [negb].
  destruct (otUdpNewMessage_ok (ot st)) eqn:Hn; cbn [andb]; [split; [reflexivity | exact Hs]|].
  unfold otUdpNewMessage_ok in Hn. apply negb_false_iff, Nat.eqb_eq in Hn. by rewrite Hn.
Qed.

Lemma send_call_leaks (c : api_call) (st : comm_state) :
  comm_wf st -> otUdpSend_ok (ot st) = false ->
  match c with CallAnnounce | CallSend _ _ => True | _ => False end ->
  (run_call c st).1.2 = (if allocates (nodes st) c then after_send st else st) /\
  forall d, EvUdpSend d ∉ (run_call c st).2.
Proof.
  intros Hwf Hs Hc. destruct c as [| |id p| | |]; try done; cbn [run_call allocates].
  - rewrite thread_comm_announce_run. unfold udp_sent. rewrite Hs, andb_false_r. set_solver.
  - rewrite thread_comm_send_run. destruct (find_node (nodes st) id) as [i|] eqn:Hf.
    + destruct (find_node_Some _ _ _ (wf_length _ (cwf_table _ Hwf)) Hf) as (n & -> & _).
      unfold udp_sent. rewrite Hs, andb_false_r, bool_decide_eq_true_2 by by eexists.
      set_solver.
    + rewrite bool_decide_eq_false_2 by (by intros [? ?]). set_solver.
Qed.

(** C18 (error): [thread_comm_init] sets the identity, clears the table
    and keeps the callback in every case; it logs nothing exactly when
    [otUdpOpen] and [otUdpBind] both succeed, and then leaves the socket
    bound to [THREAD_COMM_PORT]; otherwise it logs the first failure
    only, and returns with no error reported to the caller. *)
Theorem thread_comm_init_outcome (st : comm_state) (id role : string) :
  let r := thread_comm_init id role st in
  nodes r.1.2 = nodes_zero /\ rx_cb r.1.2 = rx_cb st /\
  self_id r.1.2 = strncpy (NODE_ID_LEN - 1) id /\
  (r.2 = [] <-> ot_open_result (ot st) = OT_ERROR_NONE /\ ot_bind_result (ot st) = OT_ERROR_NONE) /\
  (r.2 = [] -> sock r.1.2 = SockBound THREAD_COMM_PORT) /\
  length r.2 <= 1.
Proof.
  destruct (thread_comm_init_state id role st) as (Hn & _ & Hcb & Hid & _).
  cbv zeta. split; [done|]. split; [done|]. split; [done|].
  rewrite thread_comm_init_run.
  destruct (ot_open_result (ot st)); [destruct (ot_bind_result (ot st))|]; cbn;
    split_and!; first [lia | naive_solver].
Qed.

(** ** Between two nodes

    A datagram one node hands to [otUdpSend], delivered unchanged to the
    [udp_handler] of another. *)

Lemma rx_length_nonzero (m : string) :
  String.prefix "D" m = true \/ String.prefix "H" m = true ->
  String.length (otMessageRead m 0 (PAYLOAD_LEN - 1)) <> 0.
Proof. destruct m; [intros [H|H]; discriminate|]. done. Qed.

Lemma thread_comm_send_sent (st : comm_state) (id payload : string) d :
  EvUdpSend d ∈ (thread_comm_send id payload st).2 -> dg_bytes d = data_frame (self_id st) payload.
Proof.
  rewrite thread_comm_send_run. cbn [snd].
  destruct (find_node (nodes st) id) as [i|]; [|set_solver].
  destruct (nodes st !! i); [|set_solver]. cbn [snd].
  destruct (udp_sent (ot st)); [|set_solver]. by intros [= ->]%list_elem_of_singleton.
Qed.

(** [udp_handler] sends DATA frames only: its one datagram is the
    answer to a HELLO, through [thread_comm_send]. *)
Lemma udp_handler_sends_data (st : comm_state) (m : string) (inf : otMessageInfo) d :
  EvUdpSend d ∈ (udp_handler (Some m) (Some inf) st).2 -> String.prefix "DATA|" (dg_bytes d) = true.
Proof.
  rewrite udp_handler_run. destruct (Nat.eqb _ 0); [set_solver|].
  destruct (decode (rx_text m)) as [id role|from payload|]; cbn [snd].
  - intros Hd. rewrite (thread_comm_send_sent _ _ _ _ Hd). apply data_frame_head.
  - destruct (rx_cb st); set_solver.
  - set_solver.
Qed.

(** A frame that starts with [DATA|] changes nothing in the module
    that receives it, whatever follows and whoever sends it. *)
Lemma udp_handler_data_head_state (st : comm_state) (r : string) (inf : otMessageInfo) :
  (udp_handler (Some ("DATA|" ++ r)%string) (Some inf) st).1.2 = st.
Proof.
  rewrite udp_handler_run. destruct (Nat.eqb _ 0); [done|].
  destruct (decode (rx_text ("DATA|" ++ r)%string)) as [id role| |] eqn:Hdec; [|done..].
  by destruct (decode_data_head r id role).
Qed.

(** C16: an announce of node [a], delivered to node [b] from address
    [src], registers [a] at [b] under [a]'s id, with [a]'s role cut to 7
    characters, at [src]; the rest of [b]'s module state is kept (only
    OpenThread's buffers can change, by the answer). *)
Theorem announce_delivered_registers (a b : comm_state) (src : otIp6Address) d :
  table_wf (nodes b) -> id_ok (self_id a) = true -> role_ok (self_role a) = true ->
  EvUdpSend d ∈ (thread_comm_announce a).2 ->
  exists o, (udp_handler (Some (dg_bytes d)) (Some (mkInfo src (dg_port d))) b).1.2 =
    set_ot o (set_nodes (register_node (self_id a) (substring 0 7 (self_role a)) src (nodes b)) b).
Proof.
  intros Hwf Hid Hrole Hd. rewrite thread_comm_announce_run in Hd. cbn [snd] in Hd.
  destruct (udp_sent (ot a)); [|set_solver].
  apply list_elem_of_singleton in Hd as [= ->]. cbn [dg_bytes].
  rewrite udp_handler_run, (decode_hello_frame _ _ Hid Hrole).
  rewrite (proj2 (Nat.eqb_neq _ 0)); [eexists; apply thread_comm_send_set_ot|].
  apply rx_length_nonzero. right. unfold hello_frame.
  rewrite snprintf_id by (destruct (hello_text_facts _ _ Hid Hrole); unfold ANNOUNCE_BUF_LEN; lia).
  done.
Qed.

Lemma announce_delivered_registers_witness :
  exists o, (udp_handler (Some (hello_frame "node_1" "receiver")) (Some (mkInfo ip6_zero THREAD_COMM_PORT)) (boot_state (mkOt OT_ERROR_NONE OT_ERROR_NONE 1 OT_ERROR_NONE))).1.2
  = set_ot o (set_nodes (register_node (self_id (init_identity "node_1"%string "receiver"%string (boot_state (mkOt OT_ERROR_NONE OT_ERROR_NONE 1 OT_ERROR_NONE)))) (substring 0 7 (self_role (init_identity "node_1"%string "receiver"%string (boot_state (mkOt OT_ERROR_NONE OT_ERROR_NONE 1 OT_ERROR_NONE))))) ip6_zero (nodes (boot_state (mkOt OT_ERROR_NONE OT_ERROR_NONE 1 OT_ERROR_NONE)))) (boot_state (mkOt OT_ERROR_NONE OT_ERROR_NONE 1 OT_ERROR_NONE))).
Proof.
  apply (announce_delivered_registers (init_identity "node_1"%string "receiver"%string (boot_state (mkOt OT_ERROR_NONE OT_ERROR_NONE 1 OT_ERROR_NONE))) (boot_state (mkOt OT_ERROR_NONE OT_ERROR_NONE 1 OT_ERROR_NONE)) ip6_zero
           (mkDatagram ip6_ff02_1 THREAD_COMM_PORT (hello_frame "node_1" "receiver"))).
  - apply table_wf_b_sound. vm_compute. reflexivity.
  - vm_compute. reflexivity.
  - vm_compute. reflexivity.
  - vm_compute. left.
Defined.

(** C17: a DATA frame node [a] sends, delivered to node [b] from
    address [src], reaches [b]'s callback as [a]'s id, the payload cut
    to what fits the frame, and [src]; [b]'s state is unchanged. *)
Theorem send_delivered_callback (a b : comm_state) (id payload : string) (src : otIp6Address) d :
  id_ok (self_id a) = true -> payload_ok payload = true ->
  EvUdpSend d ∈ (thread_comm_send id payload a).2 ->
  udp_handler (Some (dg_bytes d)) (Some (mkInfo src (dg_port d))) b =
    (tt, b, match rx_cb b with
            | Some cb =>
                [EvRxCallback cb (self_id a)
                   (substring 0 (116 - String.length (self_id a)) payload) src]
            | None => []
            end).
Proof.
  intros Hid Hp Hd. rewrite thread_comm_send_run in Hd. cbn [snd] in Hd.
  destruct (find_node (nodes a) id) as [i|]; [|set_solver].
  destruct (nodes a !! i); [|set_solver]. cbn [snd] in Hd.
  destruct (udp_sent (ot a)); [|set_solver].
  apply list_elem_of_singleton in Hd as [= ->]. cbn [dg_bytes].
  rewrite udp_handler_run, (decode_data_frame _ _ Hid Hp).
  rewrite (proj2 (Nat.eqb_neq _ 0)); [done|].
  apply rx_length_nonzero. left. rewrite data_frame_eq; [done|].
  apply andb_prop in Hid as [[_ H%Nat.leb_le]%andb_prop _]. done.
Qed.

Lemma send_delivered_callback_witness :
  udp_handler (Some (data_frame "node_1"%string "temp:25.5"%string)) (Some (mkInfo ip6_zero THREAD_COMM_PORT)) (boot_state (mkOt OT_ERROR_NONE OT_ERROR_NONE 1 OT_ERROR_NONE))
  = (tt, (boot_state (mkOt OT_ERROR_NONE OT_ERROR_NONE 1 OT_ERROR_NONE)), match rx_cb (boot_state (mkOt OT_ERROR_NONE OT_ERROR_NONE 1 OT_ERROR_NONE)) with
             | Some cb =>
                 [EvRxCallback cb (self_id (set_nodes (filled [("B", "r", ip6_zero)]%string) (init_identity "node_1"%string "receiver"%string (boot_state (mkOt OT_ERROR_NONE OT_ERROR_NONE 1 OT_ERROR_NONE)))))
                    (substring 0 (116 - String.length (self_id (set_nodes (filled [("B", "r", ip6_zero)]%string) (init_identity "node_1"%string "receiver"%string (boot_state (mkOt OT_ERROR_NONE OT_ERROR_NONE 1 OT_ERROR_NONE)))))) "temp:25.5"%string) ip6_zero]
             | None => []
             end).
Proof.
  apply (send_delivered_callback (set_nodes (filled [("B", "r", ip6_zero)]%string) (init_identity "node_1"%string "receiver"%string (boot_state (mkOt OT_ERROR_NONE OT_ERROR_NONE 1 OT_ERROR_NONE)))) (boot_state (mkOt OT_ERROR_NONE OT_ERROR_NONE 1 OT_ERROR_NONE)) "B"%string "temp:25.5"%string ip6_zero
           (mkDatagram ip6_zero THREAD_COMM_PORT (data_frame "node_1"%string "temp:25.5"%string))).
  - vm_compute. reflexivity.
  - vm_compute. reflexivity.
  - vm_compute. left.
Defined.

(** C19 (error): [thread_comm_announce] and [thread_comm_send] ignore
    the result of [otUdpSend] and never free a message it refused,
    though the caller keeps ownership of it.  So while [otUdpSend] fails,
    over any sequence of announces and sends no datagram goes out, and
    every call that allocated a message leaves one more buffer taken,
    until the pool is empty and [otUdpNewMessage] fails for good. *)
Theorem send_failure_leaks (st : comm_state) (cs : list api_call) :
  comm_wf st -> otUdpSend_ok (ot st) = false ->
  Forall (λ c, match c with CallAnnounce | CallSend _ _ => True | _ => False end) cs ->
  let r := run_calls cs st in
  ot_free_buffers (ot r.1.2) = ot_free_buffers (ot st) - length (filter (allocates (nodes st)) cs) /\
  forall d, EvUdpSend d ∉ r.2.
Proof.
  intros Hwf Hs Hcs. cbv zeta. revert st Hwf Hs.
  induction Hcs as [|c cs Hc Hcs IH]; intros st Hwf Hs; [cbn; split; [lia | set_solver]|].
  destruct (send_call_leaks c st Hwf Hs Hc) as [Hst Hev].
  rewrite run_calls_cons, filter_cons. cbn [fst snd]. rewrite Hst.
  destruct (allocates (nodes st) c).
  - destruct (after_send_free st Hs) as [Hfree Hs'].
    destruct (IH (after_send st) (after_send_wf st Hwf) Hs') as [IHf IHe].
    rewrite after_send_nodes, Hfree in IHf. rewrite IHf.
    case_decide as Hd; [|exfalso; by apply Hd]. cbn [length].
    split; [destruct (ot_free_buffers (ot st)); cbn [pred]; lia|].
    intros d [Hd'|Hd']%elem_of_app; [by apply (Hev d) | by apply (IHe d)].
  - destruct (IH st Hwf Hs) as [IHf IHe]. rewrite IHf.
    case_decide as Hd; [by cbn in Hd|].
    split; [done|]. intros d [Hd'|Hd']%elem_of_app; [by apply (Hev d) | by apply (IHe d)].
Qed.

Lemma send_failure_leaks_witness :
  let st := (thread_comm_init "node_1" "receiver"
               (boot_state (mkOt OT_ERROR_NONE OT_ERROR_NONE 2 (OT_ERROR 3)))).1.2 in
  comm_wf st /\ otUdpSend_ok (ot st) = false /\
  ot_free_buffers (ot (run_calls [CallAnnounce; CallAnnounce; CallAnnounce] st).1.2) = 0.
Proof.
  intros st.
  assert (Hwf : comm_wf st) by (apply (run_call_wf (CallInit "node_1" "receiver")), comm_wf_boot).
  assert (Hs : otUdpSend_ok (ot st) = false) by reflexivity.
  split; [exact Hwf | split; [exact Hs|]].
  rewrite (proj1 (send_failure_leaks st [CallAnnounce; CallAnnounce; CallAnnounce] Hwf Hs ltac:(repeat constructor))).
  reflexivity.
Defined.

End Engine.
