(* ===== verification/Registry.v ===== *)
(** * The node table against the spec's registry

    The spec (section 4.1) describes the node table as a registry: a
    finite map from identifier to role and address, with [register]
    that overwrites an existing entry, adds a new one while there is
    room for [MAX_NODES] entries, and otherwise fails with [TableFull].
    This file states that contract as [spec_register] on a [gmap],
    abstracts the slot array of src/NODE_1/main/thread_comm.c to it
    ([table_view]), and proves that [register_node] and [find_node]
    refine it.  The contract is the typeclass [PeerTable] with its laws
    [PeerTableLaws]; clients are proved against the interface, and the
    slot array and the registry itself are instances.  Tables with the
    same view are related by [table_equiv], and the engine's send is
    [Proper] for it. *)

From Stdlib Require Import String Ascii ZArith Lia.
From stdpp Require Import base list strings gmap fin_maps sets.
From S2P Require Import Prelude CStr Transport NodeTable Codec Engine.

Module Registry.
Import CStr Transport NodeTable Engine.

(** ** The spec's registry *)

Record peer := mkPeer { peer_role : string; peer_addr : otIp6Address }.

#[global] Instance peer_eq_dec : EqDecision peer.
Proof. solve_decision. Defined.

(** [register(identifier, role, address) -> success | TableFull]. *)
Definition spec_register (id : string) (p : peer) (m : gmap string peer)
  : gmap string peer * bool :=
  match m !! id with
  | Some _ => (<[id := p]> m, true)
  | None => if decide (size m < MAX_NODES) then (<[id := p]> m, true) else (m, false)
  end.

(** What a [register_node(id, role, addr)] call asks of the registry:
    the role as the slot keeps it. *)
Definition spec_call (m : gmap string peer) (c : peer_call) : gmap string peer :=
  (spec_register c.1.1 (mkPeer (strncpy (ROLE_LEN - 1) c.1.2) c.2) m).1.

(** ** The slot array, abstracted *)

Definition peer_of (n : thread_node_t) : peer := mkPeer (node_role n) (eid n).

(** The active slots, as a map from their id. *)
Fixpoint table_view (nodes : list thread_node_t) : gmap string peer :=
  match nodes with
  | [] => ∅
  | n :: l => if active n then <[node_id n := peer_of n]> (table_view l) else table_view l
  end.

(** The number of active slots. *)
Definition occupied (nodes : list thread_node_t) : nat :=
  length (filter (fun n => active n = true) nodes).

(** Tables the engine cannot tell apart. *)
Definition table_equiv (t1 t2 : list thread_node_t) : Prop :=
  table_wf t1 /\ table_wf t2 /\ table_view t1 = table_view t2.

(** ** The interface *)

Class PeerTable (T : Type) := {
  pt_wf : T -> Prop;
  pt_view : T -> gmap string peer;
  pt_find : T -> string -> option peer;
  pt_register : string -> string -> otIp6Address -> T -> T
}.

Class PeerTableLaws (T : Type) `{PeerTable T} := {
  pt_find_view t id : pt_wf t -> pt_find t id = pt_view t !! id;
  pt_register_wf t id role addr :
    pt_wf t -> String.length id < NODE_ID_LEN -> pt_wf (pt_register id role addr t);
  pt_register_view t id role addr :
    pt_wf t -> String.length id < NODE_ID_LEN ->
    pt_view (pt_register id role addr t) = spec_call (pt_view t) (id, role, addr)
}.

(** The slot array of [thread_comm.c]. *)
#[global] Instance slot_table : PeerTable (list thread_node_t) := {
  pt_wf := table_wf;
  pt_view := table_view;
  pt_find t id := peer_of <$> find_entry t id;
  pt_register := register_node
}.

(** The registry itself, bounded by [MAX_NODES]. *)
#[global] Instance spec_table : PeerTable (gmap string peer) := {
  pt_wf m := size m <= MAX_NODES;
  pt_view m := m;
  pt_find m id := m !! id;
  pt_register id role addr m := spec_call m (id, role, addr)
}.

(** A sequence of [register_node] calls through the interface. *)
Definition pt_calls {T} `{PeerTable T} (t : T) (calls : list peer_call) : T :=
  fold_left (fun t c => pt_register c.1.1 c.1.2 c.2 t) calls t.

(** The entry [find_node] designates, rebuilt from the view. *)
Definition entry_of (id : string) (p : peer) : thread_node_t :=
  mkNode true id (peer_role p) (peer_addr p).

(** ** Lemmas on the view *)

Lemma table_view_lookup (nodes : list thread_node_t) (id : string) :
  table_view nodes !! id =
    (fun x => peer_of x.2) <$> list_find (fun n => node_matches id n = true) nodes.
Proof.
  induction nodes as [|n l IH]; [done|]. cbn [table_view list_find].
  destruct (decide (node_matches id n = true)) as [Hm|Hm].
  - apply node_matches_spec in Hm as [-> <-]. by rewrite lookup_insert_eq.
  - assert ((if active n then <[node_id n := peer_of n]> (table_view l) else table_view l) !! id
            = table_view l !! id) as ->.
    { destruct (active n) eqn:Ha; [|done]. apply lookup_insert_ne.
      intros <-. apply Hm, node_matches_spec. done. }
    rewrite IH. by destruct (list_find _ l) as [[j m]|].
Qed.

Lemma find_entry_list_find (nodes : list thread_node_t) (id : string) :
  length nodes = MAX_NODES ->
  find_entry nodes id = snd <$> list_find (fun n => node_matches id n = true) nodes.
Proof.
  intros Hlen. unfold find_entry, find_node. rewrite (scan_full_ref _ _ Hlen).
  destruct (list_find _ nodes) as [[i n]|] eqn:Hf; [|done].
  apply list_find_Some in Hf as (Hn & _). cbn. by rewrite Hn.
Qed.

(** The view answers [find] as the slots do. *)
Lemma table_view_find (nodes : list thread_node_t) (id : string) :
  length nodes = MAX_NODES -> table_view nodes !! id = peer_of <$> find_entry nodes id.
Proof.
  intros Hlen. rewrite table_view_lookup, find_entry_list_find by done.
  by destruct (list_find _ nodes).
Qed.

Lemma ids_unique_cons (n : thread_node_t) (l : list thread_node_t) :
  ids_unique (n :: l) ->
  ids_unique l /\
  (active n = true -> forall j m, l !! j = Some m -> active m = true -> node_id m <> node_id n).
Proof.
  intros Hu. split.
  - intros i j ni nj Hi Hj Hai Haj Hid. by injection (Hu (S i) (S j) ni nj Hi Hj Hai Haj Hid).
  - intros Ha j m Hj Ham Hid. by pose proof (Hu 0 (S j) n m eq_refl Hj Ha Ham (eq_sym Hid)).
Qed.

(** With unique ids the view has one entry per active slot. *)
Lemma table_view_size (nodes : list thread_node_t) :
  ids_unique nodes -> size (table_view nodes) = occupied nodes.
Proof.
  unfold occupied. induction nodes as [|n l IH]; intros Hu; [apply map_size_empty|].
  destruct (ids_unique_cons n l Hu) as [Hu' Hfresh].
  cbn [table_view]. rewrite filter_cons.
  destruct (active n) eqn:Ha; cbn [length]; [|case_decide; [done|by apply IH]].
  rewrite decide_True by done. cbn [length].
  rewrite map_size_insert_None, IH; [done..|].
  rewrite table_view_lookup. destruct (list_find _ l) as [[j m]|] eqn:Hf; [|done].
  apply list_find_Some in Hf as (Hm & Hmatch & _).
  apply node_matches_spec in Hmatch as [Ham Hid].
  by destruct (Hfresh eq_refl j m Hm Ham).
Qed.

Lemma occupied_le (nodes : list thread_node_t) : occupied nodes <= length nodes.
Proof. apply length_filter. Qed.

(** A free slot leaves room; no free slot means every slot is taken. *)
Lemma occupied_free (nodes : list thread_node_t) j n :
  nodes !! j = Some n -> active n = false -> occupied nodes < length nodes.
Proof.
  intros Hj Ha. apply (length_filter_lt _ _ n); [by apply list_elem_of_lookup_2 in Hj|].
  by rewrite Ha.
Qed.

Lemma occupied_full (nodes : list thread_node_t) :
  (forall j n, nodes !! j = Some n -> active n = true) -> occupied nodes = length nodes.
Proof.
  unfold occupied. induction nodes as [|x l IH]; intros Hall; [done|].
  rewrite filter_cons, decide_True by (by apply (Hall 0)). cbn [length].
  f_equal. apply IH. intros j n Hj. by apply (Hall (S j)).
Qed.

(** ** The slot array refines the registry *)

Lemma register_node_view_Some (nodes : list thread_node_t) (id role : string) addr :
  table_wf nodes -> String.length id < NODE_ID_LEN -> is_Some (reg_slot nodes id) ->
  table_view (register_node id role addr nodes) =
    <[id := mkPeer (strncpy (ROLE_LEN - 1) role) addr]> (table_view nodes).
Proof.
  intros Hwf Hid Hs. pose proof (register_node_wf _ _ role addr Hwf Hid) as Hwf'.
  apply map_eq. intros k. rewrite (table_view_find _ _ (wf_length _ Hwf')).
  destruct (decide (k = id)) as [->|Hne].
  - rewrite lookup_insert_eq, (register_node_find _ _ _ _ Hwf Hid Hs). done.
  - rewrite lookup_insert_ne by congruence.
    rewrite (table_view_find _ _ (wf_length _ Hwf)). by rewrite register_node_other.
Qed.

(** [register_node] is the spec's [register] on the view, and it
    reports [TableFull] exactly when the code finds no slot. *)
Lemma register_node_spec (nodes : list thread_node_t) (id role : string) addr :
  table_wf nodes -> String.length id < NODE_ID_LEN ->
  spec_register id (mkPeer (strncpy (ROLE_LEN - 1) role) addr) (table_view nodes) =
    (table_view (register_node id role addr nodes), bool_decide (is_Some (reg_slot nodes id))).
Proof.
  intros Hwf Hid. pose proof (wf_length _ Hwf) as Hlen. unfold spec_register.
  destruct (reg_slot nodes id) as [i|] eqn:Hs.
  - rewrite register_node_view_Some by (done || (rewrite Hs; by eexists)).
    rewrite bool_decide_eq_true_2 by (by eexists).
    destruct (table_view nodes !! id) eqn:Hv; [done|].
    rewrite decide_True; [done|].
    rewrite table_view_size by apply Hwf.
    rewrite table_view_find in Hv by done. apply fmap_None, find_entry_None in Hv; [|done].
    unfold reg_slot, free_slot in Hs. rewrite Hv in Hs.
    apply (scan_full_Some _ _ Hlen) in Hs as (n & Hn & Hfree & _).
    rewrite <- Hlen. apply (occupied_free _ i n Hn). by destruct (active n).
  - destruct (proj1 (reg_slot_None _ _ Hlen) Hs) as [Hf Hall].
    assert (table_view nodes !! id = None) as ->.
    { rewrite table_view_find by done. unfold find_entry. by rewrite Hf. }
    rewrite decide_False.
    2:{ rewrite table_view_size by apply Hwf. rewrite occupied_full by done. lia. }
    rewrite (register_node_slot _ _ _ _ Hlen), Hs. by rewrite bool_decide_eq_false_2 by by intros [].
Qed.

#[global] Instance slot_table_laws : PeerTableLaws (list thread_node_t).
Proof.
  split.
  - intros t id Hwf. cbn. symmetry. apply table_view_find, Hwf.
  - intros t id role addr Hwf Hid. by apply register_node_wf.
  - intros t id role addr Hwf Hid. unfold spec_call. cbn. by rewrite register_node_spec.
Qed.

Lemma spec_register_size (id : string) (p : peer) (m : gmap string peer) :
  size m <= MAX_NODES -> size (spec_register id p m).1 <= MAX_NODES.
Proof.
  intros Hm. unfold spec_register. destruct (m !! id) eqn:Hid.
  - cbn [fst]. rewrite map_size_insert_Some by (by eexists). done.
  - case_decide; cbn [fst]; [|done]. rewrite map_size_insert_None by done. lia.
Qed.

#[global] Instance spec_table_laws : PeerTableLaws (gmap string peer).
Proof.
  split.
  - done.
  - intros m id role addr Hm _. apply spec_register_size, Hm.
  - done.
Qed.

(** ** Clients of the interface *)

Section Client.
Context `{PeerTableLaws T}.

(** A sequence of registrations of fitting ids is the spec's sequence
    on the view. *)
Lemma pt_calls_refine (t : T) (calls : list peer_call) :
  pt_wf t -> Forall call_fits calls ->
  pt_wf (pt_calls t calls) /\ pt_view (pt_calls t calls) = fold_left spec_call calls (pt_view t).
Proof.
  revert t. induction calls as [|c calls IH]; intros t Ht Hcs; [done|].
  apply Forall_cons in Hcs as [Hc Hcs]. cbn [pt_calls fold_left].
  destruct c as [[id role] addr]. unfold call_fits, call_id in Hc. cbn in Hc |- *.
  rewrite <- (pt_register_view t id role addr Ht Hc).
  apply IH; [by apply pt_register_wf | done].
Qed.

End Client.

(** ** Tables with the same view *)

Lemma find_entry_view (nodes : list thread_node_t) (id : string) :
  table_wf nodes -> find_entry nodes id = entry_of id <$> table_view nodes !! id.
Proof.
  intros Hwf. rewrite (table_view_find _ _ (wf_length _ Hwf)).
  destruct (find_entry nodes id) as [n|] eqn:Hf; [|done].
  apply find_entry_spec in Hf as (i & _ & Ha & Hid); [|done].
  destruct n as [a nid r e]; cbn in *. by subst.
Qed.

#[global] Instance table_equiv_sym : Symmetric table_equiv.
Proof. intros t1 t2 (H1 & H2 & Hv). done. Qed.

#[global] Instance table_equiv_trans : Transitive table_equiv.
Proof. intros t1 t2 t3 (H1 & H2 & Hv) (_ & H3 & Hv'). split_and!; congruence. Qed.

#[global] Instance find_entry_proper : Proper (table_equiv ==> eq ==> eq) find_entry.
Proof.
  intros t1 t2 (H1 & H2 & Hv) id ? <-. by rewrite !find_entry_view, Hv by done.
Qed.

(** [thread_comm_send], read through [find_entry]. *)
Lemma thread_comm_send_entry (st : comm_state) (id payload : string) :
  length (nodes st) = MAX_NODES ->
  thread_comm_send id payload st =
    match find_entry (nodes st) id with
    | None => (tt, st, [LogNodeNotFound id])
    | Some n =>
        (tt, after_send st,
         if udp_sent (ot st)
         then [EvUdpSend (mkDatagram (eid n) THREAD_COMM_PORT (Codec.data_frame (self_id st) payload))]
         else [])
    end.
Proof.
  intros Hlen. rewrite thread_comm_send_run. unfold find_entry.
  destruct (find_node (nodes st) id) as [i|] eqn:Hf; [|done]. cbn.
  destruct (find_node_Some _ _ _ Hlen Hf) as (n & -> & _). done.
Qed.

(** ** Theorems *)

(** C14 (refinement): a sequence of [register_node] calls with fitting
    ids, from a well-formed table, keeps the table well formed, and its
    view is the spec's registry after the same sequence of [register]
    calls (with the role cut to its field): the slot array implements
    the spec's registry, upserts, capacity and [TableFull] included. *)
Theorem register_calls_refine (nodes : list thread_node_t) (calls : list peer_call) :
  table_wf nodes -> Forall call_fits calls ->
  table_wf (fold_left (fun t c => register_node c.1.1 c.1.2 c.2 t) calls nodes) /\
  table_view (fold_left (fun t c => register_node c.1.1 c.1.2 c.2 t) calls nodes) =
    fold_left spec_call calls (table_view nodes).
Proof. intros Hwf Hcs. exact (pt_calls_refine (T := list thread_node_t) nodes calls Hwf Hcs). Qed.

Lemma register_calls_refine_witness :
  table_wf nodes_zero /\ Forall call_fits [("B", "responder", ip6_zero); ("C", "r", ip6_zero)]%string /\
  table_wf (fold_left (fun t c => register_node c.1.1 c.1.2 c.2 t)
              [("B", "responder", ip6_zero); ("C", "r", ip6_zero)]%string nodes_zero) /\
  table_view (fold_left (fun t c => register_node c.1.1 c.1.2 c.2 t)
                [("B", "responder", ip6_zero); ("C", "r", ip6_zero)]%string nodes_zero) =
    fold_left spec_call [("B", "responder", ip6_zero); ("C", "r", ip6_zero)]%string (table_view nodes_zero).
Proof.
  assert (table_wf nodes_zero) as Hwf by (apply table_wf_b_sound; vm_compute; reflexivity).
  assert (Forall call_fits [("B", "responder", ip6_zero); ("C", "r", ip6_zero)]%string) as Hc
    by (repeat constructor; unfold call_fits, call_id, NODE_ID_LEN; cbn; lia).
  split; [exact Hwf|]. split; [exact Hc|].
  exact (register_calls_refine nodes_zero _ Hwf Hc).
Defined.

(** C26 (error): on a well-formed table, the spec's [register] fails
    with [TableFull] exactly when the id is not in the table and every
    slot is active; the code then leaves the table as it was, and
    reports nothing to its caller. *)
Theorem register_node_table_full (nodes : list thread_node_t) (id role : string) addr :
  table_wf nodes -> String.length id < NODE_ID_LEN ->
  ((spec_register id (mkPeer (strncpy (ROLE_LEN - 1) role) addr) (table_view nodes)).2 = false <->
   find_node nodes id = None /\ forall j n, nodes !! j = Some n -> active n = true) /\
  ((spec_register id (mkPeer (strncpy (ROLE_LEN - 1) role) addr) (table_view nodes)).2 = false ->
   register_node id role addr nodes = nodes).
Proof.
  intros Hwf Hid. pose proof (wf_length _ Hwf) as Hlen.
  rewrite register_node_spec by done. cbn [snd].
  rewrite bool_decide_eq_false, <- eq_None_not_Some, (reg_slot_None _ _ Hlen).
  split; [done|]. intros Hnone. apply (reg_slot_None _ _ Hlen) in Hnone.
  by rewrite (register_node_slot _ _ _ _ Hlen), Hnone.
Qed.

Lemma register_node_table_full_witness :
  let t := filled [("n0", "r", ip6_zero); ("n1", "r", ip6_zero); ("n2", "r", ip6_zero);
                   ("n3", "r", ip6_zero); ("n4", "r", ip6_zero); ("n5", "r", ip6_zero);
                   ("n6", "r", ip6_zero); ("n7", "r", ip6_zero)]%string in
  table_wf t /\ String.length "n8"%string < NODE_ID_LEN /\
  (((spec_register "n8" (mkPeer (strncpy (ROLE_LEN - 1) "r") ip6_zero) (table_view t)).2 = false <->
    find_node t "n8" = None /\ forall j n, t !! j = Some n -> active n = true) /\
   ((spec_register "n8" (mkPeer (strncpy (ROLE_LEN - 1) "r") ip6_zero) (table_view t)).2 = false ->
    register_node "n8" "r" ip6_zero t = t))%string.
Proof.
  intros t.
  assert (table_wf t) as Hwf by (apply table_wf_b_sound; vm_compute; reflexivity).
  assert (String.length "n8"%string < NODE_ID_LEN) as Hid by (vm_compute; lia).
  split; [exact Hwf|]. split; [exact Hid|].
  exact (register_node_table_full t "n8" "r" ip6_zero Hwf Hid).
Defined.

(** C27 (equivalence): [thread_comm_send] depends on the table only
    through its view: replacing a well-formed table by another with the
    same entries, in whatever slots, gives the same state (with the
    replaced table) and the same datagrams and warnings. *)
Theorem thread_comm_send_view (st : comm_state) (t : list thread_node_t) (id payload : string) :
  table_equiv (nodes st) t ->
  thread_comm_send id payload (set_nodes t st) =
    (tt, set_nodes t (thread_comm_send id payload st).1.2, (thread_comm_send id payload st).2).
Proof.
  intros Heq. pose proof Heq as (Hwf1 & Hwf2 & _).
  rewrite !thread_comm_send_entry by (apply Hwf1 || apply Hwf2).
  cbn [nodes set_nodes ot self_id]. rewrite Heq.
  destruct (find_entry t id); cbn [fst snd]; [by rewrite after_send_set_nodes | done].
Qed.

Lemma thread_comm_send_view_witness :
  let st := set_nodes (filled [("B", "r", ip6_ff02_1)]%string)
              (boot_state (mkOt OT_ERROR_NONE OT_ERROR_NONE 1 OT_ERROR_NONE)) in
  let t := <[3 := new_node "B" "r" ip6_ff02_1]> nodes_zero in
  table_equiv (nodes st) t /\
  thread_comm_send "B" "ping" (set_nodes t st) =
    (tt, set_nodes t (thread_comm_send "B" "ping" st).1.2, (thread_comm_send "B" "ping" st).2).
Proof.
  intros st t.
  assert (table_equiv (nodes st) t) as He.
  { split; [|split]; [apply table_wf_b_sound; vm_compute; reflexivity
                     | apply table_wf_b_sound; vm_compute; reflexivity
                     | vm_compute; reflexivity]. }
  split; [exact He|]. exact (thread_comm_send_view st t "B" "ping" He).
Defined.

End Registry.
