(* ===== verification/App.v ===== *)
(** * The two applications of the repository, as sequences of module calls

    src/NODE_1/main/esp_ot_cli.c and src/NODE_2/main/esp_ot_cli.c start
    OpenThread, then call [thread_comm] from two FreeRTOS tasks, each
    call inside an [esp_openthread_lock_acquire]/[release] pair.  A
    locked region runs without interleaving with the OpenThread main
    loop, which is the only caller of [udp_handler]; so each region is a
    list of [api_call]s run by [run_calls], and datagrams can only be
    delivered between regions.  This file lists the regions each task
    executes, in order, and proves what they do to the module state.
    It also gives the line each board's [on_thread_data] logs.  The
    delays ([vTaskDelay]) and the mesh join are not modelled: they only
    decide which regions and deliveries come first. *)

From Stdlib Require Import String Ascii ZArith Lia.
From stdpp Require Import base list strings.
From S2P Require Import Prelude CStr Transport NodeTable Codec Engine.

#[local] Open Scope string_scope.

Module App.
Import CStr Transport NodeTable Codec Engine.

(** [on_thread_data], the callback both applications register. *)
Definition on_thread_data : rx_callback := "on_thread_data".

(** The body of each board's [on_thread_data]: the line it logs with
    [ESP_LOGI] (the log system's prefix apart). *)
Definition OT_IP6_ADDRESS_STRING_SIZE : nat := 40.

Section RxLog.
(** OpenThread's text of an address, before it is cut to the buffer. *)
Variable ip6_text : otIp6Address -> string.

(** [char ip[OT_IP6_ADDRESS_STRING_SIZE]; otIp6AddressToString(src, ip,
    sizeof(ip))]: the text, truncated to leave room for the NUL. *)
Definition ip_string (src : otIp6Address) : string :=
  substring 0 (OT_IP6_ADDRESS_STRING_SIZE - 1) (ip6_text src).

Definition node1_on_thread_data (from payload : string) (src : otIp6Address) : string :=
  "RX DATA from " ++ from ++ " (" ++ ip_string src ++ "): " ++ payload.

Definition node2_on_thread_data (from payload : string) (src : otIp6Address) : string :=
  "RX from " ++ from ++ " (" ++ ip_string src ++ "): " ++ payload.
End RxLog.

(** *** NODE_1 *)

(** [ot_task_worker], lines 184-196: one locked region, held across the
    three announces and their delays. *)
Definition node1_worker_region : list api_call :=
  [CallInit "node_1" "receiver"; CallAnnounce; CallAnnounce; CallAnnounce;
   CallRegisterCb (Some on_thread_data); CallPrintNodes].

(** [app_task]: the discover pass (print, then one ping) and [k]
    iterations of the send loop, one locked region each. *)
Definition node1_app_regions (k : nat) : list (list api_call) :=
  [[CallPrintNodes]; [CallSend "node_2" "ping"]]
  ++ replicate k [CallSend "node_2" "temp:25.5, hum:60"; CallPrintNodes].

(** *** NODE_2 *)

(** [ot_task_worker], lines 159-162. *)
Definition node2_worker_region : list api_call :=
  [CallInit "node_2" "receiver"; CallRegisterCb (Some on_thread_data)].

(** [otDeviceRole], in the order of its numeric values. *)
Inductive otDeviceRole :=
| OT_DEVICE_ROLE_DISABLED
| OT_DEVICE_ROLE_DETACHED
| OT_DEVICE_ROLE_CHILD
| OT_DEVICE_ROLE_ROUTER
| OT_DEVICE_ROLE_LEADER.

Definition device_role_value (r : otDeviceRole) : nat :=
  match r with
  | OT_DEVICE_ROLE_DISABLED => 0
  | OT_DEVICE_ROLE_DETACHED => 1
  | OT_DEVICE_ROLE_CHILD => 2
  | OT_DEVICE_ROLE_ROUTER => 3
  | OT_DEVICE_ROLE_LEADER => 4
  end.

(** One iteration of [app_task]'s loop: the locked region, given the
    device role read in it, and the new value of [announced]. *)
Definition node2_app_iter (role : otDeviceRole) (announced : bool) : list api_call * bool :=
  if negb announced && Nat.leb (device_role_value OT_DEVICE_ROLE_CHILD) (device_role_value role)
  then ([CallAnnounce], true)
  else ([], announced).

(** The regions of the first [length roles] iterations, [roles] being
    the device roles [otThreadGetDeviceRole] returns in them. *)
Fixpoint node2_app_regions (roles : list otDeviceRole) (announced : bool) : list (list api_call) :=
  match roles with
  | [] => []
  | r :: rs =>
      let '(region, announced') := node2_app_iter r announced in
      region :: node2_app_regions rs announced'
  end.

Definition is_announce (c : api_call) : bool :=
  match c with CallAnnounce => true | _ => false end.

Definition announces (regions : list (list api_call)) : nat :=
  length (filter (fun c => is_announce c = true) (concat regions)).

(** *** Observations *)

(** [c] delivers a HELLO that registers [id]. *)
Definition delivers_hello (id : string) (c : api_call) : bool :=
  match c with
  | CallRx (Some m) (Some _) =>
      match decode (rx_text m) with
      | Hello id' _ => String.eqb id' id
      | _ => false
      end
  | _ => false
  end.

(** The three announces of NODE_1's worker, when the buffer pool is
    not exhausted. *)
Definition node1_hello : event :=
  EvUdpSend (mkDatagram ip6_ff02_1 THREAD_COMM_PORT "HELLO|id=node_1|role=receiver").

(** ** Lemmas *)

Lemma thread_comm_init_wf (id role : string) (st : comm_state) :
  comm_wf (thread_comm_init id role st).1.2.
Proof.
  pose proof (init_identity_wf id role st) as [].
  rewrite thread_comm_init_run.
  by destruct (ot_open_result (ot st)); [destruct (ot_bind_result (ot st))|].
Qed.

Lemma node2_app_regions_announced (roles : list otDeviceRole) :
  announces (node2_app_regions roles true) = 0.
Proof. induction roles as [|r rs IH]; [done|]. exact IH. Qed.

Lemma announces_cons (region : list api_call) (regions : list (list api_call)) :
  announces (region :: regions) = announces [region] + announces regions.
Proof. unfold announces. by rewrite concat_cons, filter_app, length_app, concat_cons, app_nil_r. Qed.

Lemma run_call_no_peer (c : api_call) (st : comm_state) (id : string) :
  comm_wf st -> delivers_hello id c = false -> find_entry (nodes st) id = None ->
  find_entry (nodes (run_call c st).1.2) id = None.
Proof.
  intros Hwf Hc He. destruct c as [i r| |i p|cb| |msg info]; cbn [run_call].
  - destruct (thread_comm_init_state i r st) as [-> _]. apply find_entry_zero.
  - rewrite thread_comm_announce_run. cbn [fst snd]. by rewrite after_send_nodes.
  - by rewrite thread_comm_send_set_ot.
  - by rewrite thread_comm_register_rx_cb_run.
  - by rewrite thread_comm_print_nodes_run.
  - destruct msg as [m|], info as [inf|]; try done. rewrite udp_handler_run.
    destruct (Nat.eqb _ 0); [done|]. cbn in Hc.
    destruct (decode (rx_text m)) as [i r| |] eqn:Hdec; [|done..].
    rewrite thread_comm_send_set_ot. cbn [nodes set_nodes set_ot]. destruct (decode_hello_length _ _ _ Hdec) as [Hi _].
    rewrite register_node_other; [done|apply Hwf|unfold NODE_ID_LEN; lia|].
    intros ->. by rewrite String.eqb_refl in Hc.
Qed.

(** No sequence of calls without a HELLO of [id] gives [id] an entry. *)
Lemma run_calls_no_peer (cs : list api_call) (st : comm_state) (id : string) :
  comm_wf st -> find_entry (nodes st) id = None ->
  forallb (fun c => negb (delivers_hello id c)) cs = true ->
  find_entry (nodes (run_calls cs st).1.2) id = None.
Proof.
  revert st. induction cs as [|c cs IH]; intros st Hwf He Hcs; [done|].
  apply andb_true_iff in Hcs as [Hc Hcs]. apply negb_true_iff in Hc.
  rewrite run_calls_cons. cbn [fst snd].
  apply IH; [by apply run_call_wf | by apply run_call_no_peer | done].
Qed.

Lemma node1_worker_state (st : comm_state) :
  exists o, (run_calls node1_worker_region st).1.2 =
    set_ot o (set_rx_cb (Some on_thread_data) (thread_comm_init "node_1" "receiver" st).1.2).
Proof.
  unfold node1_worker_region. rewrite !run_calls_cons. cbn [run_call].
  rewrite !thread_comm_announce_run. cbn [fst snd].
  rewrite thread_comm_register_rx_cb_run, thread_comm_print_nodes_run. cbn [fst snd].
  unfold after_send. repeat case_match; eexists; reflexivity.
Qed.

Lemma node1_worker_wf (st : comm_state) :
  comm_wf (run_calls node1_worker_region st).1.2 /\
  forall id, find_entry (nodes (run_calls node1_worker_region st).1.2) id = None.
Proof.
  destruct (node1_worker_state st) as [o ->].
  destruct (thread_comm_init_state "node_1" "receiver" st) as (Hn & _).
  destruct (thread_comm_init_wf "node_1" "receiver" st).
  split; [by split|]. intros id. cbn [nodes set_rx_cb set_ot]. rewrite Hn. apply find_entry_zero.
Qed.

(** ** NODE_1 *)

(** C23: NODE_1's worker region, whatever the state before it, leaves
    the table empty (so any HELLO delivered earlier is forgotten), the
    identity [node_1]/[receiver] and the callback [on_thread_data]; it
    logs the socket errors of [thread_comm_init], sends three
    [HELLO|id=node_1|role=receiver] to ff02::1 when a buffer is free and
    [otUdpSend] succeeds (and none otherwise), and prints the empty
    table; only OpenThread's buffers are left undetermined. *)
Theorem node1_worker_region_run (st : comm_state) :
  let r := run_calls node1_worker_region st in
  let st1 := (thread_comm_init "node_1" "receiver" st).1.2 in
  (exists o, r.1.2 = set_ot o (set_rx_cb (Some on_thread_data) st1)) /\
  nodes r.1.2 = nodes_zero /\
  self_id r.1.2 = "node_1" /\ self_role r.1.2 = "receiver" /\
  r.2 = ((thread_comm_init "node_1" "receiver" st).2 ++
         (if udp_sent (ot st) then [node1_hello; node1_hello; node1_hello] else []) ++
         (EvPrint <$> print_nodes nodes_zero))%list.
Proof.
  destruct (thread_comm_init_state "node_1" "receiver" st) as (Hn & Ho & _ & Hi & Hr).
  cbv zeta. destruct (node1_worker_state st) as [o Hst]. rewrite Hst.
  cbn [nodes self_id self_role set_rx_cb set_ot].
  rewrite Hn, Hi, Hr. split_and!; [by eexists | done..|].
  unfold node1_worker_region. rewrite !run_calls_cons. cbn [run_call].
  rewrite !thread_comm_announce_run. cbn [fst snd].
  rewrite thread_comm_register_rx_cb_run, thread_comm_print_nodes_run. cbn [fst snd nodes set_rx_cb].
  autorewrite with tcomm_rw. rewrite Hn, Ho, Hi, Hr.
  destruct (udp_sent (ot st)); vm_compute; reflexivity.
Qed.

(** C24: after NODE_1's worker region, whatever calls and deliveries
    follow, as long as none of them is a HELLO of [node_2], the ping of
    [app_task] finds no [node_2]: it sends nothing and only logs the
    warning.  The module learns peers only from their HELLO, and the
    worker region clears the table, so a HELLO of [node_2] delivered
    before it (NODE_2 sends one, see C25) is lost. *)
Theorem node1_ping_unanswered (st : comm_state) (cs : list api_call) :
  forallb (fun c => negb (delivers_hello "node_2" c)) cs = true ->
  let st' := (run_calls cs (run_calls node1_worker_region st).1.2).1.2 in
  run_call (CallSend "node_2" "ping") st' = (tt, st', [LogNodeNotFound "node_2"]).
Proof.
  intros Hcs. cbv zeta. cbn [run_call]. rewrite thread_comm_send_run.
  destruct (node1_worker_wf st) as [Hwf He].
  assert (comm_wf (run_calls cs (run_calls node1_worker_region st).1.2).1.2) as Hwf'.
  { apply (run_calls_inv (fun _ => True) comm_wf (fun _ => True)); [|by apply Forall_true|done].
    intros c st' _ H. split; [by apply run_call_wf|done]. }
  rewrite (find_entry_None _ _ (cwf_table _ Hwf')); [done|].
  by apply run_calls_no_peer.
Qed.

Lemma node1_ping_unanswered_witness :
  forallb (fun c => negb (delivers_hello "node_2" c))
    [CallPrintNodes; CallRx (Some "HELLO|id=node_3|role=sensor") (Some (mkInfo ip6_zero THREAD_COMM_PORT))] = true /\
  let st' := (run_calls [CallPrintNodes; CallRx (Some "HELLO|id=node_3|role=sensor") (Some (mkInfo ip6_zero THREAD_COMM_PORT))]
                (run_calls node1_worker_region (boot_state (mkOt OT_ERROR_NONE OT_ERROR_NONE 4 OT_ERROR_NONE))).1.2).1.2 in
  run_call (CallSend "node_2" "ping") st' = (tt, st', [LogNodeNotFound "node_2"]).
Proof.
  split; [vm_compute; reflexivity|].
  apply (node1_ping_unanswered (boot_state (mkOt OT_ERROR_NONE OT_ERROR_NONE 4 OT_ERROR_NONE))
           [CallPrintNodes; CallRx (Some "HELLO|id=node_3|role=sensor") (Some (mkInfo ip6_zero THREAD_COMM_PORT))]).
  vm_compute. reflexivity.
Defined.

(** ** NODE_2 *)

(** C25: NODE_2's [app_task] announces exactly once over any run of its
    loop: once the first iteration that reads a role of at least
    [OT_DEVICE_ROLE_CHILD], never again, whatever the roles read later
    (a detach and re-attach does not announce again). *)
Theorem node2_app_announces_once (roles : list otDeviceRole) :
  announces (node2_app_regions roles false) =
    if existsb (fun r => Nat.leb 2 (device_role_value r)) roles then 1 else 0.
Proof.
  induction roles as [|r rs IH]; [done|].
  cbn [node2_app_regions existsb]. unfold node2_app_iter. cbn [negb andb device_role_value].
  destruct (Nat.leb 2 (device_role_value r)); cbn [orb];
    rewrite announces_cons.
  - rewrite node2_app_regions_announced. reflexivity.
  - exact IH.
Qed.

End App.
