(* ===== verification/System.v ===== *)
(** * The two boards and the network between them

    The repository's system is two ESP32 boards, each running its
    esp_ot_cli.c and the [thread_comm] module, on one Thread network.
    This file composes the models of [Engine] and [App] into a step
    relation over the two module states, the progress of each board's
    tasks, NODE_2's [announced] flag, and the datagrams in flight:

    - a board's task runs its next locked region (NODE_1: [ot_task_worker]
      then [app_task]; NODE_2: [ot_task_worker], then one iteration of
      [app_task] per step, with the device role it reads as input);
    - OpenThread's main loop of a board delivers one datagram in flight
      to [udp_handler], when the main loop runs (after the board's
      worker region), the socket is bound to the datagram's port, and the
      datagram is multicast to ff02::1 or sent to the board's address;
    - the network loses any datagram in flight.

    The main loop of a board starts after its worker region (the
    [esp_openthread_launch_mainloop] call that ends [ot_task_worker]);
    every locked region is one step, so deliveries happen between
    regions.  The boards' mesh-local addresses are a parameter. *)

From Stdlib Require Import String Ascii ZArith Lia.
From stdpp Require Import base list strings relations sets.
From S2P Require Import Prelude CStr Transport NodeTable Codec Engine App.

Module System.
Import CStr Transport NodeTable Codec Engine App.

Inductive board := Board1 | Board2.

#[global] Instance board_eq_dec : EqDecision board.
Proof. solve_decision. Defined.

Definition other (b : board) : board :=
  match b with Board1 => Board2 | Board2 => Board1 end.

(** The identity each board's [ot_task_worker] passes to
    [thread_comm_init]. *)
Definition board_name (b : board) : string :=
  match b with Board1 => "node_1"%string | Board2 => "node_2"%string end.

Definition board_role (b : board) : string := "receiver"%string.

(** A datagram in flight and the board that sent it. *)
Record packet := mkPacket { pk_src : board; pk_dg : datagram }.

Record sys := mkSys {
  node1 : comm_state;            (** NODE_1's [thread_comm] statics *)
  node2 : comm_state;            (** NODE_2's [thread_comm] statics *)
  pc1 : nat;                     (** regions NODE_1's tasks have run *)
  pc2 : nat;                     (** 0 before NODE_2's worker region, 1 after *)
  announced : bool;              (** [bool announced] of NODE_2's [app_task] *)
  net : list packet;             (** datagrams in flight *)
  trace : list (board * event)   (** what the boards did, in order *)
}.

Definition sys_init (o1 o2 : ot_stack) : sys :=
  mkSys (boot_state o1) (boot_state o2) 0 0 false [] [].

Definition node_of (b : board) (s : sys) : comm_state :=
  match b with Board1 => node1 s | Board2 => node2 s end.

Definition set_node (b : board) (st : comm_state) (s : sys) : sys :=
  match b with
  | Board1 => mkSys st (node2 s) (pc1 s) (pc2 s) (announced s) (net s) (trace s)
  | Board2 => mkSys (node1 s) st (pc1 s) (pc2 s) (announced s) (net s) (trace s)
  end.

Definition set_pc1 (n : nat) (s : sys) : sys :=
  mkSys (node1 s) (node2 s) n (pc2 s) (announced s) (net s) (trace s).

Definition set_pc2 (n : nat) (s : sys) : sys :=
  mkSys (node1 s) (node2 s) (pc1 s) n (announced s) (net s) (trace s).

Definition set_announced (a : bool) (s : sys) : sys :=
  mkSys (node1 s) (node2 s) (pc1 s) (pc2 s) a (net s) (trace s).

Definition set_net (l : list packet) (s : sys) : sys :=
  mkSys (node1 s) (node2 s) (pc1 s) (pc2 s) (announced s) l (trace s).

(** The datagrams among a board's events. *)
Fixpoint sent (b : board) (evs : list event) : list packet :=
  match evs with
  | [] => []
  | EvUdpSend d :: evs' => mkPacket b d :: sent b evs'
  | _ :: evs' => sent b evs'
  end.

(** Board [b] runs the calls [cs] under the lock. *)
Definition run_on (b : board) (cs : list api_call) (s : sys) : sys :=
  let r := run_calls cs (node_of b s) in
  let s' := set_node b r.1.2 s in
  mkSys (node1 s') (node2 s') (pc1 s') (pc2 s') (announced s')
    (net s' ++ sent b r.2) (trace s' ++ (pair b <$> r.2)).

(** NODE_1's next region: the worker's, then [app_task]'s, whose send
    loop repeats its last region forever. *)
Definition node1_region (pc : nat) : list api_call :=
  match pc with
  | 0 => node1_worker_region
  | S i => default [] (node1_app_regions i !! i)
  end.

(** [esp_openthread_launch_mainloop] has been reached. *)
Definition mainloop_running (b : board) (s : sys) : bool :=
  match b with Board1 => Nat.leb 1 (pc1 s) | Board2 => Nat.leb 1 (pc2 s) end.

(** The line a board's [on_thread_data] logs when [udp_handler] calls
    [rx_cb(from, payload, &info->mPeerAddr)] with it registered. *)
Definition callback_line (ip6_text : otIp6Address -> string) (b : board) (e : event)
  : option string :=
  match e with
  | EvRxCallback cb from payload src =>
      if bool_decide (cb = on_thread_data) then
        Some (match b with
              | Board1 => node1_on_thread_data ip6_text from payload src
              | Board2 => node2_on_thread_data ip6_text from payload src
              end)
      else None
  | _ => None
  end.

(** The callbacks' log, in order. *)
Definition rx_log (ip6_text : otIp6Address -> string) (s : sys) : list (board * string) :=
  omap (λ be, pair be.1 <$> callback_line ip6_text be.1 be.2) (trace s).

Definition bound_to (so : udp_socket) (port : Z) : bool :=
  match so with SockBound p => Z.eqb p port | _ => false end.

Section Network.
Variable board_addr : board -> otIp6Address.

(** OpenThread hands [p] to the [udp_handler] of the other board. *)
Definition accepts (s : sys) (p : packet) : bool :=
  let b := other (pk_src p) in
  mainloop_running b s && bound_to (sock (node_of b s)) (dg_port (pk_dg p)) &&
  (bool_decide (dg_addr (pk_dg p) = ip6_ff02_1) || bool_decide (dg_addr (pk_dg p) = board_addr b)).

(** The [udp_handler] call the main loop makes for [p]. *)
Definition rx_call (p : packet) : api_call :=
  CallRx (Some (dg_bytes (pk_dg p)))
    (Some (mkInfo (board_addr (pk_src p)) (dg_port (pk_dg p)))).

Inductive step : sys -> sys -> Prop :=
| step_node1 s :
    step s (set_pc1 (S (pc1 s)) (run_on Board1 (node1_region (pc1 s)) s))
| step_node2_worker s :
    pc2 s = 0 ->
    step s (set_pc2 1 (run_on Board2 node2_worker_region s))
| step_node2_app s role :
    pc2 s = 1 ->
    step s (set_announced (node2_app_iter role (announced s)).2
              (run_on Board2 (node2_app_iter role (announced s)).1 s))
| step_deliver s pre p post :
    net s = pre ++ p :: post -> accepts s p = true ->
    step s (run_on (other (pk_src p)) [rx_call p] (set_net (pre ++ post) s))
| step_lose s pre p post :
    net s = pre ++ p :: post ->
    step s (set_net (pre ++ post) s).

Definition reachable (o1 o2 : ot_stack) (s : sys) : Prop := rtc step (sys_init o1 o2) s.

(** ** What holds in every reachable state *)

(** A datagram in flight is a HELLO of its sender's identity or a DATA
    frame, of at most [PAYLOAD_LEN - 1] bytes, to [THREAD_COMM_PORT]. *)
(** A DATA frame of board [b]: [thread_comm_send]'s frame from [b]'s
    identity, with a payload [sscanf] reads whole. *)
Definition data_ok (b : board) (bytes : string) : Prop :=
  exists payload, payload_ok payload = true /\ bytes = data_frame (board_name b) payload.

Definition packet_ok (p : packet) : Prop :=
  dg_ok (pk_dg p) /\
  (dg_bytes (pk_dg p) = hello_frame (board_name (pk_src p)) (board_role (pk_src p)) \/
   data_ok (pk_src p) (dg_bytes (pk_dg p))).

(** A callback event of board [b] names the other board, at its address. *)
Definition callback_ok (b : board) (e : event) : Prop :=
  forall cb from payload src, e = EvRxCallback cb from payload src ->
    from = board_name (other b) /\ src = board_addr (other b).

(** A board's module: the invariant, its identity once initialised, and
    a table that names only the other board, at its address. *)
Definition node_ok (b : board) (started : bool) (st : comm_state) : Prop :=
  comm_wf st /\
  (started = true -> self_id st = board_name b /\ self_role st = board_role b) /\
  (forall j n, nodes st !! j = Some n -> active n = true ->
     node_id n = board_name (other b) /\ eid n = board_addr (other b)).

Definition sys_inv (s : sys) : Prop :=
  (forall b, node_ok b (mainloop_running b s) (node_of b s)) /\
  pc2 s <= 1 /\ Forall packet_ok (net s) /\
  Forall (λ be, callback_ok be.1 be.2) (trace s).

(** The calls a board's tasks make: its own identity to
    [thread_comm_init], and no [udp_handler] (only the main loop calls it). *)
Definition call_ok (b : board) (c : api_call) : Prop :=
  match c with
  | CallInit id role => id = board_name b /\ role = board_role b
  | CallSend _ payload => payload_ok payload = true
  | CallRx _ _ => False
  | _ => True
  end.

(** The bytes a board puts in flight. *)
Definition bytes_ok (b : board) (d : datagram) : Prop :=
  dg_bytes d = hello_frame (board_name b) (board_role b) \/ data_ok b (dg_bytes d).

Definition event_ok (b : board) (e : event) : Prop :=
  (forall d, e = EvUdpSend d -> packet_ok (mkPacket b d)) /\ callback_ok b e.

(** NODE_2's only announce is gone: NODE_1 runs [app_task], NODE_2 has
    announced, NODE_1 holds no [node_2], and NODE_2 has nothing but DATA
    frames in flight. *)
Definition node2_lost (s : sys) : Prop :=
  1 <= pc1 s /\ pc2 s = 1 /\ announced s = true /\
  find_entry (nodes (node1 s)) "node_2"%string = None /\
  forallb (fun p => negb (bool_decide (pk_src p = Board2)) ||
                    String.prefix "DATA|" (dg_bytes (pk_dg p))) (net s) = true.

(** ** An executable scheduler

    One step chosen by its rule, for running the system on concrete
    inputs; [sched_step_sound] shows it takes only [step]s. *)
Inductive choice :=
| RunNode1
| RunNode2Worker
| RunNode2App (role : otDeviceRole)
| Deliver (i : nat)
| Lose (i : nat).

Definition sched_step (c : choice) (s : sys) : option sys :=
  match c with
  | RunNode1 => Some (set_pc1 (S (pc1 s)) (run_on Board1 (node1_region (pc1 s)) s))
  | RunNode2Worker =>
      if Nat.eqb (pc2 s) 0 then Some (set_pc2 1 (run_on Board2 node2_worker_region s)) else None
  | RunNode2App role =>
      if Nat.eqb (pc2 s) 1
      then Some (set_announced (node2_app_iter role (announced s)).2
                   (run_on Board2 (node2_app_iter role (announced s)).1 s))
      else None
  | Deliver i =>
      match net s !! i with
      | Some p =>
          if accepts s p
          then Some (run_on (other (pk_src p)) [rx_call p] (set_net (take i (net s) ++ drop (S i) (net s)) s))
          else None
      | None => None
      end
  | Lose i =>
      match net s !! i with
      | Some _ => Some (set_net (take i (net s) ++ drop (S i) (net s)) s)
      | None => None
      end
  end.

Fixpoint run_sched (cs : list choice) (s : sys) : option sys :=
  match cs with
  | [] => Some s
  | c :: cs' => sched_step c s ≫= run_sched cs'
  end.

(** *** Concrete runs

    Addresses and OpenThread results for evaluating runs: the boards at
    fd00::1 and fd00::2, every socket call succeeding. *)
Definition mesh_addr (b : board) : otIp6Address :=
  match b with
  | Board1 => mkIp6 [0xfd00; 0; 0; 0; 0; 0; 0; 1]%Z
  | Board2 => mkIp6 [0xfd00; 0; 0; 0; 0; 0; 0; 2]%Z
  end.

Definition ot_ready : ot_stack := mkOt OT_ERROR_NONE OT_ERROR_NONE 4 OT_ERROR_NONE.

(** NODE_2 joins and announces before NODE_1's worker region; the
    announce is lost (NODE_1's main loop does not run yet); then NODE_1's
    worker region runs. *)
Definition lost_run : list choice :=
  [RunNode2Worker; RunNode2App OT_DEVICE_ROLE_CHILD; Lose 0; RunNode1].

(** NODE_1's worker region, then NODE_2 joins and announces; the
    announce reaches NODE_1; NODE_1's [app_task] prints, pings, and sends
    its first reading, which reaches NODE_2. *)
Definition deliver_run : list choice :=
  [RunNode1; RunNode2Worker; RunNode2App OT_DEVICE_ROLE_CHILD; Deliver 3;
   RunNode1; RunNode1; RunNode1; Deliver 5].

(** ** Lemmas *)

(** Compute the fields of a system state built by the step rules. *)
Ltac sys_simpl :=
  cbn [node_of set_node set_pc1 set_pc2 set_announced set_net run_on
       node1 node2 pc1 pc2 announced net trace mainloop_running other Nat.leb] in *.

Lemma run_on_node (b : board) (cs : list api_call) (s : sys) :
  node_of b (run_on b cs s) = (run_calls cs (node_of b s)).1.2 /\
  node_of (other b) (run_on b cs s) = node_of (other b) s /\
  pc1 (run_on b cs s) = pc1 s /\ pc2 (run_on b cs s) = pc2 s /\
  announced (run_on b cs s) = announced s /\
  net (run_on b cs s) = net s ++ sent b (run_calls cs (node_of b s)).2.
Proof. by destruct b. Qed.

Lemma mainloop_running_run_on (b b' : board) (cs : list api_call) (s : sys) :
  mainloop_running b' (run_on b cs s) = mainloop_running b' s.
Proof. by destruct b, b'. Qed.

Lemma sent_elem (b : board) (evs : list event) p :
  p ∈ sent b evs -> pk_src p = b /\ EvUdpSend (pk_dg p) ∈ evs.
Proof.
  induction evs as [|e evs IH]; cbn [sent]; [set_solver|].
  destruct e; try (intros Hp; destruct (IH Hp); set_solver).
  intros [-> | Hp]%elem_of_cons; [set_solver|]. destruct (IH Hp); set_solver.
Qed.

Lemma sent_ok (b : board) (evs : list event) :
  (forall e, e ∈ evs -> event_ok b e) -> Forall packet_ok (sent b evs).
Proof.
  intros H. apply Forall_forall. intros p (Hsrc & Hin)%sent_elem.
  destruct p as [b' d]. cbn in Hsrc, Hin. subst b'. by apply (proj1 (H _ Hin)).
Qed.

Lemma node_ok_wf (b : board) (started : bool) (st : comm_state) :
  node_ok b started st -> comm_wf st.
Proof. by intros []. Qed.

(** OpenThread's buffers do not matter to a board's module invariant. *)
Lemma node_ok_set_ot (b : board) (started : bool) (o : ot_stack) (st : comm_state) :
  node_ok b started st -> node_ok b started (set_ot o st).
Proof. intros ([] & Hid & Htab). split_and!; [by split | exact Hid | exact Htab]. Qed.

(** A board's [thread_comm_init] with its own identity starts it, from
    any state, and sends nothing. *)
Lemma node_init_ok (b : board) (st : comm_state) :
  node_ok b true (thread_comm_init (board_name b) (board_role b) st).1.2 /\
  forall d, EvUdpSend d ∉ (thread_comm_init (board_name b) (board_role b) st).2.
Proof.
  destruct (thread_comm_init_state (board_name b) (board_role b) st) as (Hn & _ & _ & Hi & Hr).
  split.
  - split_and!; [apply thread_comm_init_wf | |].
    + intros _. rewrite Hi, Hr. by destruct b.
    + intros j n. rewrite Hn. by intros (-> & _)%lookup_replicate.
  - intros d. rewrite thread_comm_init_run.
    destruct (ot_open_result (ot st)); [destruct (ot_bind_result (ot st))|]; cbn; set_solver.
Qed.

Lemma node_event_ok (b : board) (c : api_call) (st : comm_state) :
  (forall d, EvUdpSend d ∈ (run_call c st).2 -> bytes_ok b d) ->
  (forall e, e ∈ (run_call c st).2 -> callback_ok b e) ->
  forall e, e ∈ (run_call c st).2 -> event_ok b e.
Proof.
  intros Hb Hc e He. split; [|by apply Hc].
  intros d ->. split; [by apply (run_call_dg_ok c st) | by apply Hb].
Qed.

(** Only [udp_handler] calls the callback. *)
Lemma send_no_callback (st : comm_state) (id payload : string) cb from pl src :
  EvRxCallback cb from pl src ∉ (thread_comm_send id payload st).2.
Proof.
  rewrite thread_comm_send_run. cbn [snd].
  destruct (find_node (nodes st) id) as [i|]; [|set_solver].
  destruct (nodes st !! i); [|set_solver]. cbn [snd].
  destruct (udp_sent (ot st)); set_solver.
Qed.

Lemma api_call_no_callback (c : api_call) (st : comm_state) cb from pl src :
  match c with CallRx _ _ => False | _ => True end ->
  EvRxCallback cb from pl src ∉ (run_call c st).2.
Proof.
  intros Hc. destruct c as [i r| |i p|cb'| |msg info]; cbn [run_call].
  - rewrite thread_comm_init_run.
    destruct (ot_open_result (ot st)); [destruct (ot_bind_result (ot st))|]; cbn; set_solver.
  - rewrite thread_comm_announce_run. cbn [snd]. destruct (udp_sent (ot st)); set_solver.
  - apply send_no_callback.
  - rewrite thread_comm_register_rx_cb_run. set_solver.
  - rewrite thread_comm_print_nodes_run. cbn [snd]. by intros (? & ? & _)%list_elem_of_fmap.
  - done.
Qed.

(** Every call a board's tasks make keeps its module started and sends
    only its HELLO or DATA frames. *)
Lemma node_call_ok (b : board) (c : api_call) (st : comm_state) :
  call_ok b c -> node_ok b true st ->
  node_ok b true (run_call c st).1.2 /\ forall e, e ∈ (run_call c st).2 -> event_ok b e.
Proof.
  intros Hc Hst. pose proof Hst as (Hwf & Hid & Htab).
  split; [|apply node_event_ok; [intros d Hd | intros e He cb f pl src ->]].
  - destruct c as [i r| |i p|cb| |msg info]; cbn [run_call call_ok] in Hc |- *.
    + destruct Hc as [-> ->]. apply node_init_ok.
    + rewrite thread_comm_announce_run. cbn [fst snd]. rewrite after_send_set_ot.
      by apply node_ok_set_ot.
    + rewrite thread_comm_send_set_ot. by apply node_ok_set_ot.
    + rewrite thread_comm_register_rx_cb_run. split_and!; [by split; apply Hwf | done | done].
    + by rewrite thread_comm_print_nodes_run.
    + done.
  - destruct c as [i r| |i p|cb| |msg info]; cbn [run_call call_ok] in Hc, Hd.
    + destruct Hc as [-> ->]. by destruct (proj2 (node_init_ok b st) d).
    + rewrite thread_comm_announce_run in Hd. cbn [snd] in Hd.
      destruct (udp_sent (ot st)); [|set_solver].
      apply list_elem_of_singleton in Hd as [= ->]. left. cbn [dg_bytes]. by destruct (Hid eq_refl) as [-> ->].
    + right. exists p. split; [done|].
      rewrite (thread_comm_send_sent _ _ _ _ Hd). by destruct (Hid eq_refl) as [-> _].
    + rewrite thread_comm_register_rx_cb_run in Hd. set_solver.
    + rewrite thread_comm_print_nodes_run in Hd. cbn [snd] in Hd.
      by apply list_elem_of_fmap in Hd as (? & ? & _).
    + done.
  - exfalso. refine (api_call_no_callback c st cb f pl src _ He). by destruct c.
Qed.

(** The HELLO each board announces, as the other board reads it. *)
Lemma hello_frame_decode (b : board) :
  decode (rx_text (hello_frame (board_name b) (board_role b))) = Hello (board_name b) "receive"%string.
Proof. by destruct b; vm_compute. Qed.

Lemma board_name_fits (b : board) :
  String.length (board_name b) < NODE_ID_LEN /\
  strncpy (NODE_ID_LEN - 1) (board_name b) = board_name b.
Proof. destruct b; split; vm_compute; [lia | reflexivity | lia | reflexivity]. Qed.

Lemma board_name_id_ok (b : board) : id_ok (board_name b) = true.
Proof. by destruct b; vm_compute. Qed.

(** What a delivery makes a started board send: its DATA frames. *)
Lemma node_rx_data_ok (b : board) (st : comm_state) (p : packet) d :
  self_id st = board_name b ->
  EvUdpSend d ∈ (run_call (rx_call p) st).2 -> data_ok b (dg_bytes d).
Proof.
  intros Hid Hd. cbn [run_call rx_call] in Hd.
  rewrite udp_handler_run in Hd. destruct (Nat.eqb _ 0); [set_solver|].
  destruct (decode (rx_text _)) as [id role|from payload|]; cbn [snd] in Hd.
  - exists HELLO_REPLY. split; [by vm_compute|].
    rewrite (thread_comm_send_sent _ _ _ _ Hd). by cbn [self_id set_nodes]; rewrite Hid.
  - destruct (rx_cb st); set_solver.
  - set_solver.
Qed.

(** A delivery from the other board calls back with its identity and
    address only. *)
Lemma node_rx_callback (b : board) (st : comm_state) (p : packet) :
  packet_ok p -> pk_src p = other b ->
  forall e, e ∈ (run_call (rx_call p) st).2 -> callback_ok b e.
Proof.
  intros (_ & Hbytes) Hsrc e He cb from payload src ->.
  cbn [run_call rx_call] in He. rewrite udp_handler_run in He.
  destruct (Nat.eqb _ 0); [set_solver|].
  destruct (decode (rx_text _)) as [id role|f pl|] eqn:Hdec; cbn [snd] in He.
  - by apply send_no_callback in He.
  - destruct (rx_cb st); [|set_solver]. apply list_elem_of_singleton in He.
    injection He as -> -> -> ->. cbn [mPeerAddr]. rewrite Hsrc. split; [|done].
    destruct Hbytes as [Hh | (pl' & Hpl & Hd)].
    + rewrite Hh, hello_frame_decode in Hdec. discriminate.
    + rewrite Hd, Hsrc, decode_data_frame in Hdec; [by injection Hdec | apply board_name_id_ok | exact Hpl].
  - set_solver.
Qed.

(** What a delivery makes a board send: DATA frames only. *)
Lemma node_rx_data (st : comm_state) (p : packet) d :
  EvUdpSend d ∈ (run_call (rx_call p) st).2 -> String.prefix "DATA|" (dg_bytes d) = true.
Proof. apply udp_handler_sends_data. Qed.

Lemma node_rx_bytes (b : board) (st : comm_state) (p : packet) :
  self_id st = board_name b -> packet_ok p -> pk_src p = other b ->
  forall e, e ∈ (run_call (rx_call p) st).2 -> event_ok b e.
Proof.
  intros Hid Hp Hsrc. apply node_event_ok; [|by apply node_rx_callback].
  intros d Hd. right. by apply (node_rx_data_ok b st p).
Qed.

(** A DATA frame delivered to a module changes nothing in it. *)
Lemma node_rx_data_state (st : comm_state) (p : packet) :
  String.prefix "DATA|" (dg_bytes (pk_dg p)) = true ->
  (run_call (rx_call p) st).1.2 = st.
Proof.
  intros (r & Hr)%prefix_spec. cbn [run_call rx_call]. rewrite Hr.
  apply udp_handler_data_head_state.
Qed.

(** A delivery from the other board keeps a started board's module:
    a HELLO registers the other board at its address, a DATA frame
    changes nothing. *)
Lemma node_rx_state (b : board) (st : comm_state) (p : packet) :
  node_ok b true st -> packet_ok p -> pk_src p = other b ->
  node_ok b true (run_call (rx_call p) st).1.2.
Proof.
  intros Hst (_ & Hbytes) Hsrc. pose proof Hst as (Hwf & Hid & Htab).
  cbn [run_call rx_call]. rewrite udp_handler_run.
  destruct (Nat.eqb _ 0); [done|].
  destruct Hbytes as [Hh | (pl & _ & Hd)].
  - rewrite Hh, Hsrc, hello_frame_decode. rewrite thread_comm_send_set_ot.
    apply node_ok_set_ot. destruct (board_name_fits (other b)) as [Hlen Hcut].
    pose proof (wf_length _ (cwf_table _ Hwf)) as Hn.
    split_and!; [split; cbn [nodes self_id self_role set_nodes]; [|apply Hwf..] | apply Hid |].
    { apply register_node_wf; [apply Hwf | done]. }
    intros j n Hj Ha. cbn [nodes set_nodes mPeerAddr] in Hj.
    rewrite (register_node_slot _ _ _ _ Hn) in Hj.
    destruct (reg_slot (nodes st) (board_name (other b))) as [i|] eqn:Hs; [|by apply (Htab j)].
    destruct (decide (j = i)) as [->|Hne].
    + rewrite list_lookup_insert_eq in Hj by (by apply (reg_slot_lt _ _ i Hn Hs)).
      injection Hj as <-. cbn [node_id eid new_node]. by rewrite Hcut.
    + rewrite list_lookup_insert_ne in Hj by congruence. by apply (Htab j).
  - assert (Hpre : String.prefix "DATA|" (dg_bytes (pk_dg p)) = true)
      by (rewrite Hd; apply data_frame_head).
    apply prefix_spec in Hpre as (r & Hr). rewrite Hr.
    destruct (decode (rx_text ("DATA|" ++ r))) as [id role|from payload|] eqn:Hdec.
    + by destruct (decode_data_head r id role).
    + done.
    + done.
Qed.

(** NODE_1's regions are made of its own calls; only the first is the
    worker's, which starts with [thread_comm_init]. *)
Lemma node1_region_calls (pc : nat) :
  Forall (call_ok Board1) (node1_region pc) /\
  (pc = 0 -> head (node1_region pc) = Some (CallInit (board_name Board1) (board_role Board1))).
Proof.
  destruct pc as [|i]; [split; [repeat constructor | done]|]. split; [|done].
  cbn [node1_region]. destruct (node1_app_regions i !! i) as [r|] eqn:Hr; [|constructor].
  apply list_elem_of_lookup_2 in Hr. unfold node1_app_regions in Hr.
  apply elem_of_app in Hr as [Hr | (-> & _)%elem_of_replicate].
  - repeat (apply elem_of_cons in Hr as [-> | Hr]; [by repeat constructor|]).
    by apply not_elem_of_nil in Hr.
  - by repeat constructor.
Qed.

(** From its fourth region on, NODE_1 runs [app_task]'s send loop: the
    reading to [node_2], then the table. *)
Lemma node1_region_loop (i : nat) :
  2 <= i -> node1_region (S i) = [CallSend "node_2" "temp:25.5, hum:60"; CallPrintNodes]%string.
Proof.
  intros Hi. cbn [node1_region]. unfold node1_app_regions.
  rewrite lookup_app_r by (cbn; lia). rewrite lookup_replicate_2; [done | cbn [length]; lia].
Qed.

Lemma node2_regions_calls (role : otDeviceRole) (a : bool) :
  Forall (call_ok Board2) node2_worker_region /\
  head node2_worker_region = Some (CallInit (board_name Board2) (board_role Board2)) /\
  Forall (call_ok Board2) (node2_app_iter role a).1.
Proof.
  split_and!; [by repeat constructor | done |].
  unfold node2_app_iter. by destruct (_ && _); repeat constructor.
Qed.

(** A locked region of a board's tasks, from its worker's or from a
    started module, leaves it started and sends its own frames only. *)
Lemma node_region_ok (b : board) (cs : list api_call) (st : comm_state) (started : bool) :
  Forall (call_ok b) cs -> node_ok b started st ->
  started = true \/ head cs = Some (CallInit (board_name b) (board_role b)) ->
  node_ok b true (run_calls cs st).1.2 /\ Forall packet_ok (sent b (run_calls cs st).2) /\
  Forall (callback_ok b) (run_calls cs st).2.
Proof.
  assert (forall cs' st', Forall (call_ok b) cs' -> node_ok b true st' ->
            node_ok b true (run_calls cs' st').1.2 /\
            forall e, e ∈ (run_calls cs' st').2 -> event_ok b e) as Hrun.
  { intros cs' st' Hcs' H'. apply (run_calls_inv (call_ok b) (node_ok b true) (event_ok b)); [|done..].
    intros c st'' Hc H''. by apply node_call_ok. }
  intros Hcs Hst Hstart.
  assert (node_ok b true (run_calls cs st).1.2 /\
          forall e, e ∈ (run_calls cs st).2 -> event_ok b e) as [H1 H2].
  { destruct Hstart as [-> | Hhd]; [by apply Hrun|].
    destruct cs as [|c cs]; [done|]. injection Hhd as ->. apply Forall_cons in Hcs as [_ Hcs].
    destruct (node_init_ok b st) as [Hi Hnos].
    rewrite run_calls_cons. cbn [run_call fst snd].
    destruct (Hrun cs _ Hcs Hi) as [H1 H2]. split; [done|].
    intros e [He|He]%elem_of_app; [|by apply H2]. split.
    - intros d ->. by destruct (Hnos d).
    - intros cb f pl src ->.
      by apply (api_call_no_callback (CallInit (board_name b) (board_role b)) st cb f pl src) in He. }
  split_and!; [done | by apply sent_ok |]. apply Forall_forall. intros e He. exact (proj2 (H2 e He)).
Qed.

(** A board's events extend the trace. *)
Lemma trace_ok_app (tr : list (board * event)) (b : board) (evs : list event) :
  Forall (λ be, callback_ok be.1 be.2) tr -> Forall (callback_ok b) evs ->
  Forall (λ be, callback_ok be.1 be.2) (tr ++ (pair b <$> evs)).
Proof. intros H1 H2. apply Forall_app. split; [done|]. by apply Forall_fmap. Qed.

Lemma sys_inv_init (o1 o2 : ot_stack) : sys_inv (sys_init o1 o2).
Proof.
  split_and!; [|cbn; lia | constructor | constructor].
  intros b. split_and!; [by destruct b; apply comm_wf_boot | by destruct b |].
  intros j n Hj. destruct b; cbn [node_of sys_init node1 node2 boot_state nodes] in Hj;
    by apply lookup_replicate in Hj as (-> & _).
Qed.

Lemma step_inv (s s' : sys) : step s s' -> sys_inv s -> sys_inv s'.
Proof.
  intros Hstep (Hnodes & Hpc2 & Hnet & Htr).
  pose proof (Hnodes Board1) as Hn1. pose proof (Hnodes Board2) as Hn2.
  destruct Hstep as [s|s Hpc|s role Hpc|s pre p post Hn Hacc|s pre p post Hn].
  - destruct (node1_region_calls (pc1 s)) as [Hcs Hhd].
    destruct (node_region_ok Board1 (node1_region (pc1 s)) (node1 s) _ Hcs Hn1) as (H1 & H2 & H3).
    { unfold mainloop_running. destruct (pc1 s); [right; by apply Hhd | by left]. }
    unfold sys_inv. sys_simpl.
    split_and!; [intros []; sys_simpl; done | done | by apply Forall_app | by apply trace_ok_app].
  - destruct (node2_regions_calls OT_DEVICE_ROLE_DISABLED false) as (Hcs & Hhd & _).
    destruct (node_region_ok Board2 node2_worker_region (node2 s) _ Hcs Hn2) as (H1 & H2 & H3); [by right|].
    unfold sys_inv. sys_simpl.
    split_and!; [intros []; sys_simpl; done | done | by apply Forall_app | by apply trace_ok_app].
  - destruct (node2_regions_calls role (announced s)) as (_ & _ & Hcs).
    destruct (node_region_ok Board2 _ (node2 s) _ Hcs Hn2) as (H1 & H2 & H3).
    { left. sys_simpl. by rewrite Hpc. }
    unfold sys_inv. sys_simpl. rewrite Hpc.
    split_and!; [intros []; sys_simpl; by rewrite ?Hpc | lia | by apply Forall_app | by apply trace_ok_app].
  - rewrite Hn in Hnet. apply Forall_app in Hnet as [Hpre [Hp Hpost]%Forall_cons].
    unfold accepts in Hacc. apply andb_prop in Hacc as [[Hrun _]%andb_prop _].
    assert (forall b, node_ok b true (node_of b s) -> pk_src p = other b ->
              node_ok b true (run_calls [rx_call p] (node_of b s)).1.2 /\
              Forall packet_ok (sent b (run_calls [rx_call p] (node_of b s)).2) /\
              Forall (callback_ok b) (run_calls [rx_call p] (node_of b s)).2) as Hrx.
    { intros b Hb Hsrc. rewrite run_calls_cons. cbn [run_calls stm_ret fst snd].
      rewrite app_nil_r. pose proof Hb as (_ & Hid & _). destruct (Hid eq_refl) as [Hself _].
      split_and!; [by apply node_rx_state | by apply sent_ok, node_rx_bytes |].
      apply Forall_forall. by apply node_rx_callback. }
    unfold sys_inv. destruct (pk_src p) eqn:Hsrc; sys_simpl.
    + destruct (Hrx Board2) as (H1 & H2 & H3); [by rewrite Hrun in Hn2 | done |].
      unfold sys_inv. sys_simpl.
      split_and!; [intros []; sys_simpl; by rewrite ?Hrun | done |
                   apply Forall_app; split; [apply Forall_app; split|]; done | by apply trace_ok_app].
    + destruct (Hrx Board1) as (H1 & H2 & H3); [by rewrite Hrun in Hn1 | done |].
      unfold sys_inv. sys_simpl.
      split_and!; [intros []; sys_simpl; by rewrite ?Hrun | done |
                   apply Forall_app; split; [apply Forall_app; split|]; done | by apply trace_ok_app].
  - rewrite Hn in Hnet. apply Forall_app in Hnet as [Hpre [_ Hpost]%Forall_cons].
    unfold sys_inv. sys_simpl. split_and!; [intros []; sys_simpl; done | done | by apply Forall_app | done].
Qed.

(** The invariant holds along every run, so in every reachable state. *)
Lemma rtc_inv (s s' : sys) : rtc step s s' -> sys_inv s -> sys_inv s'.
Proof. induction 1 as [|x y z Hxy _ IH]; [done|]. intros Hx. by apply IH, (step_inv x y). Qed.

Lemma reachable_inv (o1 o2 : ot_stack) (s : sys) : reachable o1 o2 s -> sys_inv s.
Proof. intros Hr. apply (rtc_inv _ _ Hr), sys_inv_init. Qed.

(** ** NODE_2's announce, once lost, is lost for good *)

(** The regions of NODE_1's [app_task]: sends and prints only. *)
Lemma node1_app_region_nodes (pc : nat) (st : comm_state) :
  1 <= pc -> nodes (run_calls (node1_region pc) st).1.2 = nodes st.
Proof.
  intros Hpc. destruct pc as [|i]; [lia|].
  set (app_call := fun c => match c with CallSend _ _ | CallPrintNodes => True | _ => False end).
  assert (Forall app_call (node1_region (S i))) as Hcs.
  { cbn [node1_region]. destruct (node1_app_regions i !! i) as [r|] eqn:Hr; [|constructor].
    apply list_elem_of_lookup_2 in Hr. unfold node1_app_regions in Hr.
    apply elem_of_app in Hr as [Hr | (-> & _)%elem_of_replicate].
    - repeat (apply elem_of_cons in Hr as [-> | Hr]; [by repeat constructor|]).
      by apply not_elem_of_nil in Hr.
    - by repeat constructor. }
  refine (proj1 (run_calls_inv app_call (fun st' => nodes st' = nodes st) (fun _ => True) _ _ st Hcs eq_refl)).
  intros c st' Hc Hst'. split; [|done].
  destruct c; try done; cbn [run_call].
  - by rewrite thread_comm_send_set_ot.
  - by rewrite thread_comm_print_nodes_run.
Qed.

Definition lost_ok (p : packet) : bool :=
  negb (bool_decide (pk_src p = Board2)) || String.prefix "DATA|" (dg_bytes (pk_dg p)).

Lemma lost_ok_sent (b : board) (evs : list event) :
  (b = Board1 \/ forall d, EvUdpSend d ∈ evs -> String.prefix "DATA|" (dg_bytes d) = true) ->
  forallb lost_ok (sent b evs) = true.
Proof.
  intros Hb. apply forallb_forall. intros p (Hsrc & Hin)%list_elem_of_In%sent_elem.
  unfold lost_ok. destruct Hb as [-> | Hd].
  - by rewrite Hsrc.
  - by rewrite (Hd _ Hin), orb_true_r.
Qed.

Lemma node2_lost_step (s s' : sys) :
  step s s' -> sys_inv s -> node2_lost s -> node2_lost s'.
Proof.
  intros Hstep Hinv (Hpc1 & Hpc2 & Ha & Hf & Hnet).
  unfold node2_lost in *. fold lost_ok in Hnet |- *.
  destruct Hstep as [s|s Hpc|s role Hpc|s pre p post Hn Hacc|s pre p post Hn].
  - sys_simpl. rewrite node1_app_region_nodes by done.
    split_and!; try done; [lia|]. rewrite forallb_app, Hnet. apply lost_ok_sent. by left.
  - congruence.
  - sys_simpl. rewrite Ha. cbn [node2_app_iter negb andb fst snd run_calls stm_ret]. sys_simpl.
    split_and!; try done. by rewrite app_nil_r.
  - rewrite Hn, forallb_app in Hnet. cbn [forallb] in Hnet.
    apply andb_prop in Hnet as [Hpre [Hp Hpost]%andb_prop].
    destruct (pk_src p) eqn:Hsrc; sys_simpl.
    + split_and!; try done. rewrite !forallb_app, Hpre, Hpost. apply lost_ok_sent. right.
      intros d Hd. rewrite run_calls_cons in Hd. cbn [run_calls stm_ret snd] in Hd.
      rewrite app_nil_r in Hd. by apply (node_rx_data (node2 s) p).
    + unfold lost_ok in Hp. rewrite Hsrc in Hp. cbn in Hp.
      rewrite run_calls_cons. cbn [run_calls stm_ret fst snd]. rewrite node_rx_data_state by done.
      split_and!; try done. rewrite !forallb_app, Hpre, Hpost. apply lost_ok_sent. by left.
  - rewrite Hn, forallb_app in Hnet. cbn [forallb] in Hnet.
    apply andb_prop in Hnet as [Hpre [_ Hpost]%andb_prop].
    sys_simpl. split_and!; try done. by rewrite forallb_app, Hpre, Hpost.
Qed.

Lemma node2_lost_rtc (s s' : sys) :
  rtc step s s' -> sys_inv s -> node2_lost s -> node2_lost s' /\ sys_inv s'.
Proof.
  induction 1 as [|x y z Hxy _ IH]; [done|]. intros Hx Hl.
  apply IH; [by apply (step_inv x y) | by apply (node2_lost_step x y)].
Qed.

(** ** The scheduler takes steps *)

Lemma sched_step_sound (c : choice) (s s' : sys) : sched_step c s = Some s' -> step s s'.
Proof.
  destruct c as [| |role|i|i]; cbn [sched_step].
  - intros [= <-]. apply step_node1.
  - destruct (Nat.eqb_spec (pc2 s) 0); [|done]. intros [= <-]. by apply step_node2_worker.
  - destruct (Nat.eqb_spec (pc2 s) 1); [|done]. intros [= <-]. by apply step_node2_app.
  - destruct (net s !! i) as [p|] eqn:Hp; [|done].
    destruct (accepts s p) eqn:Hacc; [|done]. intros [= <-].
    apply (step_deliver s _ p); [|done]. by rewrite take_drop_middle.
  - destruct (net s !! i) as [p|] eqn:Hp; [|done]. intros [= <-].
    apply (step_lose s _ p). by rewrite take_drop_middle.
Qed.

Lemma run_sched_sound (cs : list choice) (s s' : sys) : run_sched cs s = Some s' -> rtc step s s'.
Proof.
  revert s. induction cs as [|c cs IH]; intros s; cbn [run_sched]; [by intros [= <-]|].
  destruct (sched_step c s) as [s1|] eqn:H1; [|done]. cbn. intros Hr.
  apply (rtc_l _ _ s1); [by apply (sched_step_sound c) | by apply IH].
Qed.

(** ** Theorems *)

(** C28 (safety): in every reachable state of the two boards, every
    entry of a board's table is the other board, under its identity and
    at its address: no board registers itself from its own announce,
    and no entry is made up. *)
Theorem registered_peer_is_other_board (o1 o2 : ot_stack) (s : sys) (b : board)
    (id : string) (n : thread_node_t) :
  reachable o1 o2 s -> find_entry (nodes (node_of b s)) id = Some n ->
  id = board_name (other b) /\ eid n = board_addr (other b).
Proof.
  intros Hr Hf. destruct (reachable_inv _ _ _ Hr) as (Hnodes & _).
  destruct (Hnodes b) as (Hwf & _ & Htab).
  apply find_entry_spec in Hf as (i & Hi & Ha & <-); [|apply Hwf].
  by apply (Htab i).
Qed.

(** C29 (bounds): in every reachable state, every datagram in flight
    has at most [PAYLOAD_LEN - 1] bytes, goes to [THREAD_COMM_PORT], and
    is either its sender's own HELLO or a DATA frame from its sender's
    identity. *)
Theorem in_flight_ok (o1 o2 : ot_stack) (s : sys) (p : packet) :
  reachable o1 o2 s -> p ∈ net s ->
  String.length (dg_bytes (pk_dg p)) <= PAYLOAD_LEN - 1 /\ dg_port (pk_dg p) = THREAD_COMM_PORT /\
  (dg_bytes (pk_dg p) = hello_frame (board_name (pk_src p)) (board_role (pk_src p)) \/
   exists payload, dg_bytes (pk_dg p) = data_frame (board_name (pk_src p)) payload).
Proof.
  intros Hr Hp. destruct (reachable_inv _ _ _ Hr) as (_ & _ & Hnet & _).
  destruct (proj1 (Forall_forall _ _) Hnet p Hp) as [[Hlen Hport] [Hb | (pl & _ & Hb)]];
    (split_and!; [done | done |]); [by left | by right; exists pl].
Qed.

(** C30 (safety): once NODE_2 has made its only announce and no HELLO
    of it is in flight, while NODE_1 (past its worker region) holds no
    [node_2], NODE_1 never learns [node_2] again, whatever the boards
    and the network do: every later [thread_comm_send("node_2", ...)]
    of NODE_1 only logs the warning. *)
Theorem node2_lost_forever (o1 o2 : ot_stack) (s s' : sys) (payload : string) :
  reachable o1 o2 s -> node2_lost s -> rtc step s s' ->
  find_entry (nodes (node1 s')) "node_2"%string = None /\
  (thread_comm_send "node_2" payload (node1 s')).2 = [LogNodeNotFound "node_2"%string].
Proof.
  intros Hr Hl Hs.
  destruct (node2_lost_rtc s s' Hs (reachable_inv _ _ _ Hr) Hl) as ((_ & _ & _ & Hf & _) & Hinv').
  destruct Hinv' as (Hnodes & _). destruct (Hnodes Board1) as (Hwf & _). cbn [node_of] in Hwf.
  split; [done|]. rewrite thread_comm_send_run. cbn [snd].
  by rewrite (find_entry_None _ _ (cwf_table _ Hwf) Hf).
Qed.

(** C20 (safety): in every reachable state, every line a board's
    [on_thread_data] has logged reports the other board as the sender,
    under its identity and at its address, whatever text OpenThread
    gives addresses: no board logs a message as coming from itself or
    from a peer that is not on the network. *)
Theorem rx_log_from_other_board (o1 o2 : ot_stack) (ip6_text : otIp6Address -> string)
    (s : sys) (b : board) (line : string) :
  reachable o1 o2 s -> (b, line) ∈ rx_log ip6_text s ->
  exists payload, line =
    match b with
    | Board1 => node1_on_thread_data ip6_text (board_name Board2) payload (board_addr Board2)
    | Board2 => node2_on_thread_data ip6_text (board_name Board1) payload (board_addr Board1)
    end.
Proof.
  intros Hr Hin. destruct (reachable_inv _ _ _ Hr) as (_ & _ & _ & Htr).
  apply list_elem_of_omap in Hin as ([b' e] & He & Hl). cbn in Hl.
  destruct (callback_line ip6_text b' e) as [l|] eqn:Hcl; [|done]. injection Hl as <- <-.
  destruct e as [|cb from payload src| | | |]; try done. cbn in Hcl.
  case_decide; [|done]. injection Hcl as <-.
  destruct (proj1 (Forall_forall _ _) Htr _ He cb from payload src eq_refl) as [-> ->].
  exists payload. by destruct b'.
Qed.

(** C31 (liveness): from every reachable state in which NODE_1's
    [app_task] is in its send loop with [node_2] in its table and
    OpenThread taking its datagram, and NODE_2's main loop runs with the
    socket bound to [THREAD_COMM_PORT] and [on_thread_data] registered,
    two steps (NODE_1's next loop region, then NODE_2's main loop
    receiving the datagram) bring the reading [temp:25.5, hum:60] to
    NODE_2's [on_thread_data] as sent by [node_1] from NODE_1's address,
    and NODE_2 logs it as
    [RX from node_1 (<NODE_1's address>): temp:25.5, hum:60], whatever
    text OpenThread gives the address. *)
Theorem node1_reading_delivered (o1 o2 : ot_stack) (s : sys) :
  reachable o1 o2 s -> 3 <= pc1 s -> pc2 s = 1 ->
  is_Some (find_node (nodes (node1 s)) "node_2"%string) ->
  udp_sent (ot (node1 s)) = true ->
  bound_to (sock (node2 s)) THREAD_COMM_PORT = true ->
  rx_cb (node2 s) = Some on_thread_data ->
  exists s', rtc step s s' /\
    (Board2, EvRxCallback on_thread_data "node_1" "temp:25.5, hum:60" (board_addr Board1)) ∈ trace s' /\
    forall ip6_text,
      (Board2, "RX from node_1 (" ++ ip_string ip6_text (board_addr Board1) ++ "): temp:25.5, hum:60")%string
        ∈ rx_log ip6_text s'.
Proof.
  intros Hr Hpc1 Hpc2 [j Hj] Hsent Hbound Hcb.
  destruct (reachable_inv _ _ _ Hr) as (Hnodes & _ & _ & _).
  destruct (Hnodes Board1) as (Hwf & Hid & Htab). cbn [node_of mainloop_running] in Hwf, Hid, Htab.
  destruct (Hid ltac:(apply Nat.leb_le; lia)) as [Hself _].
  destruct (find_node_Some _ _ _ (wf_length _ (cwf_table _ Hwf)) Hj) as (n & Hn & Ha & _).
  destruct (Htab j n Hn Ha) as [_ Heid].
  set (p := mkPacket Board1 (mkDatagram (board_addr Board2) THREAD_COMM_PORT
                               (data_frame "node_1" "temp:25.5, hum:60"))).
  set (s1 := set_pc1 (S (pc1 s)) (run_on Board1 (node1_region (pc1 s)) s)).
  assert (Hnet : exists post, net s1 = net s ++ p :: post).
  { subst s1. destruct (pc1 s) as [|[|[|i]]]; [lia..|].
    rewrite node1_region_loop by lia. sys_simpl.
    rewrite run_calls_cons. cbn [run_call]. rewrite thread_comm_send_run, Hj, Hn, Hsent, Hself, Heid.
    cbn [snd app sent]. by eexists. }
  destruct Hnet as [post Hnet].
  assert (Hacc : accepts s1 p = true).
  { unfold accepts. subst s1 p. cbn [pk_src pk_dg other dg_port dg_addr]. sys_simpl.
    rewrite Hpc2, Hbound, (bool_decide_eq_true_2 (board_addr Board2 = board_addr Board2)) by done.
    by rewrite orb_true_r. }
  set (s2 := run_on (other (pk_src p)) [rx_call p] (set_net (net s ++ post) s1)).
  assert (Hin : (Board2, EvRxCallback on_thread_data "node_1" "temp:25.5, hum:60" (board_addr Board1))
                  ∈ trace s2).
  { subst s2 s1 p. cbn [other pk_src]. sys_simpl.
    apply elem_of_app. right. apply list_elem_of_fmap. eexists. split; [reflexivity|].
    rewrite run_calls_cons. cbn [run_calls stm_ret snd]. rewrite app_nil_r.
    cbn [run_call rx_call pk_dg pk_src dg_bytes dg_port]. rewrite udp_handler_run.
    assert (Nat.eqb (String.length (otMessageRead (data_frame "node_1" "temp:25.5, hum:60") 0
                                      (PAYLOAD_LEN - 1))) 0 = false) as -> by (vm_compute; reflexivity).
    assert (decode (rx_text (data_frame "node_1" "temp:25.5, hum:60")) =
            Data "node_1" "temp:25.5, hum:60") as -> by (vm_compute; reflexivity).
    rewrite Hcb. by apply list_elem_of_singleton. }
  exists s2. split_and!.
  - apply (rtc_l _ _ s1); [apply step_node1|]. apply rtc_once. by apply (step_deliver s1 _ p).
  - exact Hin.
  - intros ip6_text. apply list_elem_of_omap. eexists. split; [exact Hin | reflexivity].
Qed.

End Network.

Lemma node2_lost_forever_witness :
  let s := default (sys_init ot_ready ot_ready) (run_sched mesh_addr lost_run (sys_init ot_ready ot_ready)) in
  reachable mesh_addr ot_ready ot_ready s /\ node2_lost s /\ rtc (step mesh_addr) s s /\
  find_entry (nodes (node1 s)) "node_2"%string = None /\
  (thread_comm_send "node_2" "ping" (node1 s)).2 = [LogNodeNotFound "node_2"%string].
Proof.
  intros s.
  assert (reachable mesh_addr ot_ready ot_ready s) as Hr
    by (apply (run_sched_sound _ lost_run); vm_compute; reflexivity).
  assert (node2_lost s) as Hl by (split_and!; vm_compute; first [reflexivity | lia]).
  split; [exact Hr|]. split; [exact Hl|]. split; [apply rtc_refl|].
  exact (node2_lost_forever mesh_addr _ _ s s "ping" Hr Hl (rtc_refl _ s)).
Defined.

(** NODE_1's worker region, NODE_2's worker and app regions, the
    delivery of NODE_2's announce, and three regions of NODE_1's
    [app_task]: NODE_1 is in its send loop. *)
Lemma node1_reading_delivered_witness :
  let s := default (sys_init ot_ready ot_ready)
             (run_sched mesh_addr [RunNode1; RunNode2Worker; RunNode2App OT_DEVICE_ROLE_CHILD; Deliver 3;
                                   RunNode1; RunNode1; RunNode1] (sys_init ot_ready ot_ready)) in
  reachable mesh_addr ot_ready ot_ready s /\ 3 <= pc1 s /\
  exists s', rtc (step mesh_addr) s s' /\
    (Board2, EvRxCallback on_thread_data "node_1" "temp:25.5, hum:60" (mesh_addr Board1)) ∈ trace s'.
Proof.
  intros s.
  assert (reachable mesh_addr ot_ready ot_ready s) as Hr
    by (apply (run_sched_sound _ [RunNode1; RunNode2Worker; RunNode2App OT_DEVICE_ROLE_CHILD; Deliver 3;
                                  RunNode1; RunNode1; RunNode1]); vm_compute; reflexivity).
  assert (3 <= pc1 s) as Hpc by (vm_compute; lia).
  split; [exact Hr|]. split; [exact Hpc|].
  destruct (node1_reading_delivered mesh_addr ot_ready ot_ready s Hr Hpc)
    as (s' & Hs' & Hin & _);
    [vm_compute; reflexivity | vm_compute; eexists; reflexivity | vm_compute; reflexivity
    | vm_compute; reflexivity | vm_compute; reflexivity |].
  exists s'. split; [exact Hs' | exact Hin].
Defined.

Lemma registered_peer_is_other_board_witness :
  let s := default (sys_init ot_ready ot_ready) (run_sched mesh_addr deliver_run (sys_init ot_ready ot_ready)) in
  reachable mesh_addr ot_ready ot_ready s /\
  find_entry (nodes (node_of Board1 s)) "node_2"%string =
    Some (mkNode true "node_2" "receive" (mesh_addr Board2)) /\
  "node_2"%string = board_name (other Board1) /\
  eid (mkNode true "node_2" "receive" (mesh_addr Board2)) = mesh_addr (other Board1).
Proof.
  intros s.
  assert (reachable mesh_addr ot_ready ot_ready s) as Hr
    by (apply (run_sched_sound _ deliver_run); vm_compute; reflexivity).
  assert (find_entry (nodes (node_of Board1 s)) "node_2"%string =
          Some (mkNode true "node_2" "receive" (mesh_addr Board2))) as Hf
    by (vm_compute; reflexivity).
  split; [exact Hr|]. split; [exact Hf|].
  exact (registered_peer_is_other_board mesh_addr _ _ s Board1 _ _ Hr Hf).
Defined.

Lemma in_flight_ok_witness :
  let s := default (sys_init ot_ready ot_ready) (run_sched mesh_addr deliver_run (sys_init ot_ready ot_ready)) in
  let p := mkPacket Board1 (mkDatagram ip6_ff02_1 THREAD_COMM_PORT (hello_frame "node_1" "receiver")) in
  reachable mesh_addr ot_ready ot_ready s /\ p ∈ net s /\
  String.length (dg_bytes (pk_dg p)) <= PAYLOAD_LEN - 1 /\ dg_port (pk_dg p) = THREAD_COMM_PORT /\
  (dg_bytes (pk_dg p) = hello_frame (board_name (pk_src p)) (board_role (pk_src p)) \/
   exists payload, dg_bytes (pk_dg p) = data_frame (board_name (pk_src p)) payload).
Proof.
  intros s p.
  assert (reachable mesh_addr ot_ready ot_ready s) as Hr
    by (apply (run_sched_sound _ deliver_run); vm_compute; reflexivity).
  assert (p ∈ net s) as Hp by (apply (list_elem_of_lookup_2 _ 0); vm_compute; reflexivity).
  split; [exact Hr|]. split; [exact Hp|].
  exact (in_flight_ok mesh_addr _ _ s p Hr Hp).
Defined.

Lemma rx_log_from_other_board_witness :
  let s := default (sys_init ot_ready ot_ready) (run_sched mesh_addr deliver_run (sys_init ot_ready ot_ready)) in
  let ip6_text := fun _ : otIp6Address => "fd00::1"%string in
  reachable mesh_addr ot_ready ot_ready s /\
  (Board2, "RX from node_1 (fd00::1): temp:25.5, hum:60"%string) ∈ rx_log ip6_text s /\
  exists payload, "RX from node_1 (fd00::1): temp:25.5, hum:60"%string =
    node2_on_thread_data ip6_text (board_name Board1) payload (mesh_addr Board1).
Proof.
  intros s ip6_text.
  assert (reachable mesh_addr ot_ready ot_ready s) as Hr
    by (apply (run_sched_sound _ deliver_run); vm_compute; reflexivity).
  assert ((Board2, "RX from node_1 (fd00::1): temp:25.5, hum:60"%string) ∈ rx_log ip6_text s) as Hin
    by (apply (list_elem_of_lookup_2 _ 0); vm_compute; reflexivity).
  split; [exact Hr|]. split; [exact Hin|].
  exact (rx_log_from_other_board mesh_addr _ _ ip6_text s Board2 _ Hr Hin).
Defined.

End System.
