(* ===== verification/Boot.v ===== *)
(** * Booting a board: [app_main], [init_openthread_netif] and [ot_task_worker]

    Before the system model of [System] starts, each board runs the
    bootstrap code of its esp_ot_cli.c: [app_main] initialises NVS, the
    default event loop, the netif layer and the eventfd VFS, each under
    [ESP_ERROR_CHECK], and creates the task [ot_task_worker]; the worker
    initialises OpenThread ([ESP_ERROR_CHECK]), creates and attaches the
    OpenThread netif ([init_openthread_netif], with an [assert] on the
    new netif), builds the dataset and starts Thread ([Dataset]), runs
    its locked region of [thread_comm] calls ([App]), creates [app_task]
    and enters the OpenThread main loop.

    The ESP-IDF and FreeRTOS services are external: their outcomes are
    read from an [esp_idf] record, as OpenThread's are read from
    [ot_stack].  [ESP_ERROR_CHECK] and a failed [assert] abort the board
    (they call [abort()]; assertions are enabled, ESP-IDF's default); [xTaskCreate] and [esp_netif_set_default_netif]
    have their results ignored by the code.  A computation of the boot
    monad [boot] returns [Done] or the call at which the board aborted,
    with the state reached; [mret], [mbind] and [mthrow] are stdpp's
    classes, so the code reads with stdpp's [x ← m; k] and [m ;; k].

    A created task runs its function: [ot_task_worker] has priority 5
    and preempts [app_main] (priority 1), whose remaining code is empty,
    so the worker's body follows [xTaskCreate] ([spawn]).  [app_task]
    (priority 3) runs once the worker blocks; its regions are the steps
    of [System], so its creation is only recorded here. *)

From Stdlib Require Import String ZArith Lia.
From stdpp Require Import base list strings.
From S2P Require Import Prelude Transport Dataset NodeTable Engine App System.

Module Boot.
Import Transport Dataset NodeTable Engine App System.

(** [esp_err_t] and [ESP_OK]. *)
Definition esp_err_t : Type := Z.
Definition ESP_OK : esp_err_t := 0%Z.

(** The ESP-IDF and FreeRTOS calls of the bootstrap code. *)
Inductive esp_call :=
| NvsFlashInit                           (** [nvs_flash_init()] *)
| EventLoopCreateDefault                 (** [esp_event_loop_create_default()] *)
| NetifInit                              (** [esp_netif_init()] *)
| VfsEventfdRegister (max_fds : Z)       (** [esp_vfs_eventfd_register(&cfg)] *)
| LogLevelSet (tag : string)             (** [esp_log_level_set(tag, ESP_LOG_NONE)] *)
| OpenthreadInit                         (** [esp_openthread_init(&config)] *)
| NetifNew                               (** [esp_netif_new(&cfg)] *)
| NetifGlueInit                          (** [esp_openthread_netif_glue_init(config)] *)
| NetifAttach                            (** [esp_netif_attach(netif, glue)] *)
| NetifSetDefault                        (** [esp_netif_set_default_netif(netif)] *)
| TaskCreate (name : string) (depth prio : Z)  (** [xTaskCreate(f, name, depth, NULL, prio, NULL)] *)
| LaunchMainloop.                        (** [esp_openthread_launch_mainloop()] *)

#[global] Instance esp_call_eq_dec : EqDecision esp_call.
Proof. solve_decision. Defined.

(** What the services answer: the [esp_err_t] of each call, whether
    [esp_netif_new] returns a netif (not [NULL]), and whether
    [xTaskCreate] of a task name returns [pdPASS]. *)
Record esp_idf := mkIdf {
  esp_result : esp_call -> esp_err_t;
  netif_new_ok : bool;
  task_create_ok : string -> bool
}.

(** A board during boot. *)
Record board_st := mkBoard {
  idf : esp_idf;
  calls : list esp_call;     (** the service calls made, in order *)
  tasks : list string;       (** the FreeRTOS tasks created *)
  thread : ot_thread;        (** the Thread interface of the instance *)
  comm : comm_state;         (** the statics of [thread_comm] *)
  events : list event        (** what [thread_comm] did *)
}.

Definition board_init (i : esp_idf) (o : ot_stack) : board_st :=
  mkBoard i [] [] ot_thread_init (boot_state o) [].

Inductive outcome (A : Type) := Done (a : A) | Abort (c : esp_call).
Arguments Done {A} a.
Arguments Abort {A} c.

(** The boot monad: state passing with abort, which keeps the state
    reached. *)
Definition boot (A : Type) : Type := board_st -> outcome A * board_st.

#[global] Instance boot_ret : MRet boot := fun A a s => (Done a, s).
#[global] Instance boot_bind : MBind boot := fun A B f m s =>
  match m s with
  | (Done a, s') => f a s'
  | (Abort c, s') => (Abort c, s')
  end.
#[global] Instance boot_throw : MThrow esp_call boot := fun A c s => (Abort c, s).

(** ** The services *)

Definition log_call (c : esp_call) (s : board_st) : board_st :=
  mkBoard (idf s) (calls s ++ [c]) (tasks s) (thread s) (comm s) (events s).

(** A call whose result the code ignores. *)
Definition call_ (c : esp_call) : boot unit := fun s => (Done tt, log_call c s).

(** A call returning [esp_err_t]. *)
Definition call (c : esp_call) : boot esp_err_t :=
  fun s => (Done (esp_result (idf s) c), log_call c s).

(** [ESP_ERROR_CHECK(x)]: [abort()] unless [x] is [ESP_OK]. *)
Definition ESP_ERROR_CHECK (c : esp_call) : boot unit :=
  e ← call c; if bool_decide (e = ESP_OK) then mret tt else mthrow c.

(** [esp_netif_new]: [true] for a netif, [false] for [NULL]. *)
Definition esp_netif_new : boot bool :=
  fun s => (Done (netif_new_ok (idf s)), log_call NetifNew s).

(** [assert(netif)]. *)
Definition c_assert (b : bool) (c : esp_call) : boot unit :=
  if b then mret tt else mthrow c.

(** [xTaskCreate]: [true] for [pdPASS]; a created task is added. *)
Definition xTaskCreate (name : string) (depth prio : Z) : boot bool :=
  fun s =>
    let ok := task_create_ok (idf s) name in
    (Done ok, mkBoard (idf s) (calls s ++ [TaskCreate name depth prio])
                (if ok then tasks s ++ [name] else tasks s) (thread s) (comm s) (events s)).

(** A created task runs its function ([ot_task_worker] preempts
    [app_main], see above). *)
Definition spawn (name : string) (depth prio : Z) (body : boot unit) : boot unit :=
  created ← xTaskCreate name depth prio; match created with true => body | false => mret tt end.

(** The "Start Thread" region on the dataset the writes [ws] build. *)
Definition start_thread_region (ws : list dataset_write) : boot unit := fun s =>
  (Done tt, mkBoard (idf s) (calls s) (tasks s)
              (start_thread (otDatasetConvertToTlvs (build_dataset ws)) (thread s))
              (comm s) (events s)).

(** A locked region of [thread_comm] calls. *)
Definition comm_region (cs : list api_call) : boot unit := fun s =>
  let r := run_calls cs (comm s) in
  (Done tt, mkBoard (idf s) (calls s) (tasks s) (thread s) r.1.2 (events s ++ r.2)).

(** ** NODE_1 (src/NODE_1/main/esp_ot_cli.c) *)

Definition init_openthread_netif : boot unit :=
  netif ← esp_netif_new;
  c_assert netif NetifNew;;
  call_ NetifGlueInit;;
  ESP_ERROR_CHECK NetifAttach.

Definition node1_ot_task_worker : boot unit :=
  ESP_ERROR_CHECK OpenthreadInit;;
  init_openthread_netif;;
  call_ NetifSetDefault;;
  start_thread_region node1_dataset_writes;;
  comm_region node1_worker_region;;
  _ ← xTaskCreate "app_task" 4096 3;
  call_ LaunchMainloop.

Definition node1_app_main : boot unit :=
  ESP_ERROR_CHECK NvsFlashInit;;
  ESP_ERROR_CHECK EventLoopCreateDefault;;
  ESP_ERROR_CHECK NetifInit;;
  ESP_ERROR_CHECK (VfsEventfdRegister 3);;
  spawn "ot_node_1" 10240 5 node1_ot_task_worker.

(** ** NODE_2 (src/NODE_2/main/esp_ot_cli.c) *)

Definition node2_init_openthread_netif : boot unit :=
  netif ← esp_netif_new;
  c_assert netif NetifNew;;
  call_ NetifGlueInit;;
  ESP_ERROR_CHECK NetifAttach.

Definition node2_ot_task_worker : boot unit :=
  call_ (LogLevelSet "OPENTHREAD");;
  ESP_ERROR_CHECK OpenthreadInit;;
  node2_init_openthread_netif;;
  call_ NetifSetDefault;;
  start_thread_region node2_dataset_writes;;
  comm_region node2_worker_region;;
  _ ← xTaskCreate "app_task" 4096 3;
  call_ LaunchMainloop.

Definition node2_app_main : boot unit :=
  ESP_ERROR_CHECK NvsFlashInit;;
  ESP_ERROR_CHECK EventLoopCreateDefault;;
  ESP_ERROR_CHECK NetifInit;;
  ESP_ERROR_CHECK (VfsEventfdRegister 3);;
  spawn "ot_node_2" 10240 5 node2_ot_task_worker.

Definition node_boot (b : board) : boot unit :=
  match b with Board1 => node1_app_main | Board2 => node2_app_main end.

Definition worker_task_name (b : board) : string :=
  match b with Board1 => "ot_node_1" | Board2 => "ot_node_2" end.

(** ** What the boot depends on

    A checked call passes when the service answers [ESP_OK] (for
    [esp_netif_new], a netif); the checks in the order the code makes
    them: [app_main]'s four, then, when the worker task is created, the
    worker's three. *)
Definition check_ok (i : esp_idf) (c : esp_call) : bool :=
  match c with
  | NetifNew => netif_new_ok i
  | _ => bool_decide (esp_result i c = ESP_OK)
  end.

Definition app_main_checks : list esp_call :=
  [NvsFlashInit; EventLoopCreateDefault; NetifInit; VfsEventfdRegister 3].

Definition worker_checks : list esp_call := [OpenthreadInit; NetifNew; NetifAttach].

Definition boot_checks (b : board) (i : esp_idf) : list esp_call :=
  app_main_checks ++ (if task_create_ok i (worker_task_name b) then worker_checks else []).

(** Unfold the boot code down to the services' answers, leaving the
    dataset and the [thread_comm] calls folded. *)
Ltac boot_unfold :=
  unfold node_boot, node1_app_main, node2_app_main, spawn, node1_ot_task_worker,
    node2_ot_task_worker, init_openthread_netif, node2_init_openthread_netif,
    ESP_ERROR_CHECK, c_assert, mbind, boot_bind, mret, boot_ret, mthrow, boot_throw,
    boot_checks, check_ok, app_main_checks, worker_checks;
  cbn -[run_calls build_dataset].

(** Split on the next answer of a service; the boot then runs on. *)
Ltac boot_split :=
  match goal with
  | |- context [bool_decide (esp_result ?i ?c = ESP_OK)] =>
      destruct (bool_decide (esp_result i c = ESP_OK)) eqn:?
  | |- context [netif_new_ok ?i] => destruct (netif_new_ok i) eqn:?
  | |- context [task_create_ok ?i ?n] => destruct (task_create_ok i n) eqn:?
  end; cbn -[run_calls build_dataset].

(** Example answers of the services: all succeed; [esp_netif_init]
    fails; NODE_2's worker task cannot be created. *)
Definition idf_ok : esp_idf := mkIdf (λ _, ESP_OK) true (λ _, true).

Definition idf_netif_init_fails : esp_idf :=
  mkIdf (λ c, if decide (c = NetifInit) then (-1)%Z else ESP_OK) true (λ _, true).

Definition idf_no_worker : esp_idf :=
  mkIdf (λ _, ESP_OK) true (λ n, negb (bool_decide (n = "ot_node_2"))).

(** ** Theorems *)

(** C33 (error): a board aborts during boot exactly at the first of
    its checked calls ([ESP_ERROR_CHECK], the [assert] on the new netif)
    that fails, in the order of the code, the worker's checks counting
    only when the worker task is created; the failing call is the last
    one made, and the board has then neither started Thread nor
    initialised [thread_comm], and sent nothing. *)
Theorem node_boot_abort (b : board) (i : esp_idf) (o : ot_stack) (c : esp_call) :
  let r := node_boot b (board_init i o) in
  (r.1 = Abort c <-> find (λ c', negb (check_ok i c')) (boot_checks b i) = Some c) /\
  (r.1 = Abort c ->
   last (calls r.2) = Some c /\ thread r.2 = ot_thread_init /\
   comm r.2 = boot_state o /\ events r.2 = []).
Proof.
  destruct b; boot_unfold; repeat boot_split.
  all: split; [split|]; intros; simplify_eq/=; first [done | congruence].
Qed.

(** The [thread_comm] state each board's worker region leaves after
    boot: the board's identity, role [receiver], the callback
    [on_thread_data], an empty table, and the socket bound when
    OpenThread opens and binds it. *)
Lemma worker_region_state (b : board) (o : ot_stack) :
  let st := (run_calls (match b with Board1 => node1_worker_region | Board2 => node2_worker_region end)
               (boot_state o)).1.2 in
  self_id st = board_name b /\ self_role st = "receiver"%string /\
  rx_cb st = Some on_thread_data /\ nodes st = nodes_zero /\
  (ot_open_result o = OT_ERROR_NONE -> ot_bind_result o = OT_ERROR_NONE ->
   sock st = SockBound THREAD_COMM_PORT).
Proof.
  destruct o as [op bi fb sr]. cbv zeta.
  destruct b; [destruct (node1_worker_state (boot_state (mkOt op bi fb sr))) as [o' ->]|];
    destruct op, bi; split_and!; try reflexivity; intros; discriminate.
Qed.

(** C34 (refinement): when every check passes and the worker task is
    created, a board's boot ends in the OpenThread main loop with the
    network started: [joined_dataset] active, IPv6 and Thread enabled;
    the tasks [ot_node_n] and (if created) [app_task]; [thread_comm]
    initialised with the board's identity, role [receiver], the
    callback [on_thread_data], an empty table and, when OpenThread
    opens and binds the socket, the socket bound to
    [THREAD_COMM_PORT].  That [thread_comm] state and the datagrams of
    the boot are exactly those of the board's first step of the system
    model from [sys_init]: the system model starts where the boot code
    leaves the board. *)
Theorem node_boot_system (board_addr : board -> otIp6Address) (b : board)
    (i : esp_idf) (o1 o2 : ot_stack) :
  Forall (λ c, check_ok i c = true) (boot_checks b i) ->
  task_create_ok i (worker_task_name b) = true ->
  let o := match b with Board1 => o1 | Board2 => o2 end in
  let r := node_boot b (board_init i o) in
  r.1 = Done tt /\ last (calls r.2) = Some LaunchMainloop /\
  thread r.2 = mkThread (Some joined_dataset) true true /\
  tasks r.2 = worker_task_name b :: (if task_create_ok i "app_task" then ["app_task"] else []) /\
  self_id (comm r.2) = board_name b /\ self_role (comm r.2) = "receiver"%string /\
  rx_cb (comm r.2) = Some on_thread_data /\ nodes (comm r.2) = nodes_zero /\
  (ot_open_result o = OT_ERROR_NONE -> ot_bind_result o = OT_ERROR_NONE ->
   sock (comm r.2) = SockBound THREAD_COMM_PORT) /\
  exists s, step board_addr (sys_init o1 o2) s /\ mainloop_running b s = true /\
    node_of b s = comm r.2 /\ node_of (other b) s = node_of (other b) (sys_init o1 o2) /\
    net s = sent b (events r.2).
Proof.
  intros Hall Htask.
  unfold boot_checks, app_main_checks, worker_checks, check_ok in Hall.
  rewrite Htask in Hall. cbn in Hall. rewrite !Forall_cons in Hall. destruct_and! Hall.
  destruct node_threads_joined as [Ht1 Ht2].
  destruct b; cbn [worker_task_name] in Htask;
    [destruct (worker_region_state Board1 o1) as (Hid & Hrole & Hcb & Hn & Hsock)
    |destruct (worker_region_state Board2 o2) as (Hid & Hrole & Hcb & Hn & Hsock)];
    cbv zeta; boot_unfold; repeat boot_split; try congruence.
  all: split_and!; first [done | exact Ht1 | exact Ht2 | exact Hid | exact Hrole | exact Hcb
                         | exact Hn | exact Hsock | idtac].
  all: eexists; first [split; [apply step_node1 | cbn; split_and!; reflexivity]
                     | split; [by apply step_node2_worker | cbn; split_and!; reflexivity]].
Qed.

(** C35 (error): when [xTaskCreate] of the worker task fails, [app_main]
    ignores its result and returns normally: the board aborts nothing,
    reports nothing, and never starts Thread, creates a task or
    initialises [thread_comm]. *)
Theorem node_boot_no_worker (b : board) (i : esp_idf) (o : ot_stack) :
  Forall (λ c, check_ok i c = true) app_main_checks ->
  task_create_ok i (worker_task_name b) = false ->
  let r := node_boot b (board_init i o) in
  r.1 = Done tt /\ tasks r.2 = [] /\ thread r.2 = ot_thread_init /\
  comm r.2 = boot_state o /\ events r.2 = [].
Proof.
  intros Hall Htask. unfold app_main_checks, check_ok in Hall.
  cbn in Hall. rewrite !Forall_cons in Hall. destruct_and! Hall.
  destruct b; cbn [worker_task_name] in Htask; boot_unfold; repeat boot_split;
    try congruence; done.
Qed.

Lemma node_boot_abort_witness :
  (node_boot Board2 (board_init idf_netif_init_fails ot_ready)).1 = Abort NetifInit /\
  comm (node_boot Board2 (board_init idf_netif_init_fails ot_ready)).2 = boot_state ot_ready.
Proof.
  destruct (node_boot_abort Board2 idf_netif_init_fails ot_ready NetifInit) as [Hiff Hab].
  assert (H : (node_boot Board2 (board_init idf_netif_init_fails ot_ready)).1 = Abort NetifInit)
    by (apply Hiff; vm_compute; reflexivity).
  split; [exact H | exact (proj1 (proj2 (proj2 (Hab H))))].
Defined.

Lemma node_boot_system_witness :
  Forall (λ c, check_ok idf_ok c = true) (boot_checks Board1 idf_ok) /\
  task_create_ok idf_ok (worker_task_name Board1) = true /\
  (node_boot Board1 (board_init idf_ok ot_ready)).1 = Done tt.
Proof.
  assert (Hall : Forall (λ c, check_ok idf_ok c = true) (boot_checks Board1 idf_ok))
    by (vm_compute; repeat constructor).
  split; [exact Hall | split; [reflexivity |]].
  exact (proj1 (node_boot_system mesh_addr Board1 idf_ok ot_ready ot_ready Hall eq_refl)).
Defined.

Lemma node_boot_no_worker_witness :
  Forall (λ c, check_ok idf_no_worker c = true) app_main_checks /\
  task_create_ok idf_no_worker (worker_task_name Board2) = false /\
  tasks (node_boot Board2 (board_init idf_no_worker ot_ready)).2 = [].
Proof.
  assert (Hall : Forall (λ c, check_ok idf_no_worker c = true) app_main_checks)
    by (vm_compute; repeat constructor).
  assert (Ht : task_create_ok idf_no_worker (worker_task_name Board2) = false)
    by (vm_compute; reflexivity).
  split; [exact Hall | split; [exact Ht |]].
  exact (proj1 (proj2 (node_boot_no_worker Board2 idf_no_worker ot_ready Hall Ht))).
Defined.

End Boot.
