(* ===== verification/Scenarios.v ===== *)
(** * The spec's scenarios, run on the model of the code

    Concrete runs of the engine from the boot state, with the
    parameters the repository's applications use ([node_1] and
    [node_2], both with role [receiver], port 61631).  Each theorem is
    closed and proved by evaluation; together with the general theorems
    of [Engine] they document where the code and the spec agree and
    where they part. *)

From Stdlib Require Import String Ascii ZArith.
From stdpp Require Import base list strings.
From S2P Require Import Prelude CStr Transport NodeTable Codec Engine.

#[local] Open Scope string_scope.

Module Scenarios.
Import Transport NodeTable Codec Engine.

(** OpenThread with the socket calls succeeding and buffers free. *)
Definition ot_ok : ot_stack := mkOt OT_ERROR_NONE OT_ERROR_NONE 4 OT_ERROR_NONE.

Definition fd00_2 : otIp6Address := mkIp6 [0xfd00; 0; 0; 0; 0; 0; 0; 2]%Z.
Definition fd00_1 : otIp6Address := mkIp6 [0xfd00; 0; 0; 0; 0; 0; 0; 1]%Z.

(** [thread_comm_init(instance, "node_1", "receiver")] after boot. *)
Definition node_a : comm_state :=
  (thread_comm_init "node_1" "receiver" (boot_state ot_ok)).1.2.

Definition from_b : otMessageInfo := mkInfo fd00_2 THREAD_COMM_PORT.

Definition after_hello_b : comm_state * list event :=
  let r := udp_handler (Some "HELLO|id=B|role=responder") (Some from_b) node_a in
  (r.1.2, r.2).

(** Spec scenario 1: node A, receiving [HELLO|id=B|role=responder]
    from fd00::2, stores B with role [respond] (the spec says
    [responder]: [%7s] keeps 7 characters) and answers with the DATA
    frame [DATA|from=node_1|HELLO|id=node_1|role=receiver] to fd00::2
    (the spec says a HELLO of A). *)
Example scenario_hello_registration :
  find_entry (nodes after_hello_b.1) "B" = Some (mkNode true "B" "respond" fd00_2) /\
  after_hello_b.2 =
    [EvUdpSend (mkDatagram fd00_2 THREAD_COMM_PORT
                  "DATA|from=node_1|HELLO|id=node_1|role=receiver")].
Proof. vm_compute. split; reflexivity. Qed.

(** Spec scenario 2: then [thread_comm_send("B", "temp:25.5")] sends
    exactly [DATA|from=node_1|temp:25.5] to fd00::2. *)
Example scenario_send_to_b :
  thread_comm_send "B" "temp:25.5" after_hello_b.1 =
    (tt, after_hello_b.1,
     [EvUdpSend (mkDatagram fd00_2 THREAD_COMM_PORT "DATA|from=node_1|temp:25.5")]).
Proof. vm_compute. reflexivity. Qed.

(** Spec scenario 3: [DATA|from=C|hello] with no callback registered
    returns with no state change and no effect. *)
Example scenario_data_without_callback :
  udp_handler (Some "DATA|from=C|hello") (Some from_b) node_a = (tt, node_a, []).
Proof. vm_compute. reflexivity. Qed.

(** The two boards: node_1 announces, node_2 receives; node_2 answers. *)
Definition node_2 : comm_state :=
  (run_calls [CallInit "node_2" "receiver"; CallRegisterCb (Some "on_thread_data")]
     (boot_state ot_ok)).1.2.

Definition node_2_after : comm_state * list event :=
  let r := udp_handler (Some "HELLO|id=node_1|role=receiver")
             (Some (mkInfo fd00_1 THREAD_COMM_PORT)) node_2 in
  (r.1.2, r.2).

(** The two boards of the repository: node_1's announce is the frame
    [HELLO|id=node_1|role=receiver]; node_2 registers node_1 with role
    [receive] and answers with a DATA frame. *)
Example scenario_two_boards :
  (thread_comm_announce node_a).2 =
    [EvUdpSend (mkDatagram ip6_ff02_1 THREAD_COMM_PORT "HELLO|id=node_1|role=receiver")] /\
  find_entry (nodes node_2_after.1) "node_1" = Some (mkNode true "node_1" "receive" fd00_1) /\
  node_2_after.2 =
    [EvUdpSend (mkDatagram fd00_1 THREAD_COMM_PORT
                  "DATA|from=node_2|HELLO|id=node_1|role=receiver")].
Proof. vm_compute. split_and!; reflexivity. Qed.

(** ** General forms *)

(** C21 (error): [udp_handler] does not check what [sscanf] returns.
    A datagram that starts with [HELLO|] but does not go on with [id=]
    leaves [id] and [role] zeroed, and is still registered: when the
    table has a slot for the empty id, the table then holds an active
    peer with an empty id and role at the sender's address, and the
    answer goes to that address. *)
Theorem udp_handler_hello_without_id (st : comm_state) (r : string) (inf : otMessageInfo) :
  table_wf (nodes st) -> String.prefix "id=" r = false ->
  is_Some (reg_slot (nodes st) EmptyString) ->
  let res := udp_handler (Some ("HELLO|" ++ r)) (Some inf) st in
  find_entry (nodes res.1.2) EmptyString = Some (mkNode true EmptyString EmptyString (mPeerAddr inf)) /\
  res.2 = if udp_sent (ot st)
          then [EvUdpSend (mkDatagram (mPeerAddr inf) THREAD_COMM_PORT
                             (data_frame (self_id st) HELLO_REPLY))]
          else [].
Proof.
  intros Hwf Hr Hslot. cbv zeta. rewrite udp_handler_run, decode_hello_no_id by done.
  rewrite (proj2 (Nat.eqb_neq _ 0)) by (apply rx_length_nonzero; by right).
  pose proof (register_node_find (nodes st) EmptyString EmptyString (mPeerAddr inf) Hwf
                ltac:(cbn; unfold NODE_ID_LEN; lia) Hslot) as Hf.
  rewrite thread_comm_send_run. cbn [nodes set_nodes ot self_id].
  unfold find_entry in Hf |- *.
  destruct (find_node (register_node EmptyString EmptyString (mPeerAddr inf) (nodes st)) EmptyString)
    as [i|] eqn:Hi; [|done].
  cbn in Hf. rewrite Hf. cbn [fst snd]. rewrite after_send_nodes. cbn [nodes set_nodes].
  rewrite Hi. cbn. by rewrite Hf.
Qed.

Lemma udp_handler_hello_without_id_witness :
  find_entry (nodes (udp_handler (Some ("HELLO|" ++ "garbage")) (Some from_b) node_a).1.2) EmptyString
    = Some (mkNode true EmptyString EmptyString fd00_2).
Proof.
  refine (proj1 (udp_handler_hello_without_id node_a "garbage" from_b _ _ _)).
  - apply table_wf_b_sound. vm_compute. reflexivity.
  - reflexivity.
  - vm_compute. eexists. reflexivity.
Defined.

(** C22: whatever datagram a module answers, its answer is a DATA
    frame, and delivered to any module, from any address, it changes
    nothing there: a HELLO is answered with DATA, not with the
    receiver's own HELLO, so the exchange never registers the answering
    node at the announcer (the spec answers with a HELLO, which would
    make the registration mutual). *)
Theorem udp_answer_changes_nothing (a b : comm_state) (m : string) (inf inf' : otMessageInfo) d :
  EvUdpSend d ∈ (udp_handler (Some m) (Some inf) a).2 ->
  String.prefix "DATA|" (dg_bytes d) = true /\
  (udp_handler (Some (dg_bytes d)) (Some inf') b).1.2 = b.
Proof.
  intros Hd. pose proof (udp_handler_sends_data a m inf d Hd) as Hpre.
  split; [exact Hpre|]. apply prefix_spec in Hpre as (r & ->).
  apply udp_handler_data_head_state.
Qed.

Lemma udp_answer_changes_nothing_witness :
  (udp_handler (Some "DATA|from=node_2|HELLO|id=node_1|role=receiver") (Some from_b) node_a).1.2 = node_a.
Proof.
  exact (proj2 (udp_answer_changes_nothing node_2 node_a "HELLO|id=node_1|role=receiver"
                  (mkInfo fd00_1 THREAD_COMM_PORT) from_b
                  (mkDatagram fd00_1 THREAD_COMM_PORT "DATA|from=node_2|HELLO|id=node_1|role=receiver")
                  ltac:(vm_compute; left))).
Defined.

End Scenarios.
